(** * procure-lens: the multi-tenant ingestion and retrieval pipeline

    A shallow embedding of the pipeline core of the repository:

    - [src/db/cosmos_db.py]                       (class [VectorStore])
    - [src/document_processing/text_splitter.py]  (class [DocumentProcessor])
    - [src/document_processing/pdf_parser.py]     (class [BatchPdfConverter])
    - [src/pipeline.py]                           (class [DocumentPipeline])

    Python objects become records, mutation becomes explicit state passing,
    and a call that may raise returns an [outcome].  The third-party
    collaborators (the Cosmos DB vector search of langchain, the marker PDF
    converter, langchain's [CharacterTextSplitter], [html.unescape]) are
    Section variables: the development holds for every behaviour they may
    have.  Texts are strings of 8-bit characters read as the code points
    U+0000..U+00FF, and dictionaries are finite maps from keys to strings. *)

From Stdlib Require Import ZArith QArith String Ascii List Bool Lia.
From stdpp Require Import base option list gmap strings fin_maps.

Local Open Scope string_scope.
Local Open Scope Z_scope.

(** ** Exceptions and outcomes *)

Module Py.

(** The exception classes the modelled code raises or lets through.
    [CollaboratorError] stands for any exception that comes out of a
    third-party call; [RetryError] is tenacity's wrapper around the
    exception of the last attempt. *)
Inductive exn : Type :=
| ValueError (msg : string)
| TypeError (msg : string)
| AttributeError (msg : string)
| ZeroDivisionError (msg : string)
| FileNotFoundError (msg : string)
| IndexError (msg : string)
| CollaboratorError (msg : string)
| RetryError (last_attempt : exn).

Definition exn_class (e : exn) : string :=
  match e with
  | ValueError _ => "ValueError"
  | TypeError _ => "TypeError"
  | AttributeError _ => "AttributeError"
  | ZeroDivisionError _ => "ZeroDivisionError"
  | FileNotFoundError _ => "FileNotFoundError"
  | IndexError _ => "IndexError"
  | CollaboratorError _ => "Exception"
  | RetryError _ => "RetryError"
  end.

(** [str(e)].  For [RetryError] tenacity prints the future of the last
    attempt, which shows the class of its exception and not its message. *)
Definition exn_str (e : exn) : string :=
  match e with
  | ValueError msg | TypeError msg | AttributeError msg
  | ZeroDivisionError msg | FileNotFoundError msg | IndexError msg
  | CollaboratorError msg => msg
  | RetryError last =>
      "RetryError[<Future state=finished raised " +:+ exn_class last +:+ ">]"
  end.

(** What a third-party call does: it returns or it raises. *)
Inductive reply (A : Type) : Type :=
| Returns (a : A)
| Raises (e : exn).
Arguments Returns {A} a.
Arguments Raises {A} e.

(** What a call of the modelled code does.  [Hang] is the coroutine that
    never resumes (a semaphore of value 0 that is awaited). *)
Inductive outcome (A : Type) : Type :=
| Ok (a : A)
| Raise (e : exn)
| Hang.
Arguments Ok {A} a.
Arguments Raise {A} e.
Arguments Hang {A}.

End Py.
Import Py.

(** ** Strings *)

Module Str.

Definition code (c : ascii) : Z := Z.of_nat (nat_of_ascii c).

(** [str.isspace] on one character, which is also the class [\s] of a
    [str] pattern: U+0009..U+000D, U+001C..U+0020, U+0085 and U+00A0. *)
Definition isspace (c : ascii) : bool :=
  let n := code c in
  ((9 <=? n) && (n <=? 13)) || ((28 <=? n) && (n <=? 32))
  || (n =? 133) || (n =? 160).

Definition is_newline (c : ascii) : bool := code c =? 10.
Definition is_blank (c : ascii) : bool := code c =? 32.

(** [str.lower] on one character: A..Z, and U+00C0..U+00DE without the
    multiplication sign U+00D7, move up by 32. *)
Definition lower_char (c : ascii) : ascii :=
  let n := code c in
  if ((65 <=? n) && (n <=? 90))
     || ((192 <=? n) && (n <=? 222) && negb (n =? 215))
  then ascii_of_nat (Z.to_nat (n + 32)) else c.

Fixpoint lower (s : string) : string :=
  match s with
  | EmptyString => EmptyString
  | String c rest => String (lower_char c) (lower rest)
  end.

(** [needle in hay]. *)
Fixpoint contains (needle hay : string) : bool :=
  String.prefix needle hay
  || match hay with
     | EmptyString => false
     | String _ rest => contains needle rest
     end.

(** [len(s)] as a Python integer. *)
Definition len (s : string) : Z := Z.of_nat (String.length s).

(** [s.endswith(suffix)]. *)
Definition endswith (suffix s : string) : bool :=
  String.prefix (String.rev suffix) (String.rev s).

End Str.

(** ** Documents *)

(** A metadata dictionary. *)
Abbreviation metadata := (gmap string string).

(** langchain's [Document]. *)
Record Document : Type := mkDocument {
  page_content : string;
  doc_metadata : metadata;
}.

(** An element of the list handed to the batch write:
    [List[Union[str, Document]]]. *)
Inductive item : Type :=
| ItemStr (s : string)
| ItemDoc (d : Document).

Definition item_is_str (i : item) : bool :=
  match i with ItemStr _ => true | ItemDoc _ => false end.

(** The metadata a written element carries: a plain string carries none. *)
Definition item_metadata (i : item) : metadata :=
  match i with ItemStr _ => ∅ | ItemDoc d => doc_metadata d end.

(** ** The collaborators' side of the state

    [calls] records, oldest first, every call the modelled code makes to a
    collaborator; it is how a theorem says that something was or was not
    handed to the index. *)

Inductive call : Type :=
| CallCreateIndex (num_lists dimensions m ef_construction : Z)
| CallAddDocuments (documents : list item)
| CallAddTexts (texts : list item) (metadatas : option (list metadata))
| CallConvert (pdf_path : string)
| CallSleep (seconds : Z).

Record World (W : Type) : Type := mkWorld {
  ext : W;
  calls : list call;
}.
Arguments mkWorld {W} ext calls.
Arguments ext {W} w.
Arguments calls {W} w.

Definition record_call {W} (c : call) (w : World W) (e : W) : World W :=
  mkWorld e (calls w ++ [c]).


(** ** [src/db/cosmos_db.py] *)

Record BatchConfig : Type := mkBatchConfig {
  batch_size : Z;
  max_concurrency : Z;
}.

Definition BatchConfig_default : BatchConfig := mkBatchConfig 100 4.

(** The integer fields of [VectorSearchConfig]; its enumerations and its
    score threshold are read by no method. *)
Record VectorSearchConfig : Type := mkVectorSearchConfig {
  num_lists : Z;
  dimensions : Z;
  m : Z;
  ef_construction : Z;
  ef_search : Z;
}.

Definition VectorSearchConfig_default : VectorSearchConfig :=
  mkVectorSearchConfig 100 1536 16 64 40.

Record VectorStore : Type := mkVectorStore {
  namespace : string;
  index_name : string;
  config : VectorSearchConfig;
  batch_config : BatchConfig;
  _index_created : bool;
}.

Definition set_index_created (vs : VectorStore) : VectorStore :=
  {| namespace := namespace vs; index_name := index_name vs;
     config := config vs; batch_config := batch_config vs;
     _index_created := true |}.

(** [range(0, n, step)] and the slices [l[i:i + step]] it drives. *)
Fixpoint slices_fuel {A} (fuel step : nat) (l : list A) : list (list A) :=
  match fuel with
  | O => []
  | S fuel' =>
      match l with
      | [] => []
      | _ :: _ => take step l :: slices_fuel fuel' step (drop step l)
      end
  end.

Definition slices {A} (step : Z) (l : list A) : outcome (list (list A)) :=
  if step =? 0 then Raise (ValueError "range() arg 3 must not be zero")
  else if step <? 0 then Ok []
  else Ok (slices_fuel (length l) (Z.to_nat step) l).

(** [[item for sublist in results for item in sublist]]. *)
Definition flatten {A} (ll : list (list A)) : list A := concat ll.

Section Collaborators.

(** The state of everything outside the repository. *)
Context {W : Type}.

(** [AzureCosmosDBVectorSearch.create_index], [.add_documents] and
    [.add_texts]. *)
Variable cosmos_create_index : Z -> Z -> Z -> Z -> W -> reply unit * W.
Variable cosmos_add_documents : list item -> W -> reply (list string) * W.
Variable cosmos_add_texts :
  list item -> option (list metadata) -> W -> reply (list string) * W.

Definition call_create_index (c : VectorSearchConfig) (w : World W)
  : reply unit * World W :=
  let '(r, e) :=
    cosmos_create_index (num_lists c) (dimensions c) (m c) (ef_construction c)
                 (ext w) in
  (r, record_call
        (CallCreateIndex (num_lists c) (dimensions c) (m c)
                         (ef_construction c)) w e).

Definition call_add_documents (docs : list item) (w : World W)
  : reply (list string) * World W :=
  let '(r, e) := cosmos_add_documents docs (ext w) in
  (r, record_call (CallAddDocuments docs) w e).

Definition call_add_texts (texts : list item)
    (metadatas : option (list metadata)) (w : World W)
  : reply (list string) * World W :=
  let '(r, e) := cosmos_add_texts texts metadatas (ext w) in
  (r, record_call (CallAddTexts texts metadatas) w e).

(** [VectorStore.ensure_index_exists] *)
Definition ensure_index_exists (vs : VectorStore) (w : World W)
  : outcome unit * VectorStore * World W :=
  if _index_created vs then (Ok tt, vs, w)
  else
    let '(r, w') := call_create_index (config vs) w in
    match r with
    | Returns _ => (Ok tt, set_index_created vs, w')
    | Raises e =>
        if Str.contains "already exists" (Str.lower (exn_str e))
        then (Ok tt, set_index_created vs, w')
        else (Raise e, vs, w')
    end.

(** The inner [process_batch] of [batch_add_documents]: the handler logs
    and raises again. *)
Definition process_batch (batch_docs : list item)
    (batch_metadata : option (list metadata)) (w : World W)
  : reply (list string) * World W :=
  match batch_docs with
  | [] => (Raises (IndexError "list index out of range"), w)
  | first :: _ =>
      if item_is_str first
      then call_add_texts batch_docs batch_metadata w
      else call_add_documents batch_docs w
  end.

(** [asyncio.gather] over the batch coroutines.  No coroutine suspends,
    so they run one after the other in the order of the list, every one
    of them whether or not an earlier one raised, and the first exception
    in that order is the one the caller sees. *)
Fixpoint gather (tasks : list (list item * option (list metadata)))
    (w : World W) : reply (list (list string)) * World W :=
  match tasks with
  | [] => (Returns [], w)
  | (batch_docs, batch_meta) :: rest =>
      let '(r, w1) := process_batch batch_docs batch_meta w in
      let '(rs, w2) := gather rest w1 in
      match r, rs with
      | Raises e, _ => (Raises e, w2)
      | Returns _, Raises e => (Raises e, w2)
      | Returns ids, Returns idss => (Returns (ids :: idss), w2)
      end
  end.

(** [zip(doc_batches, metadata_batches)] *)
Definition zip_batches (doc_batches : list (list item))
    (metadata_batches : list (option (list metadata)))
  : list (list item * option (list metadata)) :=
  zip doc_batches metadata_batches.

(** [VectorStore.batch_add_documents] *)
Definition batch_add_documents (documents : list item)
    (metadatas : option (list metadata)) (vs : VectorStore) (w : World W)
  : outcome (list string) * VectorStore * World W :=
  match ensure_index_exists vs w with
  | (Raise e, vs1, w1) => (Raise e, vs1, w1)
  | (Hang, vs1, w1) => (Hang, vs1, w1)
  | (Ok _, vs1, w1) =>
      let bs := batch_size (batch_config vs1) in
      match slices bs documents with
      | Raise e => (Raise e, vs1, w1)
      | Hang => (Hang, vs1, w1)
      | Ok doc_batches =>
          let metadata_batches :=
            match metadatas with
            | Some (md :: mds) =>
                match slices bs (md :: mds) with
                | Ok mbs => Some <$> mbs
                | _ => []
                end
            | _ => replicate (length doc_batches) None
            end in
          let mc := max_concurrency (batch_config vs1) in
          if mc <? 0
          then (Raise (ValueError "Semaphore initial value must be >= 0"),
                vs1, w1)
          else if mc =? 0 then (Hang, vs1, w1)
          else
            match gather (zip_batches doc_batches metadata_batches) w1 with
            | (Returns results, w2) => (Ok (flatten results), vs1, w2)
            | (Raises e, w2) => (Raise e, vs1, w2)
            end
      end
  end.


(** ** [src/document_processing/text_splitter.py] *)

Record Data : Type := mkData {
  text : string;
  data : metadata;
}.

(** [Data.to_lc_document] *)
Definition to_lc_document (d : Data) : Document :=
  mkDocument (text d) (data d).

Record DocumentProcessor : Type := mkDocumentProcessor {
  chunk_size : Z;
  chunk_overlap : Z;
  separator : string;
  min_chunk_size : Z;
  strip_whitespace : bool;
  cleanup_text : bool;
  data_inputs : list Data;
  status : list Data;
}.

Definition with_data_inputs (ds : list Data) (p : DocumentProcessor)
  : DocumentProcessor :=
  {| chunk_size := chunk_size p; chunk_overlap := chunk_overlap p;
     separator := separator p; min_chunk_size := min_chunk_size p;
     strip_whitespace := strip_whitespace p;
     cleanup_text := cleanup_text p;
     data_inputs := ds; status := status p |}.

Definition with_status (ds : list Data) (p : DocumentProcessor)
  : DocumentProcessor :=
  {| chunk_size := chunk_size p; chunk_overlap := chunk_overlap p;
     separator := separator p; min_chunk_size := min_chunk_size p;
     strip_whitespace := strip_whitespace p;
     cleanup_text := cleanup_text p;
     data_inputs := data_inputs p; status := ds |}.

(** [DocumentProcessor._docs_to_data] *)
Definition _docs_to_data (docs : list Document) : list Data :=
  map (fun doc => mkData (page_content doc) (doc_metadata doc)) docs.

Definition newline : ascii := ascii_of_nat 10.

(** Where a match of [\n\s*\n] that starts at a newline ends: [s] is the
    text after that newline, and the result is the text after the last
    newline of the run of whitespace [s] begins with, if it has one. *)
Fixpoint after_last_newline (s : string) : option string :=
  match s with
  | EmptyString => None
  | String c rest =>
      if Str.isspace c then
        match after_last_newline rest with
        | Some r => Some r
        | None => if Str.is_newline c then Some rest else None
        end
      else None
  end.

(** [re.sub(r'\n\s*\n', '\n\n', text)] *)
Fixpoint sub_blank_lines (fuel : nat) (s : string) : string :=
  match fuel with
  | O => s
  | S fuel' =>
      match s with
      | EmptyString => EmptyString
      | String c rest =>
          if Str.is_newline c then
            match after_last_newline rest with
            | Some r =>
                String newline (String newline (sub_blank_lines fuel' r))
            | None => String c (sub_blank_lines fuel' rest)
            end
          else String c (sub_blank_lines fuel' rest)
      end
  end.

(** [re.sub(r' +', ' ', text)] *)
Fixpoint sub_spaces (s : string) : string :=
  match s with
  | EmptyString => EmptyString
  | String c rest =>
      if Str.is_blank c then
        match rest with
        | EmptyString => String c EmptyString
        | String c' _ =>
            if Str.is_blank c' then sub_spaces rest
            else String c (sub_spaces rest)
        end
      else String c (sub_spaces rest)
  end.

Fixpoint skip_blanks (s : string) : string :=
  match s with
  | EmptyString => EmptyString
  | String c rest => if Str.is_blank c then skip_blanks rest else s
  end.

(** [re.sub(r' *\n *', '\n', text)] *)
Fixpoint sub_around_newlines (fuel : nat) (s : string) : string :=
  match fuel with
  | O => s
  | S fuel' =>
      match skip_blanks s with
      | String c rest =>
          if Str.is_newline c
          then String newline (sub_around_newlines fuel' (skip_blanks rest))
          else
            match s with
            | EmptyString => EmptyString
            | String c0 rest0 => String c0 (sub_around_newlines fuel' rest0)
            end
      | EmptyString =>
          match s with
          | EmptyString => EmptyString
          | String c0 rest0 => String c0 (sub_around_newlines fuel' rest0)
          end
      end
  end.

Fixpoint lstrip (s : string) : string :=
  match s with
  | EmptyString => EmptyString
  | String c rest => if Str.isspace c then lstrip rest else s
  end.

(** [str.strip()] *)
Definition strip (s : string) : string :=
  String.rev (lstrip (String.rev (lstrip s))).

(** [DocumentProcessor._clean_text] *)
Definition _clean_text (p : DocumentProcessor) (s : string) : string :=
  if negb (cleanup_text p) then s
  else
    let s1 := sub_blank_lines (String.length s) s in
    let s2 := sub_spaces s1 in
    let s3 := sub_around_newlines (String.length s2) s2 in
    if strip_whitespace p then strip s3 else s3.

(** A dictionary handed to [add_documents]: each of the two keys may be
    missing. *)
Record InputDoc : Type := mkInputDoc {
  in_text : option string;
  in_metadata : option metadata;
}.

(** [DocumentProcessor.add_documents]: the documents before the first one
    that lacks a key have been appended when it raises. *)
Fixpoint add_documents (documents : list InputDoc)
    (p : DocumentProcessor) : outcome unit * DocumentProcessor :=
  match documents with
  | [] => (Ok tt, p)
  | doc :: rest =>
      match in_text doc, in_metadata doc with
      | Some t, Some md =>
          add_documents rest
            (with_data_inputs
               (data_inputs p ++ [mkData (_clean_text p t) md]) p)
      | _, _ =>
          (Raise (ValueError
                    "Documents must contain 'text' and 'metadata' keys"), p)
      end
  end.

(** [DocumentProcessor.add_texts] *)
Definition DocumentProcessor_add_texts (texts : list string)
    (md : option (list metadata)) (p : DocumentProcessor)
  : outcome unit * DocumentProcessor :=
  let md' :=
    match md with
    | None => map (fun _ => (∅ : metadata)) texts
    | Some l => l
    end in
  if negb (length texts =? length md')%nat
  then (Raise (ValueError "Number of texts and metadata entries must match"),
        p)
  else
    (Ok tt,
     with_data_inputs
       (data_inputs p
        ++ map (fun tm => mkData (_clean_text p (fst tm)) (snd tm))
               (zip texts md'))%list p).

(** [html.unescape] *)
Variable unescape : string -> string.

(** langchain's [CharacterTextSplitter]: its constructor, given
    [chunk_overlap], [chunk_size], [separator] and [strip_whitespace]
    (the length function is [len]), and its [split_text] on one text. *)
Context {Splitter : Type}.
Variable CharacterTextSplitter :
  Z -> Z -> string -> bool -> reply Splitter.
Variable splitter_split_text : Splitter -> string -> reply (list string).

(** The chunks of one document, each with the document's metadata. *)
Definition split_document (sp : Splitter) (doc : Document)
  : reply (list Document) :=
  match splitter_split_text sp (page_content doc) with
  | Returns chunks =>
      Returns (map (fun c => mkDocument c (doc_metadata doc)) chunks)
  | Raises e => Raises e
  end.

(** [TextSplitter.split_documents]: the documents are split one after the
    other and their chunks kept in that order. *)
Fixpoint split_documents (sp : Splitter) (documents : list Document)
  : reply (list Document) :=
  match documents with
  | [] => Returns []
  | doc :: rest =>
      match split_document sp doc with
      | Raises e => Raises e
      | Returns chunks =>
          match split_documents sp rest with
          | Raises e => Raises e
          | Returns more => Returns (chunks ++ more)%list
          end
      end
  end.

(** The test of the filter of [split_text]. *)
Definition long_enough (p : DocumentProcessor) (doc : Document) : bool :=
  min_chunk_size p <=? Str.len (page_content doc).

(** [DocumentProcessor.split_text] *)
Definition split_text (p : DocumentProcessor)
  : outcome (list Data) * DocumentProcessor :=
  let sep := unescape (separator p) in
  let documents := map to_lc_document (data_inputs p) in
  match CharacterTextSplitter (chunk_overlap p) (chunk_size p) sep
                              (strip_whitespace p) with
  | Raises e => (Raise e, p)
  | Returns splitter =>
      match split_documents splitter documents with
      | Raises e => (Raise e, p)
      | Returns docs =>
          let docs := List.filter (long_enough p) docs in
          let d := _docs_to_data docs in
          (Ok d, with_status d p)
      end
  end.

(** A Python number: [int], or the [float] a true division yields, kept
    as the exact quotient. *)
Inductive number : Type :=
| PyInt (n : Z)
| PyFloat (q : Q).

(** [a / b] on two integers. *)
Definition truediv (a b : Z) : outcome number :=
  if b =? 0 then Raise (ZeroDivisionError "division by zero")
  else Ok (PyFloat (Qmake (a * Z.sgn b) (Z.to_pos (Z.abs b)))).

(** [sum(len(d.text) for d in ds)] *)
Definition total_length (ds : list Data) : Z :=
  fold_right Z.add 0 (map (fun d => Str.len (text d)) ds).

Record StatusReport : Type := mkStatusReport {
  input_documents : Z;
  output_chunks : Z;
  average_chunk_size : number;
  total_characters : Z;
}.

(** [DocumentProcessor.get_status] *)
Definition get_status (p : DocumentProcessor) : outcome StatusReport :=
  let n_in := Z.of_nat (length (data_inputs p)) in
  let n_out := Z.of_nat (length (status p)) in
  let average :=
    match status p with
    | _ :: _ => truediv (total_length (status p)) (Z.of_nat (length (status p)))
    | [] => Ok (PyInt 0)
    end in
  match average with
  | Ok avg => Ok (mkStatusReport n_in n_out avg (total_length (status p)))
  | Raise e => Raise e
  | Hang => Hang
  end.

(** [DocumentProcessor.clear] *)
Definition clear (p : DocumentProcessor) : DocumentProcessor :=
  with_status [] (with_data_inputs [] p).

(** ** [src/document_processing/pdf_parser.py] *)

(** The file system: a directory, named by its path, maps the names of
    its files to their contents.  [glob] yields the names in the order of
    [map_to_list], which stands for the order of the operating system. *)
Abbreviation Dir := (gmap string string).
Abbreviation FS := (gmap string (gmap string string)).

(** [parent / name] *)
Definition path_join (parent name : string) : string :=
  if String.prefix "/" name then name
  else if String.eqb name "" then parent
  else parent +:+ "/" +:+ name.

(** The path of a file: its directory and its name. *)
Record Path : Type := mkPath {
  path_parent : string;
  path_name : string;
}.

(** [str(path)] *)
Definition path_str (p : Path) : string :=
  path_join (path_parent p) (path_name p).

(** [name.rfind(c)] *)
Fixpoint rfind (c : ascii) (name : string) : option nat :=
  match name with
  | EmptyString => None
  | String a rest =>
      match rfind c rest with
      | Some i => Some (S i)
      | None => if Ascii.eqb a c then Some O else None
      end
  end.

(** [Path(name).stem]: the name without its last suffix; a dot that
    begins or ends the name starts no suffix. *)
Definition stem (name : string) : string :=
  match rfind "." name with
  | Some i =>
      if (0 <? i)%nat && (i <? String.length name - 1)%nat
      then String.substring 0 i name
      else name
  | None => name
  end.

Definition dir_exists (d : string) (fs : FS) : bool :=
  match fs !! d with Some _ => true | None => false end.

(** [d.mkdir(parents=True, exist_ok=True)] *)
Definition mkdir (d : string) (fs : FS) : FS :=
  match fs !! d with
  | Some _ => fs
  | None => <[d := ∅]> fs
  end.

Definition read_file (d name : string) (fs : FS) : option string :=
  match fs !! d with
  | Some files => files !! name
  | None => None
  end.

Definition file_exists (d name : string) (fs : FS) : bool :=
  match read_file d name fs with Some _ => true | None => false end.

(** [list(d.glob("*.pdf"))] *)
Definition glob_pdf (d : string) (fs : FS) : list Path :=
  match fs !! d with
  | Some files =>
      map (mkPath d)
          (List.filter (Str.endswith ".pdf") (map fst (map_to_list files)))
  | None => []
  end.

(** [path.unlink()] *)
Definition unlink (d name : string) (fs : FS) : FS :=
  match fs !! d with
  | Some files => <[d := delete name files]> fs
  | None => fs
  end.

(** [path.write_text(content)]: the directory has to exist. *)
Definition write_text (d name content : string) (fs : FS) : option FS :=
  match fs !! d with
  | Some files => Some (<[d := <[name := content]> files]> fs)
  | None => None
  end.

(** [shutil.move(src, dst)] on two file paths. *)
Definition move (src dst : Path) (fs : FS) : option FS :=
  match read_file (path_parent src) (path_name src) fs with
  | Some content =>
      write_text (path_parent dst) (path_name dst) content
                 (unlink (path_parent src) (path_name src) fs)
  | None => None
  end.

Record BatchPdfConverter : Type := mkBatchPdfConverter {
  base_dir : string;
}.

Definition tenant_input_dir (c : BatchPdfConverter) (tenant_id : string)
  : string :=
  path_join (path_join (base_dir c) "policy_docs") tenant_id.

Definition tenant_output_dir (c : BatchPdfConverter) (tenant_id : string)
  : string :=
  path_join (path_join (base_dir c) "processed_texts") tenant_id.

(** [BatchPdfConverter.setup_tenant_directories] *)
Definition setup_tenant_directories (c : BatchPdfConverter)
    (tenant_id : string) (fs : FS) : (string * string) * FS :=
  let input_dir := tenant_input_dir c tenant_id in
  let output_dir := tenant_output_dir c tenant_id in
  ((input_dir, output_dir), mkdir output_dir (mkdir input_dir fs)).

(** The loop of [move_files_to_tenant_directory]. *)
Fixpoint move_files_loop (input_dir : string) (files : list Path)
    (moved : list Path) (fs : FS) : outcome (list Path) * FS :=
  match files with
  | [] => (Ok moved, fs)
  | file_path :: rest =>
      let target_path := mkPath input_dir (path_name file_path) in
      let fs1 :=
        if file_exists input_dir (path_name file_path) fs
        then unlink input_dir (path_name file_path) fs
        else fs in
      match move file_path target_path fs1 with
      | Some fs2 =>
          move_files_loop input_dir rest (moved ++ [target_path])%list fs2
      | None =>
          (Raise (FileNotFoundError (path_str file_path)), fs1)
      end
  end.

(** [BatchPdfConverter.move_files_to_tenant_directory] *)
Definition move_files_to_tenant_directory (c : BatchPdfConverter)
    (temp_dir tenant_id : string) (fs : FS) : outcome (list Path) * FS :=
  let '((input_dir, _), fs1) := setup_tenant_directories c tenant_id fs in
  move_files_loop input_dir (glob_pdf temp_dir fs1) [] fs1.

(** [BatchPdfConverter.get_pdf_files] *)
Definition get_pdf_files (c : BatchPdfConverter) (tenant_id : string)
    (fs : FS) : list Path * FS :=
  let '((input_dir, _), fs1) := setup_tenant_directories c tenant_id fs in
  (glob_pdf input_dir fs1, fs1).

(** The marker converter followed by [text_from_rendered]: the text of
    the PDF file at a path, read from the file system. *)
Variable marker_convert : string -> FS -> W -> reply string * W.

Definition call_convert (pdf_path : string) (fs : FS) (w : World W)
  : reply string * World W :=
  let '(r, e) := marker_convert pdf_path fs (ext w) in
  (r, record_call (CallConvert pdf_path) w e).

(** [BatchPdfConverter.convert_single_pdf] *)
Definition convert_single_pdf (c : BatchPdfConverter) (pdf_path : Path)
    (tenant_id : string) (fs : FS) (w : World W)
  : (Path * bool) * FS * World W :=
  let '((_, output_dir), fs1) := setup_tenant_directories c tenant_id fs in
  let output_name := stem (path_name pdf_path) +:+ ".md" in
  let '(r, w1) := call_convert (path_str pdf_path) fs1 w in
  match r with
  | Returns rendered_text =>
      match write_text output_dir output_name rendered_text fs1 with
      | Some fs2 => ((pdf_path, true), fs2, w1)
      | None => ((pdf_path, false), fs1, w1)
      end
  | Raises _ => ((pdf_path, false), fs1, w1)
  end.

(** The dictionary [batch_convert_pdfs] returns. *)
Record ConversionResults : Type := mkConversionResults {
  successful : list string;
  failed : list string;
  total : Z;
}.

(** The loop of [batch_convert_pdfs] over the PDF files. *)
Fixpoint convert_loop (c : BatchPdfConverter) (tenant_id : string)
    (pdf_files : list Path) (results : ConversionResults) (fs : FS)
    (w : World W) : ConversionResults * FS * World W :=
  match pdf_files with
  | [] => (results, fs, w)
  | pdf_path :: rest =>
      let '((pdf_path', success), fs1, w1) :=
        convert_single_pdf c pdf_path tenant_id fs w in
      let results' :=
        if success
        then mkConversionResults
               (successful results ++ [path_name pdf_path'])%list
               (failed results) (total results)
        else mkConversionResults
               (successful results)
               (failed results ++ [path_name pdf_path'])%list
               (total results) in
      convert_loop c tenant_id rest results' fs1 w1
  end.

(** The first step of [batch_convert_pdfs]: new uploads are moved to the
    tenant's directory when a directory of uploads is given and exists. *)
Definition stage_uploads (c : BatchPdfConverter) (tenant_id : string)
    (temp_dir : option string) (fs : FS) : outcome unit * FS :=
  match temp_dir with
  | Some d =>
      if dir_exists d fs
      then
        match move_files_to_tenant_directory c d tenant_id fs with
        | (Ok _, fs1) => (Ok tt, fs1)
        | (Raise e, fs1) => (Raise e, fs1)
        | (Hang, fs1) => (Hang, fs1)
        end
      else (Ok tt, fs)
  | None => (Ok tt, fs)
  end.

(** [BatchPdfConverter.batch_convert_pdfs] *)
Definition batch_convert_pdfs (c : BatchPdfConverter) (tenant_id : string)
    (temp_dir : option string) (fs : FS) (w : World W)
  : outcome ConversionResults * FS * World W :=
  match stage_uploads c tenant_id temp_dir fs with
  | (Raise e, fs1) => (Raise e, fs1, w)
  | (Hang, fs1) => (Hang, fs1, w)
  | (Ok _, fs1) =>
      let '(pdf_files, fs2) := get_pdf_files c tenant_id fs1 in
      match pdf_files with
      | [] => (Ok (mkConversionResults [] [] 0), fs2, w)
      | _ :: _ =>
          let results :=
            mkConversionResults [] [] (Z.of_nat (length pdf_files)) in
          let '(results', fs3, w3) :=
            convert_loop c tenant_id pdf_files results fs2 w in
          (Ok results', fs3, w3)
      end
  end.

(** ** [src/db/cosmos_db.py]: search, and the class as Python sees it *)

Inductive SearchType : Type :=
| SIMILARITY
| MMR
| SIMILARITY_THRESHOLD.

(** A value that travels through a dynamic call. *)
Inductive pyvalue : Type :=
| VNone
| VStr (s : string)
| VInt (n : Z)
| VFloat (q : Q)
| VDict (d : metadata)
| VDicts (ds : list metadata)
| VItems (l : list item)
| VSearchType (t : SearchType)
| VDocuments (docs : list Document)
| VIds (ids : list string)
| VCoroutine (documents metadatas : pyvalue)
| VObject.

(** [AzureCosmosDBVectorSearch.similarity_search], with or without a
    score threshold, and [.max_marginal_relevance_search]. *)
Variable cosmos_similarity_search :
  pyvalue -> Z -> pyvalue -> option Q -> W -> reply (list Document) * W.
Variable cosmos_mmr_search :
  pyvalue -> Z -> Z -> Q -> pyvalue -> W -> reply (list Document) * W.

(** [VectorStore.advanced_search] *)
Definition advanced_search (query : pyvalue) (search_type : SearchType)
    (metadata_filter : pyvalue) (k : Z) (score_threshold mmr_lambda : Q)
    (vs : VectorStore) (w : World W)
  : outcome (list Document) * VectorStore * World W :=
  match ensure_index_exists vs w with
  | (Raise e, vs1, w1) => (Raise e, vs1, w1)
  | (Hang, vs1, w1) => (Hang, vs1, w1)
  | (Ok _, vs1, w1) =>
      let '(r, e) :=
        match search_type with
        | MMR =>
            cosmos_mmr_search query k (Z.min (k * 4) 100) mmr_lambda
                              metadata_filter (ext w1)
        | SIMILARITY_THRESHOLD =>
            cosmos_similarity_search query k metadata_filter
                                     (Some score_threshold) (ext w1)
        | SIMILARITY =>
            cosmos_similarity_search query k metadata_filter None (ext w1)
        end in
      let w2 := mkWorld e (calls w1) in
      match r with
      | Returns docs => (Ok docs, vs1, w2)
      | Raises err => (Raise err, vs1, w2)
      end
  end.

(** The parameters of a method after [self], and how many of them, from
    the left, have no default. *)
Record signature : Type := mkSignature {
  sig_name : string;
  sig_params : list string;
  sig_required : nat;
}.

Inductive VectorStore_method : Type :=
| m_get_default_embeddings
| m_ensure_index_exists
| m_batch_add_documents
| m_advanced_search.

Definition method_signature (mt : VectorStore_method) : signature :=
  match mt with
  | m_get_default_embeddings =>
      mkSignature "VectorStore._get_default_embeddings" [] 0
  | m_ensure_index_exists =>
      mkSignature "VectorStore.ensure_index_exists" [] 0
  | m_batch_add_documents =>
      mkSignature "VectorStore.batch_add_documents"
                  ["documents"; "metadatas"] 1
  | m_advanced_search =>
      mkSignature "VectorStore.advanced_search"
                  ["query"; "search_type"; "metadata_filter"; "k";
                   "score_threshold"; "mmr_lambda"] 1
  end.

(** The methods the class body of [VectorStore] defines, by name. *)
Definition VectorStore_methods : list (string * VectorStore_method) :=
  [("_get_default_embeddings", m_get_default_embeddings);
   ("ensure_index_exists", m_ensure_index_exists);
   ("batch_add_documents", m_batch_add_documents);
   ("advanced_search", m_advanced_search)].

(** The attributes [VectorStore.__init__] sets on the instance. *)
Definition VectorStore_fields : list string :=
  ["connection_string"; "namespace"; "index_name"; "embedding_model";
   "config"; "batch_config"; "_index_created"; "vector_store"].

Inductive attribute : Type :=
| BoundMethod (mt : VectorStore_method)
| InstanceField (name : string).

Definition assoc_lookup {A} (name : string) (l : list (string * A))
  : option A :=
  snd <$> List.find (fun e => String.eqb (fst e) name) l.

(** [getattr(vector_store, name)] for a name that is not one of the
    attributes every object has. *)
Definition VectorStore_getattr (name : string) : outcome attribute :=
  if existsb (String.eqb name) VectorStore_fields
  then Ok (InstanceField name)
  else
    match assoc_lookup name VectorStore_methods with
    | Some mt => Ok (BoundMethod mt)
    | None =>
        Raise (AttributeError
                 ("'VectorStore' object has no attribute '" +:+ name +:+ "'"))
    end.

(** The keyword, if any, that names no parameter. *)
Definition unexpected_keyword (params keywords : list string)
  : option string :=
  List.find (fun kw => negb (existsb (String.eqb kw) params)) keywords.

(** Binding the arguments of a call to the parameters of a signature:
    the value of each parameter, [None] where the default applies. *)
Definition bind_arguments (sg : signature) (positional : list pyvalue)
    (keywords : list (string * pyvalue))
  : outcome (list (string * pyvalue)) :=
  if (length (sig_params sg) <? length positional)%nat
  then Raise (TypeError
                (sig_name sg +:+ "() takes too many positional arguments"))
  else
    match unexpected_keyword (sig_params sg) (map fst keywords) with
    | Some kw =>
        Raise (TypeError
                 (sig_name sg +:+ "() got an unexpected keyword argument '"
                  +:+ kw +:+ "'"))
    | None =>
        let by_position := zip (sig_params sg) positional in
        if existsb (fun kw => existsb (String.eqb kw) (map fst by_position))
                   (map fst keywords)
        then Raise (TypeError
                      (sig_name sg +:+ "() got multiple values for argument"))
        else
          let bound := (by_position ++ keywords)%list in
          if forallb (fun prm => existsb (String.eqb prm) (map fst bound))
                     (take (sig_required sg) (sig_params sg))
          then Ok bound
          else Raise (TypeError
                        (sig_name sg
                         +:+ "() missing required positional argument"))
    end.

Definition argument (name : string) (bound : list (string * pyvalue))
    (default : pyvalue) : pyvalue :=
  match assoc_lookup name bound with
  | Some v => v
  | None => default
  end.

(** Running a method on bound arguments.  A call of the coroutine
    function [batch_add_documents] runs nothing and yields a coroutine. *)
Definition run_method (mt : VectorStore_method)
    (bound : list (string * pyvalue)) (vs : VectorStore) (w : World W)
  : outcome pyvalue * VectorStore * World W :=
  match mt with
  | m_get_default_embeddings => (Ok VObject, vs, w)
  | m_ensure_index_exists =>
      match ensure_index_exists vs w with
      | (Ok _, vs1, w1) => (Ok VNone, vs1, w1)
      | (Raise e, vs1, w1) => (Raise e, vs1, w1)
      | (Hang, vs1, w1) => (Hang, vs1, w1)
      end
  | m_batch_add_documents =>
      (Ok (VCoroutine (argument "documents" bound VNone)
                      (argument "metadatas" bound VNone)), vs, w)
  | m_advanced_search =>
      match argument "search_type" bound (VSearchType SIMILARITY),
            argument "k" bound (VInt 4),
            argument "score_threshold" bound (VFloat 0),
            argument "mmr_lambda" bound (VFloat (1 # 2)) with
      | VSearchType t, VInt k, VFloat th, VFloat lam =>
          match advanced_search (argument "query" bound VNone) t
                  (argument "metadata_filter" bound VNone) k th lam vs w with
          | (Ok docs, vs1, w1) => (Ok (VDocuments docs), vs1, w1)
          | (Raise e, vs1, w1) => (Raise e, vs1, w1)
          | (Hang, vs1, w1) => (Hang, vs1, w1)
          end
      | _, _, _, _ =>
          (Raise (TypeError "unsupported argument type"), vs, w)
      end
  end.

(** A call of the attribute [name] of the vector store with positional
    and keyword arguments. *)
Definition VectorStore_call (name : string) (positional : list pyvalue)
    (keywords : list (string * pyvalue)) (vs : VectorStore) (w : World W)
  : outcome pyvalue * VectorStore * World W :=
  match VectorStore_getattr name with
  | Raise e => (Raise e, vs, w)
  | Hang => (Hang, vs, w)
  | Ok (InstanceField _) =>
      (Raise (TypeError "object is not callable"), vs, w)
  | Ok (BoundMethod mt) =>
      match bind_arguments (method_signature mt) positional keywords with
      | Raise e => (Raise e, vs, w)
      | Hang => (Hang, vs, w)
      | Ok bound => run_method mt bound vs w
      end
  end.

(** ** [src/pipeline.py] *)

Record DocumentPipeline : Type := mkDocumentPipeline {
  pdf_converter : BatchPdfConverter;
  doc_processor : DocumentProcessor;
  vector_store : VectorStore;
}.

(** [DocumentPipeline.__init__]: the splitter is configured to strip and
    to clean, and the batch configuration keeps its default concurrency. *)
Definition DocumentPipeline_init (base namespace_ : string)
    (embedding_dimension batch_size_ chunk_size_ chunk_overlap_ : Z)
    (separator_ : string) (min_chunk_size_ : Z) : DocumentPipeline :=
  mkDocumentPipeline
    (mkBatchPdfConverter base)
    (mkDocumentProcessor chunk_size_ chunk_overlap_ separator_
                         min_chunk_size_ true true [] [])
    (mkVectorStore namespace_ "vector-search-index"
       (mkVectorSearchConfig 100 embedding_dimension 16 64 40)
       (mkBatchConfig batch_size_ 4) false).

(** A pipeline with the file system it works on and its collaborators. *)
Record State : Type := mkState {
  self : DocumentPipeline;
  disk : FS;
  world : World W;
}.

Definition with_processor (p : DocumentProcessor) (s : DocumentPipeline)
  : DocumentPipeline :=
  mkDocumentPipeline (pdf_converter s) p (vector_store s).

Definition with_vector_store (vs : VectorStore) (s : DocumentPipeline)
  : DocumentPipeline :=
  mkDocumentPipeline (pdf_converter s) (doc_processor s) vs.

(** The statistics [process_pdfs] returns. *)
Record ProcessingStats : Type := mkProcessingStats {
  stats_tenant_id : string;
  pdfs_processed : Z;
  pdfs_failed : Z;
  failed_files : list string;
  chunks_created : Z;
  documents_stored : Z;
  processing_stats : StatusReport;
}.

(** [{"tenant_id": tenant_id, **(additional_metadata or {})}] *)
Definition base_metadata_of (tenant_id : string)
    (additional_metadata : option metadata) : metadata :=
  default ∅ additional_metadata ∪ {["tenant_id" := tenant_id]}.

(** Step 2 of [process_pdfs]: the text of every converted file with its
    merged metadata. *)
Fixpoint load_documents (output_dir : string) (base_metadata : metadata)
    (filenames : list string) (fs : FS) : outcome (list InputDoc) :=
  match filenames with
  | [] => Ok []
  | filename :: rest =>
      let md_name := stem filename +:+ ".md" in
      match read_file output_dir md_name fs with
      | None => Raise (FileNotFoundError (path_join output_dir md_name))
      | Some content =>
          let doc_md : metadata :=
            <["original_path" := path_join output_dir md_name]>
              (<["type" := "pdf"]> (<["source" := filename]> base_metadata)) in
          match load_documents output_dir base_metadata rest fs with
          | Ok docs => Ok (mkInputDoc (Some content) (Some doc_md) :: docs)
          | Raise e => Raise e
          | Hang => Hang
          end
      end
  end.

(** [doc.metadata.update(base_metadata)] on the document of a chunk; the
    document shares its dictionary with the chunk. *)
Definition reassert_metadata (base_metadata : metadata) (chunk : Data)
  : Data :=
  mkData (text chunk) (base_metadata ∪ data chunk).

(** The body of [process_pdfs], which the retry decorator wraps. *)
Definition process_pdfs_body (tenant_id : string) (input_dir : option string)
    (additional_metadata : option metadata) (st : State)
  : outcome ProcessingStats * State :=
  let base_metadata := base_metadata_of tenant_id additional_metadata in
  let c := pdf_converter (self st) in
  match batch_convert_pdfs c tenant_id input_dir (disk st) (world st) with
  | (Raise e, fs1, w1) => (Raise e, mkState (self st) fs1 w1)
  | (Hang, fs1, w1) => (Hang, mkState (self st) fs1 w1)
  | (Ok conversion_results, fs1, w1) =>
      match successful conversion_results with
      | [] =>
          (Raise (ValueError "No PDFs were successfully converted"),
           mkState (self st) fs1 w1)
      | _ :: _ =>
          match load_documents (tenant_output_dir c tenant_id) base_metadata
                  (successful conversion_results) fs1 with
          | Raise e => (Raise e, mkState (self st) fs1 w1)
          | Hang => (Hang, mkState (self st) fs1 w1)
          | Ok documents =>
              match add_documents documents
                      (clear (doc_processor (self st))) with
              | (Raise e, p1) =>
                  (Raise e, mkState (with_processor p1 (self st)) fs1 w1)
              | (Hang, p1) =>
                  (Hang, mkState (with_processor p1 (self st)) fs1 w1)
              | (Ok _, p1) =>
                  match split_text p1 with
                  | (Raise e, p2) =>
                      (Raise e, mkState (with_processor p2 (self st)) fs1 w1)
                  | (Hang, p2) =>
                      (Hang, mkState (with_processor p2 (self st)) fs1 w1)
                  | (Ok chunks, p2) =>
                      let chunks' :=
                        map (reassert_metadata base_metadata) chunks in
                      let p3 := with_status chunks' p2 in
                      let langchain_docs :=
                        map (fun ch => ItemDoc (to_lc_document ch)) chunks' in
                      let s3 := with_processor p3 (self st) in
                      match batch_add_documents langchain_docs None
                              (vector_store s3) w1 with
                      | (Raise e, vs1, w2) =>
                          (Raise e, mkState (with_vector_store vs1 s3) fs1 w2)
                      | (Hang, vs1, w2) =>
                          (Hang, mkState (with_vector_store vs1 s3) fs1 w2)
                      | (Ok _, vs1, w2) =>
                          let st' := mkState (with_vector_store vs1 s3) fs1 w2 in
                          match get_status p3 with
                          | Raise e => (Raise e, st')
                          | Hang => (Hang, st')
                          | Ok report =>
                              (Ok (mkProcessingStats tenant_id
                                     (Z.of_nat (length (successful
                                                          conversion_results)))
                                     (Z.of_nat (length (failed
                                                          conversion_results)))
                                     (failed conversion_results)
                                     (Z.of_nat (length chunks))
                                     (Z.of_nat (length chunks))
                                     report), st')
                          end
                      end
                  end
              end
          end
      end
  end.

(** tenacity's [wait_exponential(multiplier, min, max)] after the attempt
    of a given number. *)
Definition wait_exponential (multiplier min_ max_ attempt_number : Z) : Z :=
  Z.max (Z.max 0 min_) (Z.min (multiplier * 2 ^ (attempt_number - 1)) max_).

(** [asyncio.sleep(seconds)] between two attempts. *)
Definition sleep (seconds : Z) (st : State) : State :=
  mkState (self st) (disk st)
          (mkWorld (ext (world st)) (calls (world st) ++ [CallSleep seconds])).

(** tenacity's [retry(stop=stop_after_attempt(n), wait=...)] around a body:
    [attempts] is what is left of [n], the current attempt included.  An
    attempt that raises is followed by a sleep and another attempt while
    attempts are left, and by [RetryError] when none is. *)
Fixpoint retrying {A} (attempts : nat) (attempt_number : Z)
    (wait : Z -> Z) (body : State -> outcome A * State) (st : State)
  : outcome A * State :=
  match body st with
  | (Raise e, st1) =>
      match attempts with
      | S ((S _) as attempts') =>
          retrying attempts' (attempt_number + 1) wait body
                   (sleep (wait attempt_number) st1)
      | _ => (Raise (RetryError e), st1)
      end
  | other => other
  end.

(** [DocumentPipeline.process_pdfs]:
    [@retry(stop=stop_after_attempt(3),
            wait=wait_exponential(multiplier=1, min=4, max=10))]. *)
Definition process_pdfs (tenant_id : string) (input_dir : option string)
    (additional_metadata : option metadata) (st : State)
  : outcome ProcessingStats * State :=
  retrying 3 1 (wait_exponential 1 4 10)
           (process_pdfs_body tenant_id input_dir additional_metadata) st.

(** The filter [search_documents] builds: lines 178 to 180. *)
Definition search_base_filter (tenant_id : string)
    (filter_criteria : option metadata) : metadata :=
  let base_filter : metadata := {["tenant_id" := tenant_id]} in
  match filter_criteria with
  | Some fc => if decide (fc = ∅) then base_filter else fc ∪ base_filter
  | None => base_filter
  end.

(** An entry of the list [search_documents] returns. *)
Record SearchHit : Type := mkSearchHit {
  hit_content : string;
  hit_metadata : metadata;
  hit_similarity_score : pyvalue;
}.

(** [await value] on what a call of the vector store returned.  The
    coroutine of [batch_add_documents] runs the batch write; any other
    value, the list of [advanced_search] among them, cannot be awaited. *)
Definition await (v : pyvalue) (vs : VectorStore) (w : World W)
  : outcome pyvalue * VectorStore * World W :=
  match v with
  | VCoroutine (VItems documents) metadatas =>
      let mds :=
        match metadatas with
        | VDicts ds => Some ds
        | _ => None
        end in
      match batch_add_documents documents mds vs w with
      | (Ok ids, vs1, w1) => (Ok (VIds ids), vs1, w1)
      | (Raise e, vs1, w1) => (Raise e, vs1, w1)
      | (Hang, vs1, w1) => (Hang, vs1, w1)
      end
  | VCoroutine _ _ =>
      match ensure_index_exists vs w with
      | (Ok _, vs1, w1) =>
          (Raise (TypeError "object has no len()"), vs1, w1)
      | (Raise e, vs1, w1) => (Raise e, vs1, w1)
      | (Hang, vs1, w1) => (Hang, vs1, w1)
      end
  | _ => (Raise (TypeError "object can't be used in 'await' expression"),
          vs, w)
  end.

(** [DocumentPipeline.search_documents] *)
Definition search_documents (query tenant_id : string)
    (filter_criteria : option metadata) (k : Z) (st : State)
  : outcome (list SearchHit) * State :=
  let base_filter := search_base_filter tenant_id filter_criteria in
  let s := self st in
  match VectorStore_call "create_metadata_filter" [VDicts [base_filter]] []
          (vector_store s) (world st) with
  | (Raise e, vs1, w1) =>
      (Raise e, mkState (with_vector_store vs1 s) (disk st) w1)
  | (Hang, vs1, w1) => (Hang, mkState (with_vector_store vs1 s) (disk st) w1)
  | (Ok metadata_filter, vs1, w1) =>
      match VectorStore_call "advanced_search" []
              [("query", VStr query); ("k", VInt k);
               ("filter", metadata_filter)] vs1 w1 with
      | (Raise e, vs2, w2) =>
          (Raise e, mkState (with_vector_store vs2 s) (disk st) w2)
      | (Hang, vs2, w2) =>
          (Hang, mkState (with_vector_store vs2 s) (disk st) w2)
      | (Ok results, vs2, w2) =>
          match await results vs2 w2 with
          | (Raise e, vs3, w3) =>
              (Raise e, mkState (with_vector_store vs3 s) (disk st) w3)
          | (Hang, vs3, w3) =>
              (Hang, mkState (with_vector_store vs3 s) (disk st) w3)
          | (Ok _, vs3, w3) =>
              (Raise (TypeError "cannot unpack non-iterable object"),
               mkState (with_vector_store vs3 s) (disk st) w3)
          end
      end
  end.

(** [DocumentPipeline.add_texts], up to the batch write: the tenant's
    metadata, the chunks, and the documents handed to the vector store. *)
Definition add_texts_metadata (texts : list string) (tenant_id : string)
    (md : option (list metadata)) : list metadata :=
  match md with
  | None => map (fun _ => ({["tenant_id" := tenant_id]} : metadata)) texts
  | Some l => map (fun m0 : metadata => <["tenant_id" := tenant_id]> m0) l
  end.

Definition add_texts_document (tenant_id : string) (chunk : Data) : Data :=
  match data chunk !! "tenant_id" with
  | Some _ => chunk
  | None => mkData (text chunk) (<["tenant_id" := tenant_id]> (data chunk))
  end.

(** [DocumentPipeline.add_texts] *)
Definition add_texts (texts : list string) (tenant_id : string)
    (md : option (list metadata)) (st : State)
  : outcome (string * Z * Z * StatusReport) * State :=
  let s := self st in
  let p0 := clear (doc_processor s) in
  match DocumentProcessor_add_texts texts
          (Some (add_texts_metadata texts tenant_id md)) p0 with
  | (Raise e, p1) => (Raise e, mkState (with_processor p1 s) (disk st) (world st))
  | (Hang, p1) => (Hang, mkState (with_processor p1 s) (disk st) (world st))
  | (Ok _, p1) =>
      match split_text p1 with
      | (Raise e, p2) =>
          (Raise e, mkState (with_processor p2 s) (disk st) (world st))
      | (Hang, p2) =>
          (Hang, mkState (with_processor p2 s) (disk st) (world st))
      | (Ok chunks, p2) =>
          let chunks' := map (add_texts_document tenant_id) chunks in
          let p3 := with_status chunks' p2 in
          let langchain_docs :=
            map (fun ch => ItemDoc (to_lc_document ch)) chunks' in
          let s3 := with_processor p3 s in
          match batch_add_documents langchain_docs None (vector_store s3)
                  (world st) with
          | (Raise e, vs1, w2) =>
              (Raise e, mkState (with_vector_store vs1 s3) (disk st) w2)
          | (Hang, vs1, w2) =>
              (Hang, mkState (with_vector_store vs1 s3) (disk st) w2)
          | (Ok _, vs1, w2) =>
              let st' := mkState (with_vector_store vs1 s3) (disk st) w2 in
              match get_status p3 with
              | Raise e => (Raise e, st')
              | Hang => (Hang, st')
              | Ok report =>
                  (Ok (tenant_id, Z.of_nat (length chunks),
                       Z.of_nat (length chunks), report), st')
              end
          end
      end
  end.

(** * Properties *)

(** ** The vector store *)

Lemma set_index_created_flag (vs : VectorStore) :
  _index_created (set_index_created vs) = true.
Proof. reflexivity. Qed.

Lemma ensure_index_exists_created (vs : VectorStore) (w : World W) :
  _index_created vs = true -> ensure_index_exists vs w = (Ok tt, vs, w).
Proof. intros Hc. unfold ensure_index_exists. now rewrite Hc. Qed.

(** A call that returned leaves the flag set. *)
Lemma ensure_index_exists_sets_flag (vs vs1 : VectorStore) (w w1 : World W) :
  ensure_index_exists vs w = (Ok tt, vs1, w1) -> _index_created vs1 = true.
Proof.
  unfold ensure_index_exists.
  destruct (_index_created vs) eqn:Hc.
  - intros [= <- <-]. exact Hc.
  - destruct (call_create_index (config vs) w) as [r w'].
    destruct r as [u|e].
    + intros [= <- <-]. reflexivity.
    + destruct (Str.contains _ _); [|discriminate].
      intros [= <- <-]. reflexivity.
Qed.

(** C9: [ensure_index_exists] is idempotent.  After a call that returned,
    a second call returns too and changes nothing: neither the store nor
    the collaborators' state, and no index-creation call is recorded.
    And when the index creation raises an error whose message says
    "already exists" (in any letter case), the call returns normally with
    the index marked as created. *)
Theorem ensure_index_exists_idempotent (vs : VectorStore) (w : World W) :
  (forall vs1 w1,
      ensure_index_exists vs w = (Ok tt, vs1, w1) ->
      ensure_index_exists vs1 w1 = (Ok tt, vs1, w1))
  /\ (forall e w',
         _index_created vs = false ->
         call_create_index (config vs) w = (Raises e, w') ->
         Str.contains "already exists" (Str.lower (exn_str e)) = true ->
         ensure_index_exists vs w = (Ok tt, set_index_created vs, w')).
Proof.
  split.
  - intros vs1 w1 H.
    apply ensure_index_exists_created.
    exact (ensure_index_exists_sets_flag _ _ _ _ H).
  - intros e w' Hc Hcall Hmsg.
    unfold ensure_index_exists. rewrite Hc, Hcall, Hmsg. reflexivity.
Qed.

(** ** The status of the document processor *)

(** C5: [get_status] returns in every state of the processor.  The report
    holds the two counts and the total length, and the average is the
    integer 0 when there is no chunk and the quotient of the total by the
    number of chunks otherwise. *)
Theorem get_status_never_raises (p : DocumentProcessor) :
  exists report,
    get_status p = Ok report
    /\ input_documents report = Z.of_nat (length (data_inputs p))
    /\ output_chunks report = Z.of_nat (length (status p))
    /\ total_characters report = total_length (status p)
    /\ (status p = [] -> average_chunk_size report = PyInt 0)
    /\ (status p <> [] ->
        average_chunk_size report
        = PyFloat (Qmake (total_length (status p))
                         (Pos.of_nat (length (status p))))).
Proof.
  unfold get_status.
  destruct (status p) as [|d ds] eqn:Hs.
  - eexists. repeat split; try reflexivity. intros H. now contradiction H.
  - unfold truediv.
    assert (Hpos : 0 < Z.of_nat (length (d :: ds))) by (simpl; lia).
    destruct (Z.eqb_spec (Z.of_nat (length (d :: ds))) 0) as [E|_]; [lia|].
    eexists. repeat split; try reflexivity.
    + discriminate.
    + intros _. cbn [average_chunk_size]. f_equal.
      rewrite Z.sgn_pos by exact Hpos.
      rewrite Z.mul_1_r, Z.abs_eq by lia.
      f_equal. simpl length. lia.
Qed.

(** ** Search *)

(** A tenant key in the caller's filter replaces the tenant of the call:
    [dict.update] lets the argument win. *)
Lemma search_base_filter_caller_wins (tenant_id other : string)
    (fc : metadata) :
  fc !! "tenant_id" = Some other ->
  search_base_filter tenant_id (Some fc) !! "tenant_id" = Some other.
Proof.
  intros Hfc. unfold search_base_filter.
  destruct (decide (fc = ∅)) as [->|_].
  - rewrite lookup_empty in Hfc. discriminate.
  - apply lookup_union_Some_l. exact Hfc.
Qed.

(** Without a tenant key in the caller's filter the tenant of the call
    is in the filter. *)
Lemma search_base_filter_tenant (tenant_id : string)
    (filter_criteria : option metadata) :
  (forall fc, filter_criteria = Some fc -> fc !! "tenant_id" = None) ->
  search_base_filter tenant_id filter_criteria !! "tenant_id"
  = Some tenant_id.
Proof.
  intros Hfc. unfold search_base_filter.
  destruct filter_criteria as [fc|].
  - destruct (decide (fc = ∅)); [apply lookup_singleton_eq|].
    rewrite lookup_union_r by (apply Hfc; reflexivity).
    apply lookup_singleton_eq.
  - apply lookup_singleton_eq.
Qed.

(** C1: the filter [search_documents] builds for tenant A from a caller's
    filter that binds [tenant_id] to B has B, and not A, as its tenant. *)
Theorem search_filter_tenant_overridden :
  search_base_filter "A" (Some {["tenant_id" := "B"]}) !! "tenant_id"
  = Some "B"
  /\ search_base_filter "A" (Some {["tenant_id" := "B"]}) !! "tenant_id"
     <> Some "A".
Proof.
  rewrite (search_base_filter_caller_wins "A" "B")
    by apply lookup_singleton_eq.
  split; [reflexivity | discriminate].
Qed.

Lemma VectorStore_has_no_create_metadata_filter :
  VectorStore_getattr "create_metadata_filter"
  = Raise (AttributeError
             "'VectorStore' object has no attribute 'create_metadata_filter'").
Proof. reflexivity. Qed.

Lemma advanced_search_rejects_filter_keyword (query : string) (k : Z)
    (v : pyvalue) :
  bind_arguments (method_signature m_advanced_search) []
                 [("query", VStr query); ("k", VInt k); ("filter", v)]
  = Raise (TypeError
             "VectorStore.advanced_search() got an unexpected keyword argument 'filter'").
Proof. reflexivity. Qed.

(** C10: [search_documents] raises for every query, tenant, filter and
    [k], and leaves the state as it was: the vector store has no attribute
    [create_metadata_filter], so the call of it raises [AttributeError].
    Moreover the call of [advanced_search] that follows names a keyword
    [filter], which is not a parameter of that method ([metadata_filter]
    is): on any store it raises [TypeError] before the method runs. *)
Theorem search_documents_always_raises (query tenant_id : string)
    (filter_criteria : option metadata) (k : Z) (st : State) :
  search_documents query tenant_id filter_criteria k st
  = (Raise (AttributeError
              "'VectorStore' object has no attribute 'create_metadata_filter'"),
     st)
  /\ (forall v vs w,
         VectorStore_call "advanced_search" []
           [("query", VStr query); ("k", VInt k); ("filter", v)] vs w
         = (Raise (TypeError
                     "VectorStore.advanced_search() got an unexpected keyword argument 'filter'"),
            vs, w))
  /\ ~ In "filter" (sig_params (method_signature m_advanced_search))
  /\ In "metadata_filter" (sig_params (method_signature m_advanced_search)).
Proof.
  split; [|split; [|split]].
  - destruct st as [[c p vs] fs w]. reflexivity.
  - intros v vs w. reflexivity.
  - simpl. intros H.
    repeat (destruct H as [H|H]; [discriminate H|]). exact H.
  - simpl. auto.
Qed.

(** ** Splitting *)

(** What one input document adds to the result of [split_text]: its
    chunks, as the splitter cut them, that pass the filter. *)
Definition contribution (p : DocumentProcessor) (sp : Splitter) (d : Data)
  : list Data :=
  match split_document sp (to_lc_document d) with
  | Returns chunks => _docs_to_data (List.filter (long_enough p) chunks)
  | Raises _ => []
  end.

Lemma _docs_to_data_app (l1 l2 : list Document) :
  _docs_to_data (l1 ++ l2) = (_docs_to_data l1 ++ _docs_to_data l2)%list.
Proof. unfold _docs_to_data. apply map_app. Qed.

(** The chunks that survive the filter, document by document. *)
Lemma split_documents_contributions (p : DocumentProcessor) (sp : Splitter)
    (inputs : list Data) (docs : list Document) :
  split_documents sp (map to_lc_document inputs) = Returns docs ->
  _docs_to_data (List.filter (long_enough p) docs)
  = flat_map (contribution p sp) inputs.
Proof.
  revert docs. induction inputs as [|d inputs IH]; intros docs; simpl.
  - intros [= <-]. reflexivity.
  - unfold contribution.
    destruct (split_document sp (to_lc_document d)) as [chunks|e];
      [|discriminate].
    destruct (split_documents sp (map to_lc_document inputs)) as [more|e];
      [|discriminate].
    intros [= <-].
    rewrite List.filter_app, _docs_to_data_app.
    f_equal. apply IH. reflexivity.
Qed.

Lemma long_enough_text (p : DocumentProcessor) (docs : list Document) :
  Forall (fun d => min_chunk_size p <= Str.len (text d))
         (_docs_to_data (List.filter (long_enough p) docs)).
Proof.
  induction docs as [|doc docs IH]; simpl; [constructor|].
  destruct (long_enough p doc) eqn:Hl; [|exact IH].
  simpl. constructor; [|exact IH].
  simpl. unfold long_enough in Hl. lia.
Qed.

(** A document shorter than the minimum adds nothing, provided the
    splitter makes no chunk longer than the text it cuts. *)
Lemma contribution_short (p : DocumentProcessor) (sp : Splitter) (d : Data) :
  (forall s chunks c,
      splitter_split_text sp s = Returns chunks ->
      In c chunks -> Str.len c <= Str.len s) ->
  Str.len (text d) < min_chunk_size p ->
  contribution p sp d = [].
Proof.
  intros Hsub Hshort. unfold contribution, split_document. simpl.
  destruct (splitter_split_text sp (text d)) as [chunks|e] eqn:Hsp;
    [|reflexivity].
  assert (Hall : forall c, In c chunks -> Str.len c < min_chunk_size p).
  { intros c Hc. pose proof (Hsub _ _ _ Hsp Hc). lia. }
  clear Hsp. induction chunks as [|c chunks IH]; [reflexivity|].
  simpl. unfold long_enough at 1. simpl.
  destruct (Z.leb_spec (min_chunk_size p) (Str.len c)) as [Hle|_].
  - specialize (Hall c (or_introl eq_refl)). lia.
  - apply IH. intros c' Hc'. apply Hall. now right.
Qed.

(** C4: whenever [split_text] returns, every chunk it returns is at least
    [min_chunk_size] long.  The shorter chunks are dropped by a filter
    and raise nothing: the result is the splitter's output, filtered, and
    it is made of what each input document contributes, in order.  A
    document whose cleaned text is shorter than [min_chunk_size]
    contributes no chunk, given that the splitter cuts no chunk longer
    than the text it is given. *)
Theorem split_text_drops_short_chunks (p p' : DocumentProcessor)
    (chunks : list Data) :
  (forall sp s cs c,
      splitter_split_text sp s = Returns cs ->
      In c cs -> Str.len c <= Str.len s) ->
  split_text p = (Ok chunks, p') ->
  Forall (fun d => min_chunk_size p <= Str.len (text d)) chunks
  /\ exists sp docs,
       CharacterTextSplitter (chunk_overlap p) (chunk_size p)
                             (unescape (separator p)) (strip_whitespace p)
       = Returns sp
       /\ split_documents sp (map to_lc_document (data_inputs p))
          = Returns docs
       /\ chunks = _docs_to_data (List.filter (long_enough p) docs)
       /\ chunks = flat_map (contribution p sp) (data_inputs p)
       /\ (forall d,
              In d (data_inputs p) ->
              Str.len (text d) < min_chunk_size p ->
              contribution p sp d = []).
Proof.
  intros Hsub. unfold split_text.
  destruct (CharacterTextSplitter _ _ _ _) as [sp|e] eqn:Hnew;
    [|discriminate].
  destruct (split_documents sp _) as [docs|e] eqn:Hdocs; [|discriminate].
  intros [= <- <-]. split.
  - apply long_enough_text.
  - exists sp, docs. repeat split; try reflexivity.
    + exact Hdocs.
    + apply split_documents_contributions. exact Hdocs.
    + intros d _ Hshort. apply contribution_short; [apply Hsub | exact Hshort].
Qed.

(** With nothing but short documents, [split_text] returns no chunk. *)
Lemma split_text_all_short (p p' : DocumentProcessor) (chunks : list Data) :
  (forall sp s cs c,
      splitter_split_text sp s = Returns cs ->
      In c cs -> Str.len c <= Str.len s) ->
  Forall (fun d => Str.len (text d) < min_chunk_size p) (data_inputs p) ->
  split_text p = (Ok chunks, p') ->
  chunks = [].
Proof.
  intros Hsub Hall. unfold split_text.
  destruct (CharacterTextSplitter _ _ _ _) as [sp|e]; [|discriminate].
  destruct (split_documents sp _) as [docs|e] eqn:Hdocs; [|discriminate].
  intros [= <- <-].
  rewrite (split_documents_contributions p sp _ _ Hdocs). clear Hdocs.
  induction Hall as [|d ds Hd Hds IH]; [reflexivity|].
  simpl. rewrite (contribution_short p sp d (Hsub sp) Hd). exact IH.
Qed.

(** ** Batch conversion *)

(** Whether each file of a list converts, when the files are converted
    one after the other from a given state. *)
Fixpoint conversion_flags (c : BatchPdfConverter) (tenant_id : string)
    (pdf_files : list Path) (fs : FS) (w : World W) : list bool :=
  match pdf_files with
  | [] => []
  | pdf_path :: rest =>
      let '((_, success), fs1, w1) :=
        convert_single_pdf c pdf_path tenant_id fs w in
      success :: conversion_flags c tenant_id rest fs1 w1
  end.

(** The names of the files whose flag is [b]. *)
Fixpoint names_with (b : bool) (pdf_files : list Path) (flags : list bool)
  : list string :=
  match pdf_files, flags with
  | pdf_path :: rest, flag :: flags' =>
      if Bool.eqb flag b
      then path_name pdf_path :: names_with b rest flags'
      else names_with b rest flags'
  | _, _ => []
  end.




(** One conversion hands the file back and records exactly one call of
    the converter; it never raises. *)
Lemma convert_single_pdf_spec c pdf_path tenant_id fs w :
  exists success fs1 w1,
    convert_single_pdf c pdf_path tenant_id fs w
    = ((pdf_path, success), fs1, w1)
    /\ calls w1 = (calls w ++ [CallConvert (path_str pdf_path)])%list.
Proof.
  unfold convert_single_pdf, setup_tenant_directories, call_convert.
  destruct (marker_convert _ _ _) as [r e]. simpl.
  destruct r as [rendered|err].
  - destruct (write_text _ _ _ _); eauto.
  - eauto.
Qed.

(** The loop files every name under the flag of its conversion and
    attempts every file, in order, whatever the earlier ones did. *)
Lemma convert_loop_spec c tenant_id pdf_files results fs w :
  exists fs' w',
    convert_loop c tenant_id pdf_files results fs w
    = (mkConversionResults
         (successful results
          ++ names_with true pdf_files
               (conversion_flags c tenant_id pdf_files fs w))%list
         (failed results
          ++ names_with false pdf_files
               (conversion_flags c tenant_id pdf_files fs w))%list
         (total results), fs', w')
    /\ calls w'
       = (calls w ++ map (fun f => CallConvert (path_str f)) pdf_files)%list.
Proof.
  revert results fs w.
  induction pdf_files as [|f rest IH]; intros results fs w; simpl.
  - exists fs, w. rewrite !app_nil_r. destruct results. split; reflexivity.
  - destruct (convert_single_pdf_spec c f tenant_id fs w)
      as (ok & fs1 & w1 & -> & Hcalls).
    destruct ok; simpl.
    + destruct (IH (mkConversionResults
                      (successful results ++ [path_name f])%list
                      (failed results) (total results)) fs1 w1)
        as (fs' & w' & -> & Hc').
      exists fs', w'. simpl. rewrite <- !app_assoc. simpl.
      split; [reflexivity|]. rewrite Hc', Hcalls, <- app_assoc. reflexivity.
    + destruct (IH (mkConversionResults
                      (successful results)
                      (failed results ++ [path_name f])%list
                      (total results)) fs1 w1)
        as (fs' & w' & -> & Hc').
      exists fs', w'. simpl. rewrite <- !app_assoc. simpl.
      split; [reflexivity|]. rewrite Hc', Hcalls, <- app_assoc. reflexivity.
Qed.

(** *** The file system under the staging of uploads *)




Lemma read_file_unlink_other_dir (d d' name name' : string) (fs : FS) :
  d <> d' -> read_file d name (unlink d' name' fs) = read_file d name fs.
Proof.
  intros Hne. unfold read_file, unlink.
  destruct (fs !! d') eqn:E; [|reflexivity].
  now rewrite lookup_insert_ne.
Qed.

Lemma read_file_unlink_other_name (d name name' : string) (fs : FS) :
  name <> name' -> read_file d name (unlink d name' fs) = read_file d name fs.
Proof.
  intros Hne. unfold read_file, unlink.
  destruct (fs !! d) eqn:E.
  - rewrite lookup_insert_eq. now rewrite lookup_delete_ne.
  - now rewrite E.
Qed.









(** ** The ingestion pipeline *)










(** ** Retrying *)



(** ** What reaches the index *)

(** The elements a call writes to the index. *)
Definition written (c : call) : list item :=
  match c with
  | CallAddDocuments docs => docs
  | CallAddTexts texts _ => texts
  | _ => []
  end.

Definition carries_tenant (i : item) : Prop :=
  is_Some (item_metadata i !! "tenant_id").

(** [later] is [earlier] followed by calls that write nothing but
    elements that carry a tenant. *)
Definition tagged_extension (earlier later : list call) : Prop :=
  exists new,
    later = (earlier ++ new)%list
    /\ Forall carries_tenant (flat_map written new).

Lemma tagged_extension_refl (l : list call) : tagged_extension l l.
Proof. exists []. rewrite app_nil_r. split; [reflexivity | constructor]. Qed.

Lemma tagged_extension_trans (l1 l2 l3 : list call) :
  tagged_extension l1 l2 -> tagged_extension l2 l3 -> tagged_extension l1 l3.
Proof.
  intros (n1 & -> & H1) (n2 & -> & H2). exists (n1 ++ n2)%list.
  rewrite app_assoc. split; [reflexivity|].
  rewrite flat_map_app. apply Forall_app. now split.
Qed.

Lemma tagged_extension_silent (l new : list call) :
  flat_map written new = [] -> tagged_extension l (l ++ new).
Proof. intros H. exists new. rewrite H. split; [reflexivity|constructor]. Qed.

Lemma slices_fuel_concat {A} (step fuel : nat) (l : list A) :
  (0 < step)%nat -> (length l <= fuel)%nat ->
  concat (slices_fuel fuel step l) = l.
Proof.
  intros Hstep. revert l. induction fuel as [|fuel IH]; intros l Hlen.
  - destruct l; [reflexivity | simpl in Hlen; lia].
  - destruct l as [|x l']; [reflexivity|].
    cbn [slices_fuel concat]. rewrite IH.
    + apply take_drop.
    + rewrite length_drop. simpl in *. lia.
Qed.

Lemma slices_fuel_nonempty {A} (step fuel : nat) (l : list A) :
  (0 < step)%nat -> Forall (fun b => b <> []) (slices_fuel fuel step l).
Proof.
  intros Hstep. revert l. induction fuel as [|fuel IH]; intros l; simpl;
    [constructor|].
  destruct l as [|x l']; [constructor|].
  constructor; [|apply IH].
  destruct step; [lia | discriminate].
Qed.

Lemma slices_fuel_subset {A} (step fuel : nat) (l : list A) (x : A) :
  In x (concat (slices_fuel fuel step l)) -> In x l.
Proof.
  revert l. induction fuel as [|fuel IH]; intros l; simpl; [tauto|].
  destruct l as [|y l']; [tauto|].
  cbn [concat]. rewrite in_app_iff. intros [H|H].
  - rewrite <- (take_drop step (y :: l')). apply in_app_iff. now left.
  - rewrite <- (take_drop step (y :: l')). apply in_app_iff. right.
    now apply IH.
Qed.

Lemma ensure_index_exists_calls (vs : VectorStore) (w : World W) :
  exists new,
    calls (snd (ensure_index_exists vs w)) = (calls w ++ new)%list
    /\ flat_map written new = [].
Proof.
  unfold ensure_index_exists, call_create_index.
  destruct (_index_created vs).
  - exists []. now rewrite app_nil_r.
  - destruct (cosmos_create_index _ _ _ _ _) as [r e]. simpl.
    exists [CallCreateIndex (num_lists (config vs)) (dimensions (config vs))
                            (m (config vs)) (ef_construction (config vs))].
    destruct r as [u|err]; [|destruct (Str.contains _ _)]; auto.
Qed.

Lemma process_batch_calls batch_docs batch_metadata (w : World W) :
  exists new,
    calls (snd (process_batch batch_docs batch_metadata w))
    = (calls w ++ new)%list
    /\ flat_map written new = batch_docs.
Proof.
  unfold process_batch, call_add_texts, call_add_documents.
  destruct batch_docs as [|first rest].
  - exists []. now rewrite app_nil_r.
  - destruct (item_is_str first).
    + destruct (cosmos_add_texts _ _ _) as [r e]. simpl.
      eexists [_]. split; [reflexivity|]. cbn [flat_map written].
      apply app_nil_r.
    + destruct (cosmos_add_documents _ _) as [r e]. simpl.
      eexists [_]. split; [reflexivity|]. cbn [flat_map written].
      apply app_nil_r.
Qed.

(** Every batch is handed to the index, whatever the other batches do. *)
Lemma gather_calls tasks (w : World W) :
  exists new,
    calls (snd (gather tasks w)) = (calls w ++ new)%list
    /\ flat_map written new = concat (map fst tasks).
Proof.
  revert w. induction tasks as [|[batch_docs batch_meta] rest IH]; intros w.
  - exists []. simpl. now rewrite app_nil_r.
  - simpl.
    destruct (process_batch_calls batch_docs batch_meta w) as (n1 & H1 & W1).
    destruct (process_batch batch_docs batch_meta w) as [r w1]. simpl in H1.
    destruct (IH w1) as (n2 & H2 & W2).
    destruct (gather rest w1) as [rs w2]. simpl in H2.
    exists (n1 ++ n2)%list. split.
    + destruct r, rs; simpl; now rewrite H2, H1, app_assoc.
    + now rewrite flat_map_app, W1, W2.
Qed.

Lemma zip_fst_subset {A B} (a : list A) (b : list B) (x : A) :
  In x (map fst (zip a b)) -> In x a.
Proof.
  revert b. induction a as [|y a IH]; intros [|z b]; simpl; try tauto.
  intros [H|H]; [now left | right; now apply (IH b)].
Qed.

Lemma concat_subset {A} (l1 l2 : list (list A)) (x : A) :
  (forall y, In y l1 -> In y l2) -> In x (concat l1) -> In x (concat l2).
Proof.
  intros Hsub Hin. apply in_concat in Hin as (y & Hy & Hx).
  apply in_concat. exists y. split; [now apply Hsub | exact Hx].
Qed.

(** The batch write hands to the index nothing but elements of the list
    it was given, whatever its configuration and however it ends. *)
Lemma batch_add_documents_calls documents md vs (w : World W) :
  exists new,
    calls (snd (batch_add_documents documents md vs w))
    = (calls w ++ new)%list
    /\ (forall i, In i (flat_map written new) -> In i documents).
Proof.
  unfold batch_add_documents.
  destruct (ensure_index_exists_calls vs w) as (n0 & H0 & W0).
  destruct (ensure_index_exists vs w) as [[r vs1] w1]. simpl in H0.
  assert (Hquiet : forall i, In i (flat_map written n0) -> In i documents)
    by (rewrite W0; intros i []).
  destruct r as [u|e|]; [|now exists n0|now exists n0].
  unfold slices.
  destruct (batch_size (batch_config vs1) =? 0); [now exists n0|].
  destruct (batch_size (batch_config vs1) <? 0).
  - destruct (max_concurrency (batch_config vs1) <? 0); [now exists n0|].
    destruct (max_concurrency (batch_config vs1) =? 0); [now exists n0|].
    simpl. now exists n0.
  - destruct (max_concurrency (batch_config vs1) <? 0); [now exists n0|].
    destruct (max_concurrency (batch_config vs1) =? 0); [now exists n0|].
    match goal with
    | |- context [gather ?t w1] =>
        destruct (gather_calls t w1) as (n2 & H2 & W2);
        destruct (gather t w1) as [r2 w2]
    end.
    simpl in H2. exists (n0 ++ n2)%list. split.
    + destruct r2; simpl; now rewrite H2, H0, app_assoc.
    + intros i. rewrite flat_map_app, W0, W2. simpl. intros Hin.
      eapply slices_fuel_subset.
      eapply concat_subset; [|exact Hin].
      intros y. apply zip_fst_subset.
Qed.

(** With a positive batch size and concurrency and no metadata list, the
    batch write hands every element it was given to the index, in order,
    once the index is ensured: no element is held back or checked. *)
Lemma batch_add_documents_forwards documents vs vs1 (w w1 : World W) :
  0 < batch_size (batch_config vs) ->
  0 < max_concurrency (batch_config vs) ->
  ensure_index_exists vs w = (Ok tt, vs1, w1) ->
  exists r w' new,
    batch_add_documents documents None vs w = (r, vs1, w')
    /\ r <> Hang
    /\ calls w' = (calls w1 ++ new)%list
    /\ flat_map written new = documents.
Proof.
  intros Hbs Hmc Hens. unfold batch_add_documents. rewrite Hens.
  assert (Hcfg : batch_config vs1 = batch_config vs).
  { unfold ensure_index_exists in Hens.
    destruct (_index_created vs); [now inversion Hens|].
    destruct (call_create_index _ _) as [r0 w0].
    destruct r0; [now inversion Hens|].
    destruct (Str.contains _ _); now inversion Hens. }
  rewrite Hcfg. unfold slices.
  destruct (Z.eqb_spec (batch_size (batch_config vs)) 0); [lia|].
  destruct (Z.ltb_spec (batch_size (batch_config vs)) 0); [lia|].
  destruct (Z.ltb_spec (max_concurrency (batch_config vs)) 0); [lia|].
  destruct (Z.eqb_spec (max_concurrency (batch_config vs)) 0); [lia|].
  match goal with
  | |- context [gather ?t w1] =>
      destruct (gather_calls t w1) as (new & Hc & Hw);
      destruct (gather t w1) as [r2 w2]
  end.
  simpl in Hc.
  assert (Hall : flat_map written new = documents).
  { rewrite Hw. unfold zip_batches. rewrite fst_zip.
    - apply slices_fuel_concat; lia.
    - now rewrite length_replicate. }
  destruct r2 as [results|e].
  - exists (Ok (flatten results)), w2, new.
    split; [reflexivity|]. split; [discriminate|]. now split.
  - exists (Raise e), w2, new.
    split; [reflexivity|]. split; [discriminate|]. now split.
Qed.

Lemma batch_convert_pdfs_calls c tenant_id temp_dir fs (w : World W) :
  exists new,
    calls (snd (batch_convert_pdfs c tenant_id temp_dir fs w))
    = (calls w ++ new)%list
    /\ flat_map written new = [].
Proof.
  unfold batch_convert_pdfs.
  destruct (stage_uploads c tenant_id temp_dir fs) as [[u|e|] fs1];
    try (exists []; now rewrite app_nil_r).
  destruct (get_pdf_files c tenant_id fs1) as [files fs2].
  destruct files as [|f rest]; [exists []; now rewrite app_nil_r|].
  destruct (convert_loop_spec c tenant_id (f :: rest)
              (mkConversionResults [] [] (Z.of_nat (length (f :: rest))))
              fs2 w) as (fs' & w' & -> & Hcalls).
  simpl. eexists. split; [exact Hcalls|].
  generalize (f :: rest). intros l. induction l; simpl; auto.
Qed.

Lemma base_metadata_has_tenant (tenant_id : string)
    (additional : option metadata) :
  is_Some (base_metadata_of tenant_id additional !! "tenant_id").
Proof.
  unfold base_metadata_of. apply lookup_union_is_Some. right.
  rewrite lookup_singleton_eq. eauto.
Qed.

Lemma reasserted_carry_tenant (tenant_id : string)
    (additional : option metadata) (chunks : list Data) :
  Forall carries_tenant
    (map (fun ch => ItemDoc (to_lc_document ch))
         (map (reassert_metadata (base_metadata_of tenant_id additional))
              chunks)).
Proof.
  induction chunks as [|ch chunks IH]; simpl; constructor; [|exact IH].
  unfold carries_tenant. simpl. apply lookup_union_is_Some. left.
  apply base_metadata_has_tenant.
Qed.

Lemma add_texts_documents_carry_tenant (tenant_id : string)
    (chunks : list Data) :
  Forall carries_tenant
    (map (fun ch => ItemDoc (to_lc_document ch))
         (map (add_texts_document tenant_id) chunks)).
Proof.
  induction chunks as [|ch chunks IH]; simpl; constructor; [|exact IH].
  unfold carries_tenant, add_texts_document.
  destruct (data ch !! "tenant_id") eqn:E; simpl.
  - rewrite E. eauto.
  - rewrite lookup_insert_eq. eauto.
Qed.

(** Whatever a batch write of tagged elements does, it extends the calls
    by tagged writes only. *)
Lemma batch_add_documents_tagged documents md vs (w : World W) :
  Forall carries_tenant documents ->
  tagged_extension (calls w)
                   (calls (snd (batch_add_documents documents md vs w))).
Proof.
  intros Hall.
  destruct (batch_add_documents_calls documents md vs w) as (new & -> & Hin).
  exists new. split; [reflexivity|].
  apply Forall_forall. intros i Hi. apply list_elem_of_In in Hi.
  rewrite Forall_forall in Hall. apply Hall, list_elem_of_In, Hin, Hi.
Qed.

Lemma process_pdfs_body_tagged tenant_id input_dir additional st :
  tagged_extension
    (calls (world st))
    (calls (world (snd (process_pdfs_body tenant_id input_dir additional
                                          st)))).
Proof.
  unfold process_pdfs_body.
  destruct (batch_convert_pdfs_calls (pdf_converter (self st)) tenant_id
              input_dir (disk st) (world st)) as (n1 & H1 & W1).
  destruct (batch_convert_pdfs _ _ _ _ _) as [[r fs1] w1]. simpl in H1.
  assert (Hconv : tagged_extension (calls (world st)) (calls w1))
    by (rewrite H1; now apply tagged_extension_silent).
  destruct r as [results|e|]; try exact Hconv.
  destruct (successful results); [exact Hconv|].
  destruct (load_documents _ _ _ _) as [documents|e|]; try exact Hconv.
  destruct (add_documents _ _) as [[u|e|] p1]; try exact Hconv.
  destruct (split_text p1) as [[chunks|e|] p2]; try exact Hconv.
  simpl.
  pose proof (batch_add_documents_tagged
                (map (fun ch => ItemDoc (to_lc_document ch))
                     (map (reassert_metadata
                             (base_metadata_of tenant_id additional)) chunks))
                None (vector_store (self st)) w1
                (reasserted_carry_tenant _ _ _)) as Hw.
  destruct (batch_add_documents _ _ _ _) as [[r vs1] w2]. simpl in Hw.
  assert (H2 : tagged_extension (calls (world st)) (calls w2))
    by (eapply tagged_extension_trans; eassumption).
  destruct r as [ids|e|]; try exact H2.
  destruct (get_status _); exact H2.
Qed.

Lemma add_texts_tagged texts tenant_id md st :
  tagged_extension
    (calls (world st))
    (calls (world (snd (add_texts texts tenant_id md st)))).
Proof.
  unfold add_texts.
  destruct (DocumentProcessor_add_texts _ _ _) as [[u|e|] p1];
    try apply tagged_extension_refl.
  destruct (split_text p1) as [[chunks|e|] p2];
    try apply tagged_extension_refl.
  simpl.
  pose proof (batch_add_documents_tagged
                (map (fun ch => ItemDoc (to_lc_document ch))
                     (map (add_texts_document tenant_id) chunks))
                None (vector_store (self st)) (world st)
                (add_texts_documents_carry_tenant _ _)) as Hw.
  destruct (batch_add_documents _ _ _ _) as [[r vs1] w2]. simpl in Hw.
  destruct r as [ids|e|]; try exact Hw.
  destruct (get_status _); exact Hw.
Qed.

Lemma retrying_tagged {A} (wait : Z -> Z)
    (body : State -> outcome A * State) :
  (forall st,
      tagged_extension (calls (world st)) (calls (world (snd (body st))))) ->
  forall attempts attempt_number st,
    tagged_extension
      (calls (world st))
      (calls (world (snd (retrying attempts attempt_number wait body st)))).
Proof.
  intros Hbody attempts.
  induction attempts as [|n IH]; intros k st; simpl;
    specialize (Hbody st); destruct (body st) as [[a|e|] st1];
    simpl in Hbody; try exact Hbody.
  destruct n as [|n']; [exact Hbody|].
  eapply tagged_extension_trans; [exact Hbody|].
  eapply tagged_extension_trans; [|apply IH].
  unfold sleep. simpl. now apply tagged_extension_silent.
Qed.

(** C2, as the code has it: the batch write makes no check of
    [tenant_id].  Once the index is ensured it hands every element it is
    given to the index, in batches and in order, whatever its metadata;
    it is the pipeline that tags: every element that [process_pdfs] or
    [add_texts] hands to the index carries a [tenant_id] key. *)
Theorem batch_write_unchecked_callers_tag :
  (forall documents vs vs1 (w w1 : World W),
      0 < batch_size (batch_config vs) ->
      0 < max_concurrency (batch_config vs) ->
      ensure_index_exists vs w = (Ok tt, vs1, w1) ->
      exists r w' new,
        batch_add_documents documents None vs w = (r, vs1, w')
        /\ r <> Hang
        /\ calls w' = (calls w1 ++ new)%list
        /\ flat_map written new = documents)
  /\ (forall tenant_id input_dir additional st,
         tagged_extension
           (calls (world st))
           (calls (world (snd (process_pdfs tenant_id input_dir additional
                                            st)))))
  /\ (forall texts tenant_id md st,
         tagged_extension
           (calls (world st))
           (calls (world (snd (add_texts texts tenant_id md st))))).
Proof.
  split; [|split].
  - intros documents vs vs1 w w1. apply batch_add_documents_forwards.
  - intros tenant_id input_dir additional st. unfold process_pdfs.
    apply retrying_tagged. intros st'. apply process_pdfs_body_tagged.
  - intros texts tenant_id md st. apply add_texts_tagged.
Qed.

(** * More of the code *)

(** Propositional steps that leave out of the proof whatever the goal
    does not mention, the collaborators among it. *)
Ltac forget_unused :=
  repeat match goal with
         | x : ?T |- _ =>
             lazymatch type of T with
             | Prop => fail
             | _ => clear x
             end
         end.

Ltac ptauto := forget_unused; tauto.

Ltac pcongruence := forget_unused; intuition congruence.

(** ** More of the batch write *)

(** The batches the calls hand to the index, one per write, in order. *)
Definition write_batches (cs : list call) : list (list item) :=
  omap (fun c =>
          match c with
          | CallAddDocuments docs => Some docs
          | CallAddTexts texts _ => Some texts
          | _ => None
          end) cs.

Lemma write_batches_app (l1 l2 : list call) :
  write_batches (l1 ++ l2) = (write_batches l1 ++ write_batches l2)%list.
Proof. unfold write_batches. apply omap_app. Qed.

Lemma flat_map_written_batches (cs : list call) :
  flat_map written cs = concat (write_batches cs).
Proof.
  induction cs as [|c cs IH]; [reflexivity|].
  destruct c; simpl; rewrite IH; reflexivity.
Qed.

Lemma ensure_index_exists_no_write (vs : VectorStore) (w : World W) :
  exists new,
    calls (snd (ensure_index_exists vs w)) = (calls w ++ new)%list
    /\ write_batches new = [].
Proof.
  unfold ensure_index_exists, call_create_index.
  destruct (_index_created vs).
  - exists []. now rewrite app_nil_r.
  - destruct (cosmos_create_index _ _ _ _ _) as [r e]. simpl.
    exists [CallCreateIndex (num_lists (config vs)) (dimensions (config vs))
                            (m (config vs)) (ef_construction (config vs))].
    destruct r as [u|err]; [|destruct (Str.contains _ _)]; auto.
Qed.

Lemma process_batch_one_write batch_docs batch_metadata (w : World W) :
  batch_docs <> [] ->
  exists c,
    calls (snd (process_batch batch_docs batch_metadata w))
    = (calls w ++ [c])%list
    /\ write_batches [c] = [batch_docs].
Proof.
  unfold process_batch, call_add_texts, call_add_documents.
  destruct batch_docs as [|first rest]; [congruence|]. intros _.
  destruct (item_is_str first).
  - destruct (cosmos_add_texts _ _ _) as [r e]. simpl. eauto.
  - destruct (cosmos_add_documents _ _) as [r e]. simpl. eauto.
Qed.

(** One write per task, in the order of the tasks, and no other call. *)
Lemma gather_write_batches tasks (w : World W) :
  Forall (fun t => fst t <> []) tasks ->
  exists new,
    calls (snd (gather tasks w)) = (calls w ++ new)%list
    /\ write_batches new = map fst tasks
    /\ length new = length tasks.
Proof.
  intros Hne. revert w.
  induction Hne as [|[batch_docs batch_meta] rest Hb Hrest IH]; intros w.
  - exists []. simpl. now rewrite app_nil_r.
  - simpl in Hb. simpl.
    destruct (process_batch_one_write batch_docs batch_meta w Hb)
      as (c & H1 & W1).
    destruct (process_batch batch_docs batch_meta w) as [r w1]. simpl in H1.
    destruct (IH w1) as (n2 & H2 & W2 & L2).
    destruct (gather rest w1) as [rs w2]. simpl in H2.
    exists (c :: n2). split; [|split].
    + destruct r, rs; simpl; rewrite H2, H1, <- app_assoc; reflexivity.
    + change (c :: n2) with ([c] ++ n2)%list.
      rewrite write_batches_app, W1, W2. reflexivity.
    + simpl. now rewrite L2.
Qed.

(** The slices of a list: their sizes and their number. *)
Lemma slices_fuel_sizes {A} (step fuel : nat) (l : list A) :
  (0 < step)%nat -> (length l <= fuel)%nat ->
  Forall (fun b => (1 <= length b <= step)%nat) (slices_fuel fuel step l)
  /\ Forall (fun b => length b = step)
            (removelast (slices_fuel fuel step l))
  /\ length (slices_fuel fuel step l) = ((length l + step - 1) / step)%nat.
Proof.
  intros Hstep. revert l. induction fuel as [|fuel IH]; intros l Hlen.
  - destruct l; [|simpl in Hlen; lia]. simpl.
    repeat split; try constructor.
    symmetry. apply Nat.div_small. lia.
  - destruct l as [|x l']; simpl slices_fuel.
    + repeat split; try constructor.
      symmetry. apply Nat.div_small. simpl. lia.
    + destruct (IH (drop step (x :: l'))) as (Hs & Hfull & Hnum).
      { rewrite length_drop. simpl in *. lia. }
      split; [|split].
      * constructor; [|exact Hs].
        rewrite length_take. simpl length. lia.
      * destruct (slices_fuel fuel step (drop step (x :: l'))) as [|b bs] eqn:E.
        -- constructor.
        -- cbn [removelast]. constructor; [|exact Hfull].
           rewrite length_take.
           assert (Hd : (0 < length (drop step (x :: l')))%nat).
           { destruct (drop step (x :: l')) eqn:Ed; [|simpl; lia].
             destruct fuel; simpl in E; discriminate. }
           rewrite length_drop in Hd. lia.
      * cbn [length]. rewrite Hnum, length_drop.
        change (length (x :: l')) with (S (length l')).
        destruct (Nat.le_gt_cases (S (length l')) step) as [Hle|Hgt].
        -- replace (S (length l') - step)%nat with 0%nat by lia.
           replace ((0 + step - 1) / step)%nat with 0%nat
             by (symmetry; apply Nat.div_small; lia).
           apply Nat.div_unique with (r := length l'); lia.
        -- replace (S (length l') + step - 1)%nat
             with ((S (length l') - step + step - 1) + 1 * step)%nat by lia.
           rewrite Nat.div_add by lia. lia.
Qed.

Lemma ensure_index_exists_config (vs vs1 : VectorStore) (w w1 : World W)
    (r : outcome unit) :
  ensure_index_exists vs w = (r, vs1, w1) ->
  batch_config vs1 = batch_config vs /\ config vs1 = config vs.
Proof.
  unfold ensure_index_exists.
  destruct (_index_created vs); [now intros [= _ <- _]|].
  destruct (call_create_index _ _) as [r0 w0].
  destruct r0; [now intros [= _ <- _]|].
  destruct (Str.contains _ _); now intros [= _ <- _].
Qed.

Lemma fst_zip_take {A B} (a : list A) (b : list B) :
  map fst (zip a b) = take (length b) a.
Proof.
  revert b. induction a as [|x a IH]; intros [|y b]; simpl; try reflexivity.
  now rewrite IH.
Qed.

Lemma zip_fst_nonempty {A B} (a : list (list A)) (b : list B) :
  Forall (fun x => x <> []) a -> Forall (fun t => fst t <> []) (zip a b).
Proof.
  intros Ha. revert b. induction Ha as [|x a Hx Ha IH]; intros [|y b];
    simpl; constructor; auto.
Qed.

Lemma concat_take_slices {A} (k step fuel : nat) (l : list A) :
  (0 < step)%nat -> (length l <= fuel)%nat ->
  concat (take k (slices_fuel fuel step l)) = take (k * step) l.
Proof.
  intros Hstep. revert fuel l.
  induction k as [|k IH]; intros fuel l Hlen; [reflexivity|].
  destruct fuel as [|fuel].
  - destruct l; [simpl; now rewrite take_nil | simpl in Hlen; lia].
  - destruct l as [|x l']; [simpl; now rewrite take_nil|].
    cbn [slices_fuel take concat]. rewrite IH.
    + replace (S k * step)%nat with (step + k * step)%nat by lia.
      apply take_take_drop.
    + rewrite length_drop. simpl in *. lia.
Qed.

(** X1 (batch write): with a positive batch size and concurrency, the
    batch write partitions the documents into groups: it makes one write
    per group and nothing else, the groups put end to end are the
    documents, every group holds between one and [batch_size] elements,
    every group but the last holds exactly [batch_size], and the number
    of groups is the number of documents divided by [batch_size], rounded
    up. *)
Theorem batch_add_documents_groups documents vs vs1 (w w1 : World W) :
  0 < batch_size (batch_config vs) ->
  0 < max_concurrency (batch_config vs) ->
  ensure_index_exists vs w = (Ok tt, vs1, w1) ->
  exists new,
    calls (snd (batch_add_documents documents None vs w))
    = (calls w1 ++ new)%list
    /\ length new = length (write_batches new)
    /\ concat (write_batches new) = documents
    /\ Forall (fun b => 1 <= Z.of_nat (length b)
                        <= batch_size (batch_config vs))
              (write_batches new)
    /\ Forall (fun b => Z.of_nat (length b) = batch_size (batch_config vs))
              (removelast (write_batches new))
    /\ Z.of_nat (length (write_batches new))
       = (Z.of_nat (length documents) + batch_size (batch_config vs) - 1)
         / batch_size (batch_config vs).
Proof.
  intros Hbs Hmc Hens. unfold batch_add_documents. rewrite Hens.
  destruct (ensure_index_exists_config _ _ _ _ _ Hens) as [Hcfg _].
  rewrite Hcfg. unfold slices.
  destruct (Z.eqb_spec (batch_size (batch_config vs)) 0); [lia|].
  destruct (Z.ltb_spec (batch_size (batch_config vs)) 0); [lia|].
  destruct (Z.ltb_spec (max_concurrency (batch_config vs)) 0); [lia|].
  destruct (Z.eqb_spec (max_concurrency (batch_config vs)) 0); [lia|].
  set (step := Z.to_nat (batch_size (batch_config vs))).
  assert (Hstep : (0 < step)%nat) by (unfold step; lia).
  set (batches := slices_fuel (length documents) step documents).
  destruct (slices_fuel_sizes step (length documents) documents Hstep
              (le_n _)) as (Hsizes & Hfull & Hnum).
  fold batches in Hsizes, Hfull, Hnum.
  destruct (gather_write_batches
              (zip_batches batches (replicate (length batches) None)) w1)
    as (new & Hcalls & Hwb & Hlen).
  { apply zip_fst_nonempty. now apply slices_fuel_nonempty. }
  unfold zip_batches in Hwb, Hlen. rewrite fst_zip in Hwb
    by now rewrite length_replicate.
  rewrite length_zip, length_replicate, Nat.min_id in Hlen.
  exists new. split.
  { destruct (gather _ w1) as [[results|e] w2]; exact Hcalls. }
  rewrite Hwb. split; [exact Hlen|]. split; [|split; [|split]].
  - now apply slices_fuel_concat.
  - eapply Forall_impl; [exact Hsizes|]. intros b [H1 H2]. simpl.
    unfold step in H2. lia.
  - eapply Forall_impl; [exact Hfull|]. intros b Hb. simpl.
    unfold step in Hb. lia.
  - rewrite Hnum, Nat2Z.inj_div.
    f_equal; unfold step; lia.
Qed.

(** X2 (batch write): the configurations that are not positive, once the
    index is ensured.  A batch size of 0 raises [ValueError]; a negative
    batch size makes no batch at all, so the call returns the empty list
    and hands nothing to the index however many documents it was given;
    a negative concurrency raises [ValueError]; a concurrency of 0 never
    returns.  In all four cases nothing is written. *)
Theorem batch_add_documents_degenerate documents md vs vs1 (w w1 : World W) :
  ensure_index_exists vs w = (Ok tt, vs1, w1) ->
  (batch_size (batch_config vs) = 0 ->
   batch_add_documents documents md vs w
   = (Raise (ValueError "range() arg 3 must not be zero"), vs1, w1))
  /\ (batch_size (batch_config vs) < 0 ->
      0 < max_concurrency (batch_config vs) ->
      batch_add_documents documents md vs w = (Ok [], vs1, w1))
  /\ (batch_size (batch_config vs) <> 0 ->
      max_concurrency (batch_config vs) < 0 ->
      batch_add_documents documents md vs w
      = (Raise (ValueError "Semaphore initial value must be >= 0"),
         vs1, w1))
  /\ (batch_size (batch_config vs) <> 0 ->
      max_concurrency (batch_config vs) = 0 ->
      batch_add_documents documents md vs w = (Hang, vs1, w1)).
Proof.
  intros Hens. unfold batch_add_documents. rewrite Hens.
  destruct (ensure_index_exists_config _ _ _ _ _ Hens) as [-> _].
  unfold slices. repeat split.
  - intros ->. reflexivity.
  - intros Hbs Hmc.
    destruct (Z.eqb_spec (batch_size (batch_config vs)) 0); [lia|].
    destruct (Z.ltb_spec (batch_size (batch_config vs)) 0); [|lia].
    destruct (Z.ltb_spec (max_concurrency (batch_config vs)) 0); [lia|].
    destruct (Z.eqb_spec (max_concurrency (batch_config vs)) 0); [lia|].
    reflexivity.
  - intros Hbs Hmc.
    destruct (Z.eqb_spec (batch_size (batch_config vs)) 0); [lia|].
    destruct (Z.ltb_spec (max_concurrency (batch_config vs)) 0); [|lia].
    destruct (batch_size (batch_config vs) <? 0); reflexivity.
  - intros Hbs Hmc.
    destruct (Z.eqb_spec (batch_size (batch_config vs)) 0); [lia|].
    rewrite Hmc. destruct (batch_size (batch_config vs) <? 0); reflexivity.
Qed.

(** X3 (batch write): an empty list of documents is a no-op.  With a
    batch size other than 0 and a positive concurrency the call ensures
    the index, makes no write, and returns the empty list, whatever
    metadata list comes with it. *)
Theorem batch_add_documents_nothing_to_write md vs vs1 (w w1 : World W) :
  batch_size (batch_config vs) <> 0 ->
  0 < max_concurrency (batch_config vs) ->
  ensure_index_exists vs w = (Ok tt, vs1, w1) ->
  batch_add_documents [] md vs w = (Ok [], vs1, w1).
Proof.
  intros Hbs Hmc Hens. unfold batch_add_documents. rewrite Hens.
  destruct (ensure_index_exists_config _ _ _ _ _ Hens) as [-> _].
  unfold slices.
  destruct (Z.eqb_spec (batch_size (batch_config vs)) 0); [lia|].
  destruct (Z.ltb_spec (max_concurrency (batch_config vs)) 0); [lia|].
  destruct (Z.eqb_spec (max_concurrency (batch_config vs)) 0); [lia|].
  destruct (batch_size (batch_config vs) <? 0); reflexivity.
Qed.

(** X4 (batch write): a metadata list shorter than the documents cuts
    the write short without an error.  The batches of documents are
    paired with the batches of metadata and the pairing stops with the
    shorter list, so only the first [batch_size * ceil(|metadatas| /
    batch_size)] documents are handed to the index. *)
Theorem batch_add_documents_short_metadatas documents md0 mds vs vs1
    (w w1 : World W) :
  0 < batch_size (batch_config vs) ->
  0 < max_concurrency (batch_config vs) ->
  ensure_index_exists vs w = (Ok tt, vs1, w1) ->
  exists new,
    calls (snd (batch_add_documents documents (Some (md0 :: mds)) vs w))
    = (calls w1 ++ new)%list
    /\ fst (fst (batch_add_documents documents (Some (md0 :: mds)) vs w))
       <> Hang
    /\ flat_map written new
       = take (Z.to_nat
                 (batch_size (batch_config vs)
                  * ((Z.of_nat (length (md0 :: mds))
                      + batch_size (batch_config vs) - 1)
                     / batch_size (batch_config vs))))
              documents.
Proof.
  intros Hbs Hmc Hens. unfold batch_add_documents. rewrite Hens.
  destruct (ensure_index_exists_config _ _ _ _ _ Hens) as [Hcfg _].
  rewrite Hcfg. unfold slices.
  destruct (Z.eqb_spec (batch_size (batch_config vs)) 0); [lia|].
  destruct (Z.ltb_spec (batch_size (batch_config vs)) 0); [lia|].
  destruct (Z.ltb_spec (max_concurrency (batch_config vs)) 0); [lia|].
  destruct (Z.eqb_spec (max_concurrency (batch_config vs)) 0); [lia|].
  set (step := Z.to_nat (batch_size (batch_config vs))).
  assert (Hstep : (0 < step)%nat) by (unfold step; lia).
  set (batches := slices_fuel (length documents) step documents).
  set (mbs := slices_fuel (length (md0 :: mds)) step (md0 :: mds)).
  destruct (slices_fuel_sizes step (length (md0 :: mds)) (md0 :: mds) Hstep
              (le_n _)) as (_ & _ & Hnum).
  fold mbs in Hnum.
  destruct (gather_write_batches (zip_batches batches (Some <$> mbs)) w1)
    as (new & Hcalls & Hwb & _).
  { apply zip_fst_nonempty. now apply slices_fuel_nonempty. }
  unfold zip_batches in Hwb. rewrite fst_zip_take, length_fmap in Hwb.
  exists new. split; [|split].
  - destruct (gather _ w1) as [[results|e] w2]; exact Hcalls.
  - destruct (gather _ w1) as [[results|e] w2]; discriminate.
  - rewrite flat_map_written_batches, Hwb.
    unfold batches. rewrite concat_take_slices by (auto; lia).
    f_equal. rewrite Hnum. rewrite Z2Nat.inj_mul by (try lia;
      apply Z.div_pos; lia).
    rewrite Nat.mul_comm. fold step. f_equal.
    rewrite <- (Nat2Z.id (_ / step)%nat). f_equal.
    rewrite Nat2Z.inj_div. f_equal; unfold step; lia.
Qed.

Lemma gather_all_return tasks (w : World W) :
  (forall docs e, exists ids e',
      cosmos_add_documents docs e = (Returns ids, e')
      /\ length ids = length docs) ->
  (forall texts mds e, exists ids e',
      cosmos_add_texts texts mds e = (Returns ids, e')
      /\ length ids = length texts) ->
  Forall (fun t => fst t <> []) tasks ->
  exists idss w',
    gather tasks w = (Returns idss, w')
    /\ length (concat idss) = length (concat (map fst tasks)).
Proof.
  intros Hdocs Htexts Hne. revert w.
  induction Hne as [|[batch_docs batch_meta] rest Hb Hrest IH]; intros w.
  - simpl. eauto.
  - simpl in Hb. simpl.
    assert (Hone : exists ids w1,
               process_batch batch_docs batch_meta w = (Returns ids, w1)
               /\ length ids = length batch_docs).
    { unfold process_batch, call_add_texts, call_add_documents.
      destruct batch_docs as [|first others]; [congruence|].
      destruct (item_is_str first).
      - destruct (Htexts (first :: others) batch_meta (ext w))
          as (ids & e' & -> & Hl). eauto.
      - destruct (Hdocs (first :: others) (ext w)) as (ids & e' & -> & Hl).
        eauto. }
    destruct Hone as (ids & w1 & -> & Hl).
    destruct (IH w1) as (idss & w2 & -> & Hls).
    exists (ids :: idss), w2. split; [reflexivity|].
    simpl. rewrite !length_app. congruence.
Qed.

(** X5 (batch write): when the index takes every write and answers with
    one identifier per element, the batch write returns, with one
    identifier per document. *)
Theorem batch_add_documents_returns_ids documents vs vs1 (w w1 : World W) :
  (forall docs e, exists ids e',
      cosmos_add_documents docs e = (Returns ids, e')
      /\ length ids = length docs) ->
  (forall texts mds e, exists ids e',
      cosmos_add_texts texts mds e = (Returns ids, e')
      /\ length ids = length texts) ->
  0 < batch_size (batch_config vs) ->
  0 < max_concurrency (batch_config vs) ->
  ensure_index_exists vs w = (Ok tt, vs1, w1) ->
  exists ids w',
    batch_add_documents documents None vs w = (Ok ids, vs1, w')
    /\ length ids = length documents.
Proof.
  intros Hdocs Htexts Hbs Hmc Hens. unfold batch_add_documents. rewrite Hens.
  destruct (ensure_index_exists_config _ _ _ _ _ Hens) as [Hcfg _].
  rewrite Hcfg. unfold slices.
  destruct (Z.eqb_spec (batch_size (batch_config vs)) 0); [lia|].
  destruct (Z.ltb_spec (batch_size (batch_config vs)) 0); [lia|].
  destruct (Z.ltb_spec (max_concurrency (batch_config vs)) 0); [lia|].
  destruct (Z.eqb_spec (max_concurrency (batch_config vs)) 0); [lia|].
  set (step := Z.to_nat (batch_size (batch_config vs))).
  assert (Hstep : (0 < step)%nat) by (unfold step; lia).
  set (batches := slices_fuel (length documents) step documents).
  destruct (gather_all_return
              (zip_batches batches (replicate (length batches) None)) w1
              Hdocs Htexts) as (idss & w' & -> & Hl).
  { apply zip_fst_nonempty. now apply slices_fuel_nonempty. }
  exists (flatten idss), w'. split; [reflexivity|].
  unfold flatten. rewrite Hl. unfold zip_batches.
  rewrite fst_zip by now rewrite length_replicate.
  unfold batches. now rewrite slices_fuel_concat.
Qed.

Lemma batch_add_documents_after_ensure documents md vs (w : World W) :
  exists more,
    calls (snd (batch_add_documents documents md vs w))
    = (calls (snd (ensure_index_exists vs w)) ++ more)%list.
Proof.
  unfold batch_add_documents.
  destruct (ensure_index_exists vs w) as [[r vs1] w1]. simpl.
  destruct r as [u|e|]; try (exists []; now rewrite app_nil_r).
  destruct (slices _ documents) as [doc_batches|e|];
    try (exists []; now rewrite app_nil_r).
  destruct (max_concurrency (batch_config vs1) <? 0);
    [exists []; now rewrite app_nil_r|].
  destruct (max_concurrency (batch_config vs1) =? 0);
    [exists []; now rewrite app_nil_r|].
  match goal with
  | |- context [gather ?t w1] =>
      destruct (gather_calls t w1) as (more & Hc & _);
      destruct (gather t w1) as [r2 w2]
  end.
  exists more. destruct r2; exact Hc.
Qed.

(** X6 (index): a creation error that does not say "already exists" is
    raised again and not remembered.  The batch write then raises that
    error with nothing handed to the index but the creation call, the
    store keeps its flag unset, and the next batch write asks for the
    creation of the index again. *)
Theorem batch_add_documents_index_failure documents md vs e
    (w w' : World W) :
  _index_created vs = false ->
  call_create_index (config vs) w = (Raises e, w') ->
  Str.contains "already exists" (Str.lower (exn_str e)) = false ->
  batch_add_documents documents md vs w = (Raise e, vs, w')
  /\ calls w'
     = (calls w
        ++ [CallCreateIndex (num_lists (config vs)) (dimensions (config vs))
                            (m (config vs)) (ef_construction (config vs))])%list
  /\ forall documents' md',
       exists more,
         calls (snd (batch_add_documents documents' md' vs w'))
         = (calls w'
            ++ CallCreateIndex (num_lists (config vs))
                 (dimensions (config vs)) (m (config vs))
                 (ef_construction (config vs)) :: more)%list.
Proof.
  intros Hflag Hcall Hmsg.
  assert (Hens : ensure_index_exists vs w = (Raise e, vs, w')).
  { unfold ensure_index_exists. now rewrite Hflag, Hcall, Hmsg. }
  split; [|split].
  - unfold batch_add_documents. now rewrite Hens.
  - unfold call_create_index in Hcall.
    destruct (cosmos_create_index _ _ _ _ _) as [r x].
    injection Hcall as _ <-. reflexivity.
  - intros documents' md'.
    destruct (batch_add_documents_after_ensure documents' md' vs w')
      as (more & ->).
    exists more.
    assert (Hc : calls (snd (ensure_index_exists vs w'))
                 = (calls w'
                    ++ [CallCreateIndex (num_lists (config vs))
                          (dimensions (config vs)) (m (config vs))
                          (ef_construction (config vs))])%list).
    { unfold ensure_index_exists, call_create_index. rewrite Hflag.
      destruct (cosmos_create_index _ _ _ _ _) as [r x]. simpl.
      destruct r as [u|err]; [reflexivity|].
      destruct (Str.contains _ (Str.lower (exn_str err))); reflexivity. }
    rewrite Hc, <- app_assoc. reflexivity.
Qed.

(** ** More of the document processor *)

Lemma _clean_text_with_data_inputs (ds : list Data) (p : DocumentProcessor)
    (s : string) :
  _clean_text (with_data_inputs ds p) s = _clean_text p s.
Proof. reflexivity. Qed.

Lemma with_data_inputs_twice (ds1 ds2 : list Data) (p : DocumentProcessor) :
  with_data_inputs ds2 (with_data_inputs ds1 p) = with_data_inputs ds2 p.
Proof. reflexivity. Qed.

(** A dictionary with both keys, and the entry it becomes. *)
Definition complete_doc (tm : string * metadata) : InputDoc :=
  mkInputDoc (Some (fst tm)) (Some (snd tm)).

Definition cleaned (p : DocumentProcessor) (tm : string * metadata) : Data :=
  mkData (_clean_text p (fst tm)) (snd tm).

Lemma add_documents_complete (pairs : list (string * metadata))
    (rest : list InputDoc) (p : DocumentProcessor) :
  add_documents (map complete_doc pairs ++ rest) p
  = add_documents rest
      (with_data_inputs (data_inputs p ++ map (cleaned p) pairs) p).
Proof.
  revert p. induction pairs as [|[t md] pairs IH]; intros p.
  - simpl. rewrite app_nil_r. destruct p. reflexivity.
  - simpl. rewrite IH. simpl. rewrite <- app_assoc. reflexivity.
Qed.

(** X7 (add_documents): the documents are added one by one.  When every
    dictionary has both keys, each adds one entry, in order, with its
    text cleaned and its metadata as given.  When a dictionary lacks
    ['text'] or ['metadata'], the call raises [ValueError], and the
    entries of the dictionaries before it stay added: the call is not
    undone. *)
Theorem add_documents_keeps_prefix (pairs : list (string * metadata))
    (bad : InputDoc) (rest : list InputDoc) (p : DocumentProcessor) :
  add_documents (map complete_doc pairs) p
  = (Ok tt, with_data_inputs (data_inputs p ++ map (cleaned p) pairs) p)
  /\ (in_text bad = None \/ in_metadata bad = None ->
      add_documents (map complete_doc pairs ++ bad :: rest) p
      = (Raise (ValueError
                  "Documents must contain 'text' and 'metadata' keys"),
         with_data_inputs (data_inputs p ++ map (cleaned p) pairs) p)).
Proof.
  split.
  - rewrite <- (app_nil_r (map complete_doc pairs)).
    rewrite add_documents_complete. reflexivity.
  - intros Hbad. rewrite add_documents_complete. simpl.
    destruct (in_text bad), (in_metadata bad); try reflexivity.
    destruct Hbad; discriminate.
Qed.

(** X8 (add_texts of the processor): all or nothing.  With a metadata
    list of another length than the texts the call raises [ValueError]
    and the processor is unchanged; otherwise it returns and has added
    exactly one entry per text, the texts cleaned and paired in order
    with their metadata (empty metadata when none is given). *)
Theorem DocumentProcessor_add_texts_all_or_nothing (texts : list string)
    (md : option (list metadata)) (p : DocumentProcessor) :
  let mds := match md with
             | Some l => l
             | None => replicate (length texts) (∅ : metadata)
             end in
  (length mds <> length texts ->
   DocumentProcessor_add_texts texts md p
   = (Raise (ValueError "Number of texts and metadata entries must match"),
      p))
  /\ (length mds = length texts ->
      DocumentProcessor_add_texts texts md p
      = (Ok tt,
         with_data_inputs
           (data_inputs p ++ map (cleaned p) (zip texts mds)) p)
      /\ length (data_inputs
                   (snd (DocumentProcessor_add_texts texts md p)))
         = (length (data_inputs p) + length texts)%nat).
Proof.
  intros mds. unfold DocumentProcessor_add_texts.
  assert (Hmds : match md with
                 | Some l => l
                 | None => map (fun _ => (∅ : metadata)) texts
                 end = mds).
  { unfold mds. destruct md; [reflexivity|].
    clear. induction texts; simpl; congruence. }
  rewrite Hmds. split.
  - intros Hne. destruct (Nat.eqb_spec (length texts) (length mds));
      [congruence | reflexivity].
  - intros Heq. rewrite <- Heq, Nat.eqb_refl. simpl. split; [reflexivity|].
    rewrite length_app, length_map, length_zip. lia.
Qed.

(** X9 (split_text and get_status): the status follows the split.
    After a split that returned, the processor holds the chunks
    returned and the same inputs, and [get_status] reports their number
    and total length; after a split that raised, the processor is
    unchanged, so [get_status] still reports the chunks of the split
    before. *)
Theorem split_text_then_get_status (p : DocumentProcessor) :
  (forall chunks p',
      split_text p = (Ok chunks, p') ->
      status p' = chunks
      /\ data_inputs p' = data_inputs p
      /\ exists report,
           get_status p' = Ok report
           /\ input_documents report = Z.of_nat (length (data_inputs p))
           /\ output_chunks report = Z.of_nat (length chunks)
           /\ total_characters report = total_length chunks)
  /\ (forall e p',
         split_text p = (Raise e, p') ->
         p' = p /\ get_status p' = get_status p).
Proof.
  split.
  - intros chunks p' Hsplit.
    assert (Hp : p' = with_status chunks p).
    { unfold split_text in Hsplit.
      destruct (CharacterTextSplitter _ _ _ _); [|discriminate].
      destruct (split_documents _ _); [|discriminate].
      now injection Hsplit as <- <-. }
    subst p'. split; [reflexivity|]. split; [reflexivity|].
    unfold get_status. cbn [status data_inputs with_status].
    destruct chunks as [|c chunks].
    + eexists. repeat split; reflexivity.
    + unfold truediv.
      destruct (Z.eqb_spec (Z.of_nat (length (c :: chunks))) 0) as [E|_];
        [simpl in E; lia|].
      eexists. repeat split; reflexivity.
  - intros e p' Hsplit. unfold split_text in Hsplit.
    destruct (CharacterTextSplitter _ _ _ _).
    + destruct (split_documents _ _); [discriminate|].
      now injection Hsplit as _ <-.
    + now injection Hsplit as _ <-.
Qed.

Lemma contribution_metadata (p : DocumentProcessor) (sp : Splitter)
    (d c : Data) :
  In c (contribution p sp d) -> data c = data d.
Proof.
  unfold contribution, split_document. simpl.
  destruct (splitter_split_text sp (text d)) as [chunks|e]; [|intros []].
  induction chunks as [|s chunks IH]; simpl; [intros []|].
  destruct (long_enough p _); [|exact IH].
  simpl. intros [<-|Hin]; [reflexivity | now apply IH].
Qed.

Lemma split_text_sources (p p' : DocumentProcessor) (chunks : list Data) :
  split_text p = (Ok chunks, p') ->
  Forall (fun c => exists d, In d (data_inputs p) /\ data c = data d) chunks.
Proof.
  unfold split_text.
  destruct (CharacterTextSplitter _ _ _ _) as [sp|e]; [|discriminate].
  destruct (split_documents sp _) as [docs|e] eqn:Hdocs; [|discriminate].
  intros [= <- _].
  rewrite (split_documents_contributions p sp _ _ Hdocs).
  apply Forall_forall. intros c Hc. apply list_elem_of_In in Hc.
  apply in_flat_map in Hc as (d & Hd & Hcd).
  exists d. split; [exact Hd | exact (contribution_metadata _ _ _ _ Hcd)].
Qed.

Lemma split_text_returned (p p' : DocumentProcessor) (chunks : list Data) :
  split_text p = (Ok chunks, p') -> p' = with_status chunks p.
Proof.
  unfold split_text.
  destruct (CharacterTextSplitter _ _ _ _); [|discriminate].
  destruct (split_documents _ _); [|discriminate].
  now intros [= <- <-].
Qed.

(** X10 (split_text): every chunk inherits the metadata of its source.
    Each chunk a split returns carries the whole metadata dictionary of
    one of the input documents, unchanged. *)
Theorem split_text_chunks_inherit_metadata (p p' : DocumentProcessor)
    (chunks : list Data) :
  split_text p = (Ok chunks, p') ->
  Forall (fun c => exists d, In d (data_inputs p) /\ data c = data d) chunks.
Proof. apply split_text_sources. Qed.

(** ** The text cleanup *)

Lemma after_last_newline_shorter (s r : string) :
  after_last_newline s = Some r -> (String.length r < String.length s)%nat.
Proof.
  revert r. induction s as [|c rest IH]; intros r; simpl; [discriminate|].
  destruct (Str.isspace c); [|discriminate].
  destruct (after_last_newline rest) as [r'|].
  - intros [= <-]. specialize (IH r' eq_refl). lia.
  - destruct (Str.is_newline c); [|discriminate]. intros [= <-]. lia.
Qed.

Lemma sub_blank_lines_length (fuel : nat) (s : string) :
  (String.length (sub_blank_lines fuel s) <= String.length s)%nat.
Proof.
  revert s. induction fuel as [|fuel IH]; intros s; simpl; [lia|].
  destruct s as [|c rest]; simpl; [lia|].
  destruct (Str.is_newline c).
  - destruct (after_last_newline rest) as [r|] eqn:E; simpl.
    + pose proof (after_last_newline_shorter _ _ E). specialize (IH r). lia.
    + specialize (IH rest). lia.
  - simpl. specialize (IH rest). lia.
Qed.

Lemma sub_spaces_length (s : string) :
  (String.length (sub_spaces s) <= String.length s)%nat.
Proof.
  induction s as [|c rest IH]; simpl; [lia|].
  destruct (Str.is_blank c).
  - destruct rest as [|c' rest']; [simpl; lia|].
    destruct (Str.is_blank c'); simpl in *; lia.
  - simpl. lia.
Qed.

Lemma skip_blanks_length (s : string) :
  (String.length (skip_blanks s) <= String.length s)%nat.
Proof.
  induction s as [|c rest IH]; simpl; [lia|].
  destruct (Str.is_blank c); simpl; lia.
Qed.

Lemma sub_around_newlines_length (fuel : nat) (s : string) :
  (String.length (sub_around_newlines fuel s) <= String.length s)%nat.
Proof.
  revert s. induction fuel as [|fuel IH]; intros s; simpl; [lia|].
  pose proof (skip_blanks_length s) as Hs.
  destruct (skip_blanks s) as [|c rest] eqn:E.
  - destruct s as [|c0 rest0]; simpl; [lia|]. specialize (IH rest0). lia.
  - destruct (Str.is_newline c).
    + simpl in *. pose proof (skip_blanks_length rest).
      specialize (IH (skip_blanks rest)). lia.
    + destruct s as [|c0 rest0]; simpl; [lia|]. specialize (IH rest0). lia.
Qed.

Lemma lstrip_length (s : string) :
  (String.length (lstrip s) <= String.length s)%nat.
Proof.
  induction s as [|c rest IH]; simpl; [lia|].
  destruct (Str.isspace c); simpl; lia.
Qed.

Lemma rev_app_length (s1 s2 : string) :
  String.length (String.rev_app s1 s2)
  = (String.length s1 + String.length s2)%nat.
Proof.
  revert s2. induction s1 as [|c s1 IH]; intros s2; simpl; [reflexivity|].
  rewrite IH. simpl. lia.
Qed.

Lemma rev_length (s : string) :
  String.length (String.rev s) = String.length s.
Proof. unfold String.rev. rewrite rev_app_length. simpl. lia. Qed.

Lemma strip_length (s : string) :
  (String.length (strip s) <= String.length s)%nat.
Proof.
  unfold strip. rewrite rev_length.
  pose proof (lstrip_length (String.rev (lstrip s))) as H1.
  rewrite rev_length in H1.
  pose proof (lstrip_length s). lia.
Qed.

(** X11 (_clean_text): cleaning never makes a text longer, whatever the
    configuration of the processor. *)
Theorem _clean_text_no_longer (p : DocumentProcessor) (s : string) :
  Str.len (_clean_text p s) <= Str.len s.
Proof.
  unfold Str.len. apply Nat2Z.inj_le. unfold _clean_text.
  destruct (cleanup_text p); simpl; [|lia].
  set (s1 := sub_blank_lines (String.length s) s).
  set (s2 := sub_spaces s1).
  set (s3 := sub_around_newlines (String.length s2) s2).
  assert (H3 : (String.length s3 <= String.length s)%nat).
  { pose proof (sub_blank_lines_length (String.length s) s).
    pose proof (sub_spaces_length s1).
    pose proof (sub_around_newlines_length (String.length s2) s2).
    unfold s3, s2, s1 in *. lia. }
  destruct (strip_whitespace p); [|exact H3].
  pose proof (strip_length s3). lia.
Qed.

(** Whether a text begins with a character of a class, and whether two
    neighbours somewhere in it are related. *)
Definition starts (P : ascii -> bool) (s : string) : bool :=
  match s with
  | String c _ => P c
  | EmptyString => false
  end.





Lemma string_app_cons (c : ascii) (a b : string) :
  String c a +:+ b = String c (a +:+ b).
Proof. reflexivity. Qed.

Lemma string_app_nil_r (s : string) : s +:+ "" = s.
Proof.
  induction s as [|c s IH]; [reflexivity|].
  now rewrite string_app_cons, IH.
Qed.

Lemma string_app_assoc (a b c : string) : (a +:+ b) +:+ c = a +:+ (b +:+ c).
Proof.
  induction a as [|x a IH]; [reflexivity|].
  now rewrite !string_app_cons, IH.
Qed.

Lemma rev_app_append (s1 s2 : string) :
  String.rev_app s1 s2 = String.rev s1 +:+ s2.
Proof.
  unfold String.rev. revert s2.
  induction s1 as [|c s1 IH]; intros s2; [reflexivity|].
  cbn [String.rev_app].
  rewrite (IH (String c s2)), (IH (String c "")), string_app_assoc.
  reflexivity.
Qed.

Lemma rev_cons (c : ascii) (s : string) :
  String.rev (String c s) = String.rev s +:+ String c "".
Proof.
  unfold String.rev at 1. cbn [String.rev_app]. apply rev_app_append.
Qed.

Lemma rev_append (a b : string) :
  String.rev (a +:+ b) = String.rev b +:+ String.rev a.
Proof.
  induction a as [|c a IH].
  - change ("" +:+ b) with b. change (String.rev "") with "".
    now rewrite string_app_nil_r.
  - rewrite string_app_cons, !rev_cons, IH. apply string_app_assoc.
Qed.

Lemma rev_involutive (s : string) : String.rev (String.rev s) = s.
Proof.
  induction s as [|c s IH]; [reflexivity|].
  rewrite rev_cons, rev_append, IH. reflexivity.
Qed.

(** [lstrip] cuts a prefix off. *)
Lemma lstrip_suffix (s : string) : exists pre, s = pre +:+ lstrip s.
Proof.
  induction s as [|c s [pre IH]]; [now exists ""|].
  cbn [lstrip]. destruct (Str.isspace c).
  - exists (String c pre). rewrite string_app_cons. now rewrite <- IH.
  - now exists "".
Qed.

Lemma lstrip_starts (s : string) : starts Str.isspace (lstrip s) = false.
Proof.
  induction s as [|c s IH]; [reflexivity|].
  cbn [lstrip]. destruct (Str.isspace c) eqn:E; [exact IH|]. exact E.
Qed.

Lemma starts_append (P : ascii -> bool) (a b : string) :
  starts P a = true -> starts P (a +:+ b) = true.
Proof. destruct a; [discriminate | intros H; exact H]. Qed.

(** X12 (_clean_text): with cleanup and stripping on, as the pipeline
    configures them, a cleaned text neither begins nor ends with a
    whitespace character. *)
Theorem _clean_text_stripped (p : DocumentProcessor) (s : string) :
  cleanup_text p = true ->
  strip_whitespace p = true ->
  starts Str.isspace (_clean_text p s) = false
  /\ starts Str.isspace (String.rev (_clean_text p s)) = false.
Proof.
  intros Hc Hs. unfold _clean_text. rewrite Hc, Hs. simpl.
  set (t := sub_around_newlines _ _). unfold strip. split.
  - destruct (starts Str.isspace
                (String.rev (lstrip (String.rev (lstrip t))))) eqn:E;
      [|reflexivity].
    destruct (lstrip_suffix (String.rev (lstrip t))) as [pre Hpre].
    pose proof (f_equal String.rev Hpre) as Hrev.
    rewrite rev_involutive, rev_append in Hrev.
    pose proof (starts_append _ _ (String.rev pre) E) as Hst.
    rewrite <- Hrev, lstrip_starts in Hst. discriminate.
  - rewrite rev_involutive. apply lstrip_starts.
Qed.

























(** ** More of the conversion *)

(** Every file of [fs] is a file of [fs']. *)
Definition files_persist (fs fs' : FS) : Prop :=
  forall d n, is_Some (read_file d n fs) -> is_Some (read_file d n fs').

Lemma files_persist_refl (fs : FS) : files_persist fs fs.
Proof. intros d n H. exact H. Qed.

Lemma files_persist_trans (fs1 fs2 fs3 : FS) :
  files_persist fs1 fs2 -> files_persist fs2 fs3 -> files_persist fs1 fs3.
Proof. intros H1 H2 d n H. apply H2, H1, H. Qed.

Lemma read_file_mkdir (d d' n : string) (fs : FS) :
  read_file d n (mkdir d' fs) = read_file d n fs.
Proof.
  unfold read_file, mkdir. destruct (fs !! d') eqn:E; [reflexivity|].
  destruct (decide (d' = d)) as [->|Hne].
  - rewrite lookup_insert_eq, E. apply lookup_empty.
  - now rewrite lookup_insert_ne.
Qed.

Lemma files_persist_mkdir (d : string) (fs : FS) :
  files_persist fs (mkdir d fs).
Proof. intros d' n H. now rewrite read_file_mkdir. Qed.

Lemma read_file_write_text (d name content : string) (fs fs' : FS)
    (d' n : string) :
  write_text d name content fs = Some fs' ->
  read_file d' n fs'
  = if decide (d' = d /\ n = name) then Some content else read_file d' n fs.
Proof.
  unfold write_text, read_file.
  destruct (fs !! d) as [files|] eqn:E; [|discriminate]. intros [= <-].
  destruct (decide (d' = d)) as [->|Hne].
  - rewrite lookup_insert_eq, E.
    destruct (decide (n = name)) as [->|Hn].
    + rewrite lookup_insert_eq. now rewrite decide_True.
    + rewrite lookup_insert_ne by congruence.
      now rewrite decide_False by ptauto.
  - rewrite lookup_insert_ne by congruence.
    now rewrite decide_False by ptauto.
Qed.

Lemma files_persist_write_text (d name content : string) (fs fs' : FS) :
  write_text d name content fs = Some fs' -> files_persist fs fs'.
Proof.
  intros Hw d' n H. rewrite (read_file_write_text _ _ _ _ _ _ _ Hw).
  destruct (decide _); [eauto | exact H].
Qed.

(** A conversion deletes nothing, and when it succeeds its markdown is
    on disk under the stem of the PDF. *)
Lemma convert_single_pdf_output c pdf_path tenant_id fs (w : World W) :
  files_persist fs (snd (fst (convert_single_pdf c pdf_path tenant_id fs w)))
  /\ (snd (fst (fst (convert_single_pdf c pdf_path tenant_id fs w))) = true ->
      is_Some (read_file (tenant_output_dir c tenant_id)
                         (stem (path_name pdf_path) +:+ ".md")
                         (snd (fst (convert_single_pdf c pdf_path tenant_id
                                                       fs w))))).
Proof.
  unfold convert_single_pdf, setup_tenant_directories, call_convert.
  set (fs1 := mkdir _ (mkdir _ fs)).
  assert (H1 : files_persist fs fs1).
  { unfold fs1. eapply files_persist_trans; apply files_persist_mkdir. }
  destruct (marker_convert _ _ _) as [r e]. simpl.
  destruct r as [rendered|err]; simpl.
  - destruct (write_text _ _ _ fs1) as [fs2|] eqn:Hw; simpl.
    + split.
      * eapply files_persist_trans; [exact H1|].
        eapply files_persist_write_text, Hw.
      * intros _. rewrite (read_file_write_text _ _ _ _ _ _ _ Hw).
        rewrite decide_True by ptauto. eauto.
    + split; [exact H1 | discriminate].
  - split; [exact H1 | discriminate].
Qed.

Lemma convert_loop_outputs c tenant_id pdf_files results fs (w : World W) :
  (forall n, In n (successful results) ->
             is_Some (read_file (tenant_output_dir c tenant_id)
                                (stem n +:+ ".md") fs)) ->
  forall n,
    In n (successful
            (fst (fst (convert_loop c tenant_id pdf_files results fs w)))) ->
    is_Some (read_file (tenant_output_dir c tenant_id) (stem n +:+ ".md")
               (snd (fst (convert_loop c tenant_id pdf_files results fs w)))).
Proof.
  revert results fs w.
  induction pdf_files as [|f rest IH]; intros results fs w Hres;
    [exact Hres|].
  cbn [convert_loop].
  destruct (convert_single_pdf_output c f tenant_id fs w) as [Hp Hout].
  destruct (convert_single_pdf_spec c f tenant_id fs w)
    as (ok & fs1 & w1 & E & _).
  rewrite E in *. simpl in Hp, Hout.
  apply IH. destruct ok; simpl.
  - intros n [Hn|[<-|[]]]%in_app_iff; [apply Hp, Hres, Hn | now apply Hout].
  - intros n Hn. apply Hp, Hres, Hn.
Qed.

(** What [load_documents] returns for each name. *)
Lemma load_documents_spec output_dir (base : metadata) filenames (fs : FS) :
  (forall n, In n filenames ->
             is_Some (read_file output_dir (stem n +:+ ".md") fs)) ->
  exists docs,
    load_documents output_dir base filenames fs = Ok docs
    /\ Forall2
         (fun n doc =>
            in_text doc = read_file output_dir (stem n +:+ ".md") fs
            /\ exists md : metadata,
                 in_metadata doc = Some md
                 /\ md !! "source" = Some n
                 /\ md !! "type" = Some "pdf"
                 /\ md !! "original_path"
                    = Some (path_join output_dir (stem n +:+ ".md"))
                 /\ forall k, k <> "source" -> k <> "type" ->
                              k <> "original_path" ->
                              md !! k = base !! k)
         filenames docs.
Proof.
  induction filenames as [|n rest IH]; intros Hall.
  - exists []. split; [reflexivity | constructor].
  - destruct IH as (docs & Hdocs & Hf2).
    { intros n' Hn'. apply Hall. now right. }
    destruct (Hall n (or_introl eq_refl)) as [content Hread].
    cbn [load_documents]. rewrite Hread, Hdocs.
    eexists. split; [reflexivity|].
    constructor; [|exact Hf2]. simpl. split; [now rewrite Hread|].
    eexists. split; [reflexivity|].
    repeat split.
    + rewrite lookup_insert_ne by discriminate.
      rewrite lookup_insert_ne by discriminate.
      apply lookup_insert_eq.
    + rewrite lookup_insert_ne by discriminate. apply lookup_insert_eq.
    + apply lookup_insert_eq.
    + intros k H1 H2 H3. now rewrite !lookup_insert_ne by congruence.
Qed.

(** X14 (conversion and loading): what conversion reports as successful
    can be read back.  After [batch_convert_pdfs] returns, the markdown
    of every successful file is on disk, so the second step of
    [process_pdfs] raises no [FileNotFoundError]: it loads one document
    per successful file, whose metadata has the file name as [source],
    ["pdf"] as [type] and the path of the markdown as [original_path],
    whatever the additional metadata says, and every other key as in the
    base metadata. *)
Theorem converted_files_load c tenant_id temp_dir fs (w : World W)
    results fs' w' (base : metadata) :
  batch_convert_pdfs c tenant_id temp_dir fs w = (Ok results, fs', w') ->
  exists docs,
    load_documents (tenant_output_dir c tenant_id) base
                   (successful results) fs' = Ok docs
    /\ Forall2
         (fun n doc =>
            is_Some (in_text doc)
            /\ in_text doc
               = read_file (tenant_output_dir c tenant_id)
                           (stem n +:+ ".md") fs'
            /\ exists md : metadata,
                 in_metadata doc = Some md
                 /\ md !! "source" = Some n
                 /\ md !! "type" = Some "pdf"
                 /\ md !! "original_path"
                    = Some (path_join (tenant_output_dir c tenant_id)
                                      (stem n +:+ ".md"))
                 /\ forall k, k <> "source" -> k <> "type" ->
                              k <> "original_path" ->
                              md !! k = base !! k)
         (successful results) docs.
Proof.
  intros Hrun.
  assert (Hout : forall n, In n (successful results) ->
             is_Some (read_file (tenant_output_dir c tenant_id)
                                (stem n +:+ ".md") fs')).
  { unfold batch_convert_pdfs in Hrun.
    destruct (stage_uploads c tenant_id temp_dir fs) as [[u|e|] fs1];
      try discriminate.
    destruct (get_pdf_files c tenant_id fs1) as [[|f rest] fs2].
    - injection Hrun as <- _ _. intros n [].
    - pose proof (convert_loop_outputs c tenant_id (f :: rest)
                    (mkConversionResults [] []
                       (Z.of_nat (length (f :: rest)))) fs2 w) as Hloop.
      destruct (convert_loop _ _ _ _ _ _) as [[res fs3] w3].
      injection Hrun as <- <- _. apply Hloop. intros n []. }
  destruct (load_documents_spec (tenant_output_dir c tenant_id) base
              (successful results) fs' Hout) as (docs & Hload & Hf2).
  exists docs. split; [exact Hload|].
  clear Hload. induction Hf2 as [|n doc names docs' [Ht Hmd] Hrest IH];
    constructor.
  - split; [|split; [exact Ht | exact Hmd]].
    rewrite Ht. apply Hout. now left.
  - apply IH. intros n' Hn'. apply Hout. now right.
Qed.

(** ** The staging of uploads *)

Lemma read_file_unlink_same (d name : string) (fs : FS) :
  read_file d name (unlink d name fs) = None.
Proof.
  unfold read_file, unlink. destruct (fs !! d) eqn:E.
  - rewrite lookup_insert_eq. apply lookup_delete_eq.
  - now rewrite E.
Qed.

Lemma read_file_unlink (d name : string) (fs : FS) (d' n : string) :
  read_file d' n (unlink d name fs)
  = if decide (d' = d /\ n = name) then None else read_file d' n fs.
Proof.
  destruct (decide (d' = d /\ n = name)) as [[-> ->]|Hne].
  - apply read_file_unlink_same.
  - destruct (decide (d' = d)) as [->|Hd].
    + apply read_file_unlink_other_name. ptauto.
    + now apply read_file_unlink_other_dir.
Qed.

(** The names [glob] yields are the names of the files that end in
    [.pdf]. *)
Lemma glob_pdf_names (d : string) (fs : FS) (n : string) :
  In n (map path_name (glob_pdf d fs))
  <-> Str.endswith ".pdf" n = true /\ is_Some (read_file d n fs).
Proof.
  unfold glob_pdf, read_file. destruct (fs !! d) as [files|].
  - rewrite map_map. simpl. rewrite map_id, filter_In. split.
    + intros [Hin He]. split; [exact He|].
      apply in_map_iff in Hin as ([n' v] & <- & Hnv). simpl.
      apply list_elem_of_In, elem_of_map_to_list in Hnv. eauto.
    + intros [He [v Hv]]. split; [|exact He].
      apply in_map_iff. exists (n, v). split; [reflexivity|].
      now apply list_elem_of_In, elem_of_map_to_list.
  - simpl. split; [intros [] | intros [_ [v Hv]]; discriminate].
Qed.

#[local] Instance In_name_dec (n : string) (l : list string) :
  Decision (In n l) := in_dec string_dec n l.





(** ** The cleanup of converted files *)

(** [list(d.glob("*.md"))] *)
Definition glob_md (d : string) (fs : FS) : list Path :=
  match fs !! d with
  | Some files =>
      map (mkPath d)
          (List.filter (Str.endswith ".md") (map fst (map_to_list files)))
  | None => []
  end.

(** The loop of [cleanup_tenant_files]: [md_file.unlink()] raises when the
    file is missing. *)
Fixpoint cleanup_loop (pdf_files : gset string) (md_files : list Path)
    (fs : FS) : outcome unit * FS :=
  match md_files with
  | [] => (Ok tt, fs)
  | md_file :: rest =>
      if bool_decide (stem (path_name md_file) ∈ pdf_files)
      then cleanup_loop pdf_files rest fs
      else if file_exists (path_parent md_file) (path_name md_file) fs
           then cleanup_loop pdf_files rest
                  (unlink (path_parent md_file) (path_name md_file) fs)
           else (Raise (FileNotFoundError (path_str md_file)), fs)
  end.

(** [BatchPdfConverter.cleanup_tenant_files] *)
Definition cleanup_tenant_files (c : BatchPdfConverter) (tenant_id : string)
    (fs : FS) : outcome unit * FS :=
  let '((input_dir, output_dir), fs1) := setup_tenant_directories c tenant_id fs in
  let pdf_files : gset string :=
    list_to_set (map (fun f => stem (path_name f)) (glob_pdf input_dir fs1)) in
  cleanup_loop pdf_files (glob_md output_dir fs1) fs1.

(** A PDF of the directory [d] has the stem [s]. *)
Definition has_pdf (d s : string) (fs : FS) : Prop :=
  exists name,
    Str.endswith ".pdf" name = true
    /\ is_Some (read_file d name fs)
    /\ stem name = s.

Lemma glob_md_files (d : string) (fs : FS) :
  List.NoDup (map path_name (glob_md d fs))
  /\ (forall f, In f (glob_md d fs) ->
                path_parent f = d
                /\ Str.endswith ".md" (path_name f) = true
                /\ is_Some (read_file d (path_name f) fs)).
Proof.
  unfold glob_md, read_file. destruct (fs !! d) as [files|] eqn:E.
  - split.
    + rewrite map_map. simpl. rewrite map_id.
      apply List.NoDup_filter, NoDup_ListNoDup, NoDup_fst_map_to_list.
    + intros f Hin. apply in_map_iff in Hin as (n & <- & Hn). simpl.
      split; [reflexivity|].
      apply filter_In in Hn as [Hn He]. split; [exact He|].
      apply in_map_iff in Hn as ([n' v] & <- & Hnv). simpl.
      apply list_elem_of_In, elem_of_map_to_list in Hnv.
      rewrite Hnv. eauto.
  - split; [constructor | intros f []].
Qed.

Lemma glob_md_names (d : string) (fs : FS) (n : string) :
  In n (map path_name (glob_md d fs))
  <-> Str.endswith ".md" n = true /\ is_Some (read_file d n fs).
Proof.
  unfold glob_md, read_file. destruct (fs !! d) as [files|].
  - rewrite map_map. simpl. rewrite map_id, filter_In. split.
    + intros [Hin He]. split; [exact He|].
      apply in_map_iff in Hin as ([n' v] & <- & Hnv). simpl.
      apply list_elem_of_In, elem_of_map_to_list in Hnv. eauto.
    + intros [He [v Hv]]. split; [|exact He].
      apply in_map_iff. exists (n, v). split; [reflexivity|].
      now apply list_elem_of_In, elem_of_map_to_list.
  - simpl. split; [intros [] | intros [_ [v Hv]]; discriminate].
Qed.

Lemma pdf_stems_spec (d s : string) (fs : FS) :
  s ∈ (list_to_set (map (fun f => stem (path_name f)) (glob_pdf d fs))
       : gset string)
  <-> has_pdf d s fs.
Proof.
  rewrite elem_of_list_to_set, list_elem_of_In, in_map_iff. unfold has_pdf.
  split.
  - intros (f & Hs & Hf).
    destruct (proj1 (glob_pdf_names d fs (path_name f))) as [He Hr];
      [now apply in_map|].
    exists (path_name f). now repeat split.
  - intros (name & He & Hr & Hs).
    pose proof (proj2 (glob_pdf_names d fs name) (conj He Hr)) as Hin.
    apply in_map_iff in Hin as (f & Hn & Hf).
    exists f. split; [now rewrite Hn | exact Hf].
Qed.

(** What the loop leaves on disk, file by file, and that no [unlink] of
    it finds its file missing. *)
Lemma cleanup_loop_reads (pdf_files : gset string) (out : string)
    (md_files : list Path) (fs : FS) :
  List.NoDup (map path_name md_files) ->
  (forall f, In f md_files ->
             path_parent f = out
             /\ is_Some (read_file out (path_name f) fs)) ->
  exists fs',
    cleanup_loop pdf_files md_files fs = (Ok tt, fs')
    /\ forall d n,
         read_file d n fs'
         = if decide (d = out /\ In n (map path_name md_files)
                      /\ stem n ∉ pdf_files)
           then None else read_file d n fs.
Proof.
  revert fs. induction md_files as [|f rest IH]; intros fs Hnd Hfiles.
  - exists fs. split; [reflexivity|]. intros d n.
    rewrite decide_False; [reflexivity | simpl; ptauto].
  - simpl in Hnd. apply List.NoDup_cons_iff in Hnd as [Hnotin Hnd'].
    destruct (Hfiles f (or_introl eq_refl)) as [Hparent [content Hread]].
    cbn [cleanup_loop]. rewrite Hparent.
    destruct (bool_decide_reflect (stem (path_name f) ∈ pdf_files))
      as [Hkeep|Hdrop].
    + destruct (IH fs Hnd') as (fs' & -> & Hreads).
      { intros f' Hin'. apply Hfiles. now right. }
      exists fs'. split; [reflexivity|]. intros d n. rewrite Hreads.
      repeat case_decide; simpl in *; try reflexivity; exfalso.
      * pcongruence.
      * destruct (decide (n = path_name f)) as [->|]; [ptauto|].
        pcongruence.
    + unfold file_exists. rewrite Hread.
      destruct (IH (unlink out (path_name f) fs) Hnd')
        as (fs' & -> & Hreads).
      { intros f' Hin'. destruct (Hfiles f' (or_intror Hin')) as [Hp Hr].
        split; [exact Hp|]. rewrite read_file_unlink_other_name; [exact Hr|].
        intros Heq. apply Hnotin. rewrite <- Heq. now apply in_map. }
      exists fs'. split; [reflexivity|]. intros d n.
      rewrite Hreads, read_file_unlink.
      repeat case_decide; simpl in *; try reflexivity; exfalso.
      * pcongruence.
      * match goal with H : _ /\ n = _ |- _ => destruct H as [-> ->] end.
        ptauto.
      * match goal with
        | H : ¬ (_ /\ n = _) |- _ =>
            apply H; split; [ptauto|]
        end.
        destruct (decide (n = path_name f)) as [|Hn]; [assumption|].
        exfalso. pcongruence.
Qed.

Lemma rfind_append (c : ascii) (a b : string) :
  rfind c (a +:+ b)
  = match rfind c b with
    | Some i => Some (String.length a + i)%nat
    | None => rfind c a
    end.
Proof.
  induction a as [|x a IH].
  { change ("" +:+ b) with b. simpl. now destruct (rfind c b). }
  rewrite string_app_cons. cbn [rfind]. rewrite IH.
  destruct (rfind c b); reflexivity.
Qed.

Lemma substring_append (a b : string) :
  String.substring 0 (String.length a) (a +:+ b) = a.
Proof.
  induction a as [|x a IH]; [change ("" +:+ b) with b; now destruct b|].
  rewrite string_app_cons. simpl. now rewrite IH.
Qed.

Lemma length_append (a b : string) :
  String.length (a +:+ b) = (String.length a + String.length b)%nat.
Proof.
  induction a as [|x a IH]; [reflexivity|].
  rewrite string_app_cons. simpl. now rewrite IH.
Qed.

(** The name of a converted file gives back the stem it was made from. *)
Lemma stem_md (s : string) : s <> "" -> stem (s +:+ ".md") = s.
Proof.
  intros Hs.
  assert (Hr : rfind "." (s +:+ ".md") = Some (String.length s)).
  { rewrite rfind_append. change (rfind "." ".md") with (Some 0%nat).
    cbv beta iota. f_equal. lia. }
  unfold stem. rewrite Hr, length_append.
  assert (0 < String.length s)%nat by (destruct s; [congruence | simpl; lia]).
  change (String.length ".md") with 3%nat.
  destruct (Nat.ltb_spec 0 (String.length s)); [|lia].
  destruct (Nat.ltb_spec (String.length s) (String.length s + 3 - 1));
    [|lia].
  simpl. apply substring_append.
Qed.

Lemma substring_nonempty (i : nat) (s : string) :
  (0 < i)%nat -> (i < String.length s)%nat -> String.substring 0 i s <> "".
Proof. destruct s, i; simpl; intros; try lia; discriminate. Qed.

Lemma rfind_bound (c : ascii) (s : string) (i : nat) :
  rfind c s = Some i -> (i < String.length s)%nat.
Proof.
  revert i. induction s as [|x s IH]; intros i; simpl; [discriminate|].
  destruct (rfind c s) as [j|].
  - intros [= <-]. specialize (IH j eq_refl). lia.
  - destruct (Ascii.eqb x c); [intros [= <-]; lia | discriminate].
Qed.

Lemma stem_nonempty (name : string) : name <> "" -> stem name <> "".
Proof.
  intros Hn. unfold stem. destruct (rfind "." name) as [i|] eqn:E; [|exact Hn].
  destruct (Nat.ltb_spec 0 i); [|exact Hn]. simpl.
  destruct (Nat.ltb_spec i (String.length name - 1)); [|exact Hn].
  apply substring_nonempty; [assumption|].
  apply rfind_bound in E. exact E.
Qed.

(** X16 (cleanup): [cleanup_tenant_files] returns, and removes exactly
    the converted files whose PDF is gone.  A file of the output
    directory whose name ends in [.md] is removed when no PDF of the
    input directory has its stem, and every other file, there and
    elsewhere, is as before; in particular the converted text of every
    PDF still present is kept. *)
Theorem cleanup_tenant_files_removes_orphans (c : BatchPdfConverter)
    (tenant_id : string) (fs : FS) :
  let input_dir := tenant_input_dir c tenant_id in
  let output_dir := tenant_output_dir c tenant_id in
  exists fs',
    cleanup_tenant_files c tenant_id fs = (Ok tt, fs')
    /\ (forall n,
           Str.endswith ".md" n = true ->
           ~ has_pdf input_dir (stem n) fs ->
           read_file output_dir n fs' = None)
    /\ (forall n,
           Str.endswith ".md" n = false \/ has_pdf input_dir (stem n) fs ->
           read_file output_dir n fs' = read_file output_dir n fs)
    /\ (forall d n, d <> output_dir ->
                    read_file d n fs' = read_file d n fs)
    /\ (forall name,
           Str.endswith ".pdf" name = true ->
           is_Some (read_file input_dir name fs) ->
           read_file output_dir (stem name +:+ ".md") fs'
           = read_file output_dir (stem name +:+ ".md") fs).
Proof.
  intros input_dir output_dir.
  unfold cleanup_tenant_files, setup_tenant_directories.
  fold input_dir output_dir.
  set (fs1 := mkdir output_dir (mkdir input_dir fs)).
  assert (Hfs1 : forall d n, read_file d n fs1 = read_file d n fs).
  { intros d n. unfold fs1. now rewrite !read_file_mkdir. }
  assert (Hpdf : forall s, has_pdf input_dir s fs1 <-> has_pdf input_dir s fs).
  { intros s. unfold has_pdf. now setoid_rewrite Hfs1. }
  set (pdf_files := list_to_set _ : gset string).
  destruct (glob_md_files output_dir fs1) as [Hnd Hfiles].
  destruct (cleanup_loop_reads pdf_files output_dir (glob_md output_dir fs1)
              fs1 Hnd) as (fs' & Hloop & Hreads).
  { intros f Hin. destruct (Hfiles f Hin) as (Hp & _ & Hr). now split. }
  assert (Hkeep : forall n,
             Str.endswith ".md" n = false \/ has_pdf input_dir (stem n) fs ->
             read_file output_dir n fs' = read_file output_dir n fs).
  { intros n Hn. rewrite Hreads, Hfs1.
    destruct (decide _) as [(_ & Hin & Hstem)|]; [|reflexivity].
    exfalso. apply glob_md_names in Hin as [He _].
    destruct Hn as [Hn|Hn]; [congruence|].
    apply Hstem, pdf_stems_spec, Hpdf, Hn. }
  exists fs'. split; [exact Hloop|]. split; [|split; [exact Hkeep|split]].
  - intros n He Hno. rewrite Hreads, Hfs1.
    destruct (decide _) as [|Hnot]; [reflexivity|].
    destruct (read_file output_dir n fs) as [v|] eqn:Er; [|reflexivity].
    exfalso. apply Hnot. split; [reflexivity|]. split.
    + apply glob_md_names. rewrite Hfs1, Er. eauto.
    + intros Hin. apply Hno, Hpdf, pdf_stems_spec, Hin.
  - intros d n Hd. rewrite Hreads, Hfs1.
    destruct (decide _) as [(Heq & _)|]; [congruence | reflexivity].
  - intros name He Hr. apply Hkeep. right.
    rewrite stem_md.
    + exists name. now repeat split.
    + apply stem_nonempty. intros ->. discriminate.
Qed.

(** ** The tenant of what is written *)

(** The element carries the tenant [t]. *)
Definition tenant_is (t : string) (i : item) : Prop :=
  item_metadata i !! "tenant_id" = Some t.

(** [later] is [earlier] followed by calls that write nothing but
    elements with the property [P]. *)
Definition writes_only (P : item -> Prop) (earlier later : list call)
  : Prop :=
  exists new,
    later = (earlier ++ new)%list /\ Forall P (flat_map written new).

Lemma writes_only_refl (P : item -> Prop) (l : list call) :
  writes_only P l l.
Proof. exists []. rewrite app_nil_r. split; [reflexivity | constructor]. Qed.

Lemma writes_only_trans (P : item -> Prop) (l1 l2 l3 : list call) :
  writes_only P l1 l2 -> writes_only P l2 l3 -> writes_only P l1 l3.
Proof.
  intros (n1 & -> & H1) (n2 & -> & H2). exists (n1 ++ n2)%list.
  rewrite app_assoc. split; [reflexivity|].
  rewrite flat_map_app. apply Forall_app. now split.
Qed.

Lemma writes_only_silent (P : item -> Prop) (l new : list call) :
  flat_map written new = [] -> writes_only P l (l ++ new).
Proof. intros H. exists new. rewrite H. split; [reflexivity|constructor]. Qed.

Lemma batch_add_documents_writes_only (P : item -> Prop) documents md vs
    (w : World W) :
  Forall P documents ->
  writes_only P (calls w)
              (calls (snd (batch_add_documents documents md vs w))).
Proof.
  intros Hall.
  destruct (batch_add_documents_calls documents md vs w) as (new & -> & Hin).
  exists new. split; [reflexivity|].
  apply Forall_forall. intros i Hi. apply list_elem_of_In in Hi.
  rewrite Forall_forall in Hall. apply Hall, list_elem_of_In, Hin, Hi.
Qed.

Lemma retrying_writes_only {A} (P : item -> Prop) (wait : Z -> Z)
    (body : State -> outcome A * State) :
  (forall st,
      writes_only P (calls (world st)) (calls (world (snd (body st))))) ->
  forall attempts attempt_number st,
    writes_only P
      (calls (world st))
      (calls (world (snd (retrying attempts attempt_number wait body st)))).
Proof.
  intros Hbody attempts.
  induction attempts as [|n IH]; intros k st; simpl;
    specialize (Hbody st); destruct (body st) as [[a|e|] st1];
    simpl in Hbody; try exact Hbody.
  destruct n as [|n']; [exact Hbody|].
  eapply writes_only_trans; [exact Hbody|].
  eapply writes_only_trans; [|apply IH].
  unfold sleep. simpl. now apply writes_only_silent.
Qed.

Lemma add_texts_metadata_tenant (texts : list string) (tenant_id : string)
    (md : option (list metadata)) :
  Forall (fun m0 : metadata => m0 !! "tenant_id" = Some tenant_id)
         (add_texts_metadata texts tenant_id md).
Proof.
  unfold add_texts_metadata. destruct md as [l|]; apply Forall_forall;
    intros m0 Hm; apply list_elem_of_In, in_map_iff in Hm as (x & <- & _).
  - apply lookup_insert_eq.
  - apply lookup_singleton_eq.
Qed.

Lemma in_zip_snd {A B} (a : list A) (b : list B) (x : A * B) :
  In x (zip a b) -> In (snd x) b.
Proof.
  revert b. induction a as [|y a IH]; intros [|z b]; simpl; try ptauto.
  intros [<-|H]; [now left | right; now apply IH].
Qed.

(** X17 (add_texts of the pipeline): the tenant given is the tenant
    written.  Every element [add_texts] hands to the index has
    [tenant_id] equal to the tenant of the call, whatever [tenant_id]
    the caller's metadata held and whatever the processor held from
    earlier calls. *)
Theorem add_texts_writes_own_tenant texts tenant_id md st :
  writes_only (tenant_is tenant_id)
    (calls (world st))
    (calls (world (snd (add_texts texts tenant_id md st)))).
Proof.
  unfold add_texts.
  pose proof (add_texts_metadata_tenant texts tenant_id md) as Hmd.
  unfold DocumentProcessor_add_texts.
  destruct (negb _); [apply writes_only_refl|].
  match goal with
  | |- context [split_text ?p1] =>
      destruct (split_text p1) as [[chunks|e|] p2] eqn:Hsplit;
        try apply writes_only_refl
  end.
  apply split_text_sources in Hsplit. cbn [data_inputs clear with_status
    with_data_inputs app] in Hsplit.
  simpl.
  match goal with
  | |- context [batch_add_documents ?docs None ?vs ?w] =>
      pose proof (batch_add_documents_writes_only (tenant_is tenant_id)
                    docs None vs w) as Hw;
      destruct (batch_add_documents docs None vs w) as [[r vs1] w2]
  end.
  simpl in Hw.
  assert (Hgoal : writes_only (tenant_is tenant_id) (calls (world st))
                              (calls w2)).
  { apply Hw. apply Forall_forall. intros i Hi.
    apply list_elem_of_In in Hi.
    apply in_map_iff in Hi as (ch' & <- & Hch').
    apply in_map_iff in Hch' as (ch & <- & Hch).
    rewrite Forall_forall in Hsplit.
    destruct (Hsplit ch (proj2 (list_elem_of_In _ _) Hch))
      as (d & Hd & Hdata).
    apply in_map_iff in Hd as (tm & <- & Htm). simpl in Hdata.
    apply in_zip_snd in Htm.
    rewrite Forall_forall in Hmd.
    specialize (Hmd _ (proj2 (list_elem_of_In _ _) Htm)).
    unfold tenant_is, add_texts_document. simpl.
    rewrite Hdata, Hmd. simpl. now rewrite Hdata. }
  destruct r as [ids|e|]; try exact Hgoal.
  destruct (get_status _); exact Hgoal.
Qed.

(** The tenant [process_pdfs] writes: the [tenant_id] of the additional
    metadata when it has one, the tenant of the call otherwise. *)
Definition stored_tenant (tenant_id : string)
    (additional_metadata : option metadata) : string :=
  default tenant_id (additional_metadata ≫= (.!! "tenant_id")).

Lemma base_metadata_tenant (tenant_id : string)
    (additional : option metadata) :
  base_metadata_of tenant_id additional !! "tenant_id"
  = Some (stored_tenant tenant_id additional).
Proof.
  unfold base_metadata_of, stored_tenant. rewrite lookup_union.
  rewrite lookup_singleton_eq.
  destruct additional as [a|]; simpl.
  - destruct (a !! "tenant_id"); reflexivity.
  - rewrite lookup_empty. reflexivity.
Qed.

Lemma process_pdfs_body_writes_only tenant_id input_dir additional st :
  writes_only (tenant_is (stored_tenant tenant_id additional))
    (calls (world st))
    (calls (world (snd (process_pdfs_body tenant_id input_dir additional
                                          st)))).
Proof.
  unfold process_pdfs_body.
  destruct (batch_convert_pdfs_calls (pdf_converter (self st)) tenant_id
              input_dir (disk st) (world st)) as (n1 & H1 & W1).
  destruct (batch_convert_pdfs _ _ _ _ _) as [[r fs1] w1]. simpl in H1.
  assert (Hconv : writes_only (tenant_is (stored_tenant tenant_id additional))
                              (calls (world st)) (calls w1))
    by (rewrite H1; now apply writes_only_silent).
  destruct r as [results|e|]; try exact Hconv.
  destruct (successful results); [exact Hconv|].
  destruct (load_documents _ _ _ _) as [documents|e|]; try exact Hconv.
  destruct (add_documents _ _) as [[u|e|] p1]; try exact Hconv.
  destruct (split_text p1) as [[chunks|e|] p2]; try exact Hconv.
  simpl.
  match goal with
  | |- context [batch_add_documents ?docs None ?vs ?w] =>
      pose proof (batch_add_documents_writes_only
                    (tenant_is (stored_tenant tenant_id additional))
                    docs None vs w) as Hw;
      destruct (batch_add_documents docs None vs w) as [[r vs1] w2]
  end.
  simpl in Hw.
  assert (H2 : writes_only (tenant_is (stored_tenant tenant_id additional))
                           (calls (world st)) (calls w2)).
  { eapply writes_only_trans; [exact Hconv|]. apply Hw.
    apply Forall_forall. intros i Hi. apply list_elem_of_In in Hi.
    apply in_map_iff in Hi as (ch' & <- & Hch').
    apply in_map_iff in Hch' as (ch & <- & Hch).
    unfold tenant_is. simpl. rewrite lookup_union.
    rewrite base_metadata_tenant. now destruct (data ch !! "tenant_id"). }
  destruct r as [ids|e|]; try exact H2.
  destruct (get_status _); exact H2.
Qed.

(** X18 (process_pdfs): the additional metadata can rename the tenant.
    Every element [process_pdfs] hands to the index, in any of its
    attempts, has as [tenant_id] the one of [additional_metadata] when
    that dictionary has the key, and the tenant of the call only when it
    has not. *)
Theorem process_pdfs_tenant_from_additional tenant_id input_dir additional
    st :
  writes_only (tenant_is (stored_tenant tenant_id additional))
    (calls (world st))
    (calls (world (snd (process_pdfs tenant_id input_dir additional st))))
  /\ (forall a other,
         additional = Some a -> a !! "tenant_id" = Some other ->
         stored_tenant tenant_id additional = other)
  /\ (forall a,
         additional = Some a -> a !! "tenant_id" = None ->
         stored_tenant tenant_id additional = tenant_id)
  /\ (additional = None -> stored_tenant tenant_id additional = tenant_id).
Proof.
  split; [|split; [|split]].
  - unfold process_pdfs. apply retrying_writes_only. intros st'.
    apply process_pdfs_body_writes_only.
  - intros a other -> Ha. unfold stored_tenant. simpl. now rewrite Ha.
  - intros a -> Ha. unfold stored_tenant. simpl. now rewrite Ha.
  - intros ->. reflexivity.
Qed.

(** ** The statistics of a run *)

Lemma load_documents_length output_dir (base : metadata) filenames (fs : FS)
    docs :
  load_documents output_dir base filenames fs = Ok docs ->
  length docs = length filenames
  /\ Forall (fun doc => is_Some (in_text doc) /\ is_Some (in_metadata doc))
            docs.
Proof.
  revert docs. induction filenames as [|f rest IH]; intros docs; simpl.
  - intros [= <-]. split; [reflexivity | constructor].
  - destruct (read_file _ _ _); [|discriminate].
    destruct (load_documents _ _ rest fs) as [more| |]; try discriminate.
    intros [= <-]. destruct (IH more eq_refl) as [Hlen Hall].
    split; [simpl; now rewrite Hlen|].
    constructor; [simpl; eauto | exact Hall].
Qed.

Lemma add_documents_length (documents : list InputDoc)
    (p p' : DocumentProcessor) :
  add_documents documents p = (Ok tt, p') ->
  length (data_inputs p')
  = (length (data_inputs p) + length documents)%nat.
Proof.
  revert p. induction documents as [|doc rest IH]; intros p; simpl.
  - intros [= <-]. lia.
  - destruct (in_text doc), (in_metadata doc); try discriminate.
    intros H. rewrite (IH _ H). simpl. rewrite length_app. simpl. lia.
Qed.

Lemma retrying_returned {A} (wait : Z -> Z)
    (body : State -> outcome A * State) (attempts : nat) :
  forall attempt_number st a st',
    retrying attempts attempt_number wait body st = (Ok a, st') ->
    exists st0, body st0 = (Ok a, st').
Proof.
  induction attempts as [|n IH]; intros k st a st'; simpl;
    destruct (body st) as [[a0|e|] st1] eqn:Hb; try discriminate.
  - intros [= <- <-]. eauto.
  - intros [= <- <-]. eauto.
  - destruct n as [|n']; [discriminate|]. apply IH.
Qed.

Lemma process_pdfs_body_stats tenant_id input_dir additional st stats st' :
  process_pdfs_body tenant_id input_dir additional st = (Ok stats, st') ->
  stats_tenant_id stats = tenant_id
  /\ 1 <= pdfs_processed stats
  /\ pdfs_failed stats = Z.of_nat (length (failed_files stats))
  /\ documents_stored stats = chunks_created stats
  /\ output_chunks (processing_stats stats) = chunks_created stats
  /\ input_documents (processing_stats stats) = pdfs_processed stats
  /\ Z.of_nat (length (status (doc_processor (self st'))))
     = chunks_created stats
  /\ Z.of_nat (length (data_inputs (doc_processor (self st'))))
     = pdfs_processed stats.
Proof.
  unfold process_pdfs_body.
  destruct (batch_convert_pdfs _ _ _ _ _) as [[[results|e|] fs1] w1];
    try discriminate.
  destruct (successful results) as [|f fs] eqn:Hs; [discriminate|].
  destruct (load_documents _ _ _ _) as [documents|e|] eqn:Hload;
    try discriminate.
  apply load_documents_length in Hload as [Hlen _].
  destruct (add_documents _ _) as [[[]|e|] p1] eqn:Hadd; try discriminate.
  apply add_documents_length in Hadd. simpl in Hadd.
  destruct (split_text p1) as [[chunks|e|] p2] eqn:Hsplit; try discriminate.
  apply split_text_returned in Hsplit. subst p2.
  destruct (batch_add_documents _ _ _ _) as [[[ids|e|] vs1] w2];
    try discriminate.
  destruct (get_status _) as [report|e|] eqn:Hst; try discriminate.
  intros [= <- <-]. cbn.
  unfold get_status in Hst. cbn [status data_inputs with_status] in Hst.
  rewrite length_map in *.
  assert (Hreport : input_documents report
                    = Z.of_nat (length (data_inputs p1))
                    /\ output_chunks report = Z.of_nat (length chunks)).
  { destruct (map _ chunks) as [|c cs].
    - injection Hst as <-. split; reflexivity.
    - destruct (truediv _ _); try discriminate.
      injection Hst as <-. split; reflexivity. }
  destruct Hreport as [-> ->]. rewrite Hadd, Hlen.
  repeat split; try reflexivity. simpl. lia.
Qed.

(** X19 (process_pdfs): the statistics of a run that returned.  The
    tenant reported is the tenant of the call; at least one PDF was
    converted; the failures counted are the files listed; the chunks
    created, the documents stored and the output chunks of the
    processor's report are one number; and the processor's report counts
    as input documents exactly the PDFs converted in this run, whatever
    the processor held before. *)
Theorem process_pdfs_statistics tenant_id input_dir additional st stats st' :
  process_pdfs tenant_id input_dir additional st = (Ok stats, st') ->
  stats_tenant_id stats = tenant_id
  /\ 1 <= pdfs_processed stats
  /\ pdfs_failed stats = Z.of_nat (length (failed_files stats))
  /\ documents_stored stats = chunks_created stats
  /\ output_chunks (processing_stats stats) = chunks_created stats
  /\ input_documents (processing_stats stats) = pdfs_processed stats
  /\ Z.of_nat (length (status (doc_processor (self st'))))
     = chunks_created stats
  /\ Z.of_nat (length (data_inputs (doc_processor (self st'))))
     = pdfs_processed stats.
Proof.
  unfold process_pdfs. intros H.
  apply retrying_returned in H as (st0 & H).
  exact (process_pdfs_body_stats _ _ _ _ _ _ H).
Qed.

(** ** The background task of [main.py] *)

























(** ** The search endpoint of [main.py] *)

(** The variables [Settings] reads from the environment, [None] when one
    is not set. *)
Record Settings : Type := mkSettings {
  OPENAI_API_KEY : option string;
  COSMOS_DB_NAME : option string;
  COSMOS_CONTAINER_NAME : option string;
  COSMOS_ENDPOINT : option string;
}.

(** A value of [Settings] inside an f-string. *)
Definition fstring (v : option string) : string := default "None" v.

(** [get_tenant_pipeline]: a new pipeline for every request, in the
    tenant's container, with the defaults of [DocumentPipeline.__init__]. *)
Definition get_tenant_pipeline (base tenant_id : string) (config : Settings)
  : DocumentPipeline :=
  DocumentPipeline_init base
    (fstring (COSMOS_DB_NAME config) +:+ "."
     +:+ (fstring (COSMOS_CONTAINER_NAME config) +:+ "_" +:+ tenant_id))
    1536 100 1000 200 (String newline (String newline "")) 100.

(** The dictionaries of a request, by address: two names may hold the
    same dictionary, and an assignment through one shows through the
    other. *)
Abbreviation Heap := (gmap nat metadata).

(** [SearchQuery]: [metadata_filter] is [None] or the address of the
    dictionary the request carried. *)
Record SearchQuery : Type := mkSearchQuery {
  sq_query : string;
  sq_k : Z;
  sq_metadata_filter : option nat;
}.

(** A new dictionary [{}]. *)
Definition new_dict (h : Heap) : nat * Heap :=
  let l := fresh (dom h) in (l, <[l := ∅]> h).

(** The truth value of [None] or a dictionary. *)
Definition truthy (r : option nat) (h : Heap) : bool :=
  match r ≫= (h !!.) with
  | Some d => negb (bool_decide (d = ∅))
  | None => false
  end.

(** [d[key] = value] on the dictionary at an address. *)
Definition setitem (l : nat) (key value : string) (h : Heap) : Heap :=
  alter (insert key value) l h.

(** The value an argument holds: [None], or the dictionary at its
    address as it is at the time of the call. *)
Definition argument_value (r : option nat) (h : Heap) : pyvalue :=
  match r ≫= (h !!.) with
  | Some d => VDict d
  | None => VNone
  end.

(** The metadata of a formatted result. *)
Record ResultMetadata : Type := mkResultMetadata {
  rm_id : option string;
  rm_tenant_id : option string;
  rm_source : option string;
  rm_type : option string;
  rm_original_path : option string;
}.

Record FormattedResult : Type := mkFormattedResult {
  fr_content : string;
  fr_metadata : ResultMetadata;
}.

(** An entry of [formatted_results]: lines 180 to 189. *)
Definition format_result (doc : Document) : FormattedResult :=
  mkFormattedResult
    (page_content doc)
    (mkResultMetadata
       match doc_metadata doc !! "_id" with
       | Some i => if String.eqb i "" then None else Some i
       | None => None
       end
       (doc_metadata doc !! "tenant_id")
       (doc_metadata doc !! "source")
       (doc_metadata doc !! "type")
       (doc_metadata doc !! "original_path")).

(** The search endpoint from the pipeline to the formatted results:
    lines 166 to 191. *)
Definition search_endpoint_results (base : string) (config : Settings)
    (tenant_id : string) (q : SearchQuery) (h : Heap) (w : World W)
  : outcome (list FormattedResult) * Heap * World W :=
  let pipeline := get_tenant_pipeline base tenant_id config in
  let '(metadata_filter, h1) :=
    if truthy (sq_metadata_filter q) h
    then (default 0%nat (sq_metadata_filter q), h)
    else new_dict h in
  let h2 := setitem metadata_filter "tenant_id" tenant_id h1 in
  match VectorStore_call "advanced_search" []
          [("query", VStr (sq_query q)); ("k", VInt (sq_k q));
           ("metadata_filter", argument_value (sq_metadata_filter q) h2)]
          (vector_store pipeline) w with
  | (Raise e, _, w1) => (Raise e, h2, w1)
  | (Hang, _, w1) => (Hang, h2, w1)
  | (Ok (VDocuments docs), _, w1) => (Ok (map format_result docs), h2, w1)
  | (Ok _, _, w1) => (Raise (TypeError "object is not iterable"), h2, w1)
  end.

(** The filter that reaches the search, from what the request carried. *)
Definition filter_passed (tenant_id : string) (carried : option metadata)
  : pyvalue :=
  match carried with
  | None => VNone
  | Some d =>
      if decide (d = ∅) then VDict ∅
      else VDict (<["tenant_id" := tenant_id]> d)
  end.

Lemma new_dict_fresh (h : Heap) : h !! fst (new_dict h) = None.
Proof.
  unfold new_dict. simpl. apply not_elem_of_dom, is_fresh.
Qed.

(** The address a query holds is the address of a dictionary. *)
Definition query_allocated (q : SearchQuery) (h : Heap) : Prop :=
  match sq_metadata_filter q with
  | Some l => is_Some (h !! l)
  | None => True
  end.

Lemma argument_value_passed (tenant_id : string) (q : SearchQuery)
    (h : Heap) :
  query_allocated q h ->
  argument_value (sq_metadata_filter q)
    (setitem
       (fst (if truthy (sq_metadata_filter q) h
             then (default 0%nat (sq_metadata_filter q), h)
             else new_dict h))
       "tenant_id" tenant_id
       (snd (if truthy (sq_metadata_filter q) h
             then (default 0%nat (sq_metadata_filter q), h)
             else new_dict h)))
  = filter_passed tenant_id (sq_metadata_filter q ≫= (h !!.)).
Proof.
  unfold query_allocated, truthy, argument_value, setitem, filter_passed.
  destruct (sq_metadata_filter q) as [l|]; simpl; [|reflexivity].
  intros [d E]. rewrite E. simpl.
  destruct (decide (d = ∅)) as [->|Hd].
  - rewrite bool_decide_eq_true_2 by reflexivity. simpl.
    pose proof (new_dict_fresh h) as Hf.
    assert (Hl : fresh (dom h) <> l).
    { intros Heq. unfold new_dict in Hf. simpl in Hf.
      rewrite Heq, E in Hf. discriminate. }
    rewrite lookup_alter_ne by exact Hl.
    rewrite lookup_insert_ne by exact Hl. rewrite E. reflexivity.
  - rewrite bool_decide_eq_false_2 by exact Hd. simpl.
    rewrite lookup_alter_eq, E. reflexivity.
Qed.

(** The call of the endpoint binds its three keywords and leaves the
    other parameters of [advanced_search] to their defaults. *)
Lemma endpoint_call_binds (qv fv : pyvalue) (kv : Z) (vs : VectorStore)
    (w : World W) :
  VectorStore_call "advanced_search" []
    [("query", qv); ("k", VInt kv); ("metadata_filter", fv)] vs w
  = match advanced_search qv SIMILARITY fv kv 0 (1 # 2) vs w with
    | (Ok docs, vs1, w1) => (Ok (VDocuments docs), vs1, w1)
    | (Raise e, vs1, w1) => (Raise e, vs1, w1)
    | (Hang, vs1, w1) => (Hang, vs1, w1)
    end.
Proof. reflexivity. Qed.

(** X21 (search endpoint): the tenant filter reaches the search only
    when the request carried a filter that is not empty.  The endpoint
    searches with [advanced_search] by similarity, with the [k] of the
    query, on a pipeline made for the request; the filter it passes is
    the dictionary of the request with [tenant_id] set to the tenant
    when that dictionary is not empty, but [None] when the request
    carried no filter and the empty dictionary when it carried an empty
    one: the [tenant_id] is then written to a dictionary that is not
    passed on. *)
Theorem search_endpoint_filter (base : string) (config : Settings)
    (tenant_id : string) (q : SearchQuery) (h : Heap) (w : World W) :
  query_allocated q h ->
  let passed :=
    match sq_metadata_filter q ≫= (h !!.) with
    | None => VNone
    | Some d =>
        if decide (d = ∅) then VDict ∅
        else VDict (<["tenant_id" := tenant_id]> d)
    end in
  let search :=
    advanced_search (VStr (sq_query q)) SIMILARITY passed (sq_k q) 0 (1 # 2)
      (vector_store (get_tenant_pipeline base tenant_id config)) w in
  fst (fst (search_endpoint_results base config tenant_id q h w))
  = match fst (fst search) with
    | Ok docs => Ok (map format_result docs)
    | Raise e => Raise e
    | Hang => Hang
    end
  /\ snd (search_endpoint_results base config tenant_id q h w) = snd search.
Proof.
  intros Halloc passed search. unfold search_endpoint_results.
  pose proof (argument_value_passed tenant_id q h Halloc) as Hp.
  destruct (if truthy (sq_metadata_filter q) h
            then (default 0%nat (sq_metadata_filter q), h)
            else new_dict h) as [metadata_filter h1].
  simpl in Hp. rewrite Hp, endpoint_call_binds.
  fold (filter_passed tenant_id (sq_metadata_filter q ≫= (h !!.))) in passed.
  fold passed. fold search.
  destruct search as [[[docs|e|] vs1] w1]; split; reflexivity.
Qed.

(** X22 (search endpoint): every search asks for the index again.  The
    pipeline of a request is new and its flag unset, so the one call the
    search step of a request records is a creation of the index, with
    the default parameters, whether the search then succeeds or not. *)
Theorem search_endpoint_creates_index (base : string) (settings : Settings)
    (tenant_id : string) (q : SearchQuery) (h : Heap) (w : World W) :
  calls (snd (search_endpoint_results base settings tenant_id q h w))
  = (calls w ++ [CallCreateIndex 100 1536 16 64])%list.
Proof.
  unfold search_endpoint_results.
  destruct (if truthy (sq_metadata_filter q) h
            then (default 0%nat (sq_metadata_filter q), h)
            else new_dict h) as [metadata_filter h1].
  rewrite endpoint_call_binds.
  unfold advanced_search, ensure_index_exists, call_create_index.
  cbn [get_tenant_pipeline DocumentPipeline_init vector_store _index_created
       config num_lists dimensions m ef_construction].
  destruct (cosmos_create_index _ _ _ _ _) as [r e]. simpl.
  destruct r as [u|err].
  - destruct (cosmos_similarity_search _ _ _ _ _) as [r2 e2].
    destruct r2; reflexivity.
  - destruct (Str.contains _ _); [|reflexivity].
    destruct (cosmos_similarity_search _ _ _ _ _) as [r2 e2].
    destruct r2; reflexivity.
Qed.

(** ** More of [add_texts] *)

Lemma add_texts_metadata_length (texts : list string) (tenant_id : string)
    (md : option (list metadata)) :
  length (add_texts_metadata texts tenant_id md)
  = match md with Some l => length l | None => length texts end.
Proof. unfold add_texts_metadata. destruct md; apply length_map. Qed.

(** X23 (add_texts of the pipeline): its two ends.  A metadata list of
    another length than the texts makes it raise [ValueError] before
    anything reaches the index, with the processor left empty; when it
    returns, the tenant reported is the tenant of the call, the chunks
    created, the documents stored and the output chunks of the report
    are one number, and the report counts one input document per text. *)
Theorem add_texts_outcomes texts tenant_id md st :
  (forall l,
      md = Some l -> length l <> length texts ->
      add_texts texts tenant_id md st
      = (Raise (ValueError "Number of texts and metadata entries must match"),
         mkState (with_processor (clear (doc_processor (self st))) (self st))
                 (disk st) (world st)))
  /\ (forall t created stored report st',
         add_texts texts tenant_id md st
         = (Ok (t, created, stored, report), st') ->
         t = tenant_id
         /\ stored = created
         /\ output_chunks report = created
         /\ input_documents report = Z.of_nat (length texts)).
Proof.
  split.
  - intros l -> Hlen. unfold add_texts, DocumentProcessor_add_texts.
    rewrite add_texts_metadata_length.
    destruct (Nat.eqb_spec (length texts) (length l)) as [E|_];
      [congruence | reflexivity].
  - intros t created stored report st'.
    unfold add_texts, DocumentProcessor_add_texts.
    rewrite add_texts_metadata_length.
    destruct (Nat.eqb_spec (length texts)
                (match md with Some l => length l | None => length texts end))
      as [Hlen|_]; [|discriminate].
    cbn [negb].
    match goal with
    | |- context [split_text ?p1] =>
        destruct (split_text p1) as [[chunks|e|] p2] eqn:Hsplit;
          try discriminate
    end.
    apply split_text_returned in Hsplit. subst p2.
    cbv zeta.
    destruct (batch_add_documents _ _ _ _) as [[[ids|e|] vs1] w2];
      try discriminate.
    destruct (get_status _) as [rep|e|] eqn:Hst; try discriminate.
    intros [= <- <- <- <- _].
    unfold get_status in Hst.
    cbn [status data_inputs with_status with_data_inputs clear app] in Hst.
    rewrite !length_map in Hst.
    assert (Hzip : length (zip texts (add_texts_metadata texts tenant_id md))
                   = length texts).
    { rewrite length_zip, add_texts_metadata_length. lia. }
    rewrite Hzip in Hst.
    destruct (map _ chunks) as [|c cs].
    + injection Hst as <-. repeat split; reflexivity.
    + destruct (truediv _ _); try discriminate.
      injection Hst as <-. repeat split; reflexivity.
Qed.

End Collaborators.

(** * Example collaborators

    One behaviour of the collaborators, on which the statements above are
    exercised: an index that refuses to be created twice and whose writes
    fail a given number of times, a converter that fails on the files
    whose name ends in [bad.pdf], and a splitter that cuts windows. *)

Module Demo.

Record Cosmos : Type := mkCosmos {
  index_exists : bool;
  stored : list item;
  write_failures : nat;
}.

Definition create_index (_ _ _ _ : Z) (c : Cosmos) : reply unit * Cosmos :=
  if index_exists c
  then (Raises (CollaboratorError "Index vector-search-index Already Exists"),
        c)
  else (Returns tt, mkCosmos true (stored c) (write_failures c)).

Definition write (docs : list item) (c : Cosmos)
  : reply (list string) * Cosmos :=
  match write_failures c with
  | S n =>
      (Raises (CollaboratorError "connection reset"),
       mkCosmos (index_exists c) (stored c) n)
  | O =>
      (Returns (map (fun _ => "id") docs),
       mkCosmos (index_exists c) (stored c ++ docs)%list O)
  end.

Definition add_documents := write.

Definition add_texts (texts : list item) (_ : option (list metadata))
  := write texts.

Definition convert (pdf_path : string)
    (_ : gmap string (gmap string string)) (c : Cosmos)
  : reply string * Cosmos :=
  if Str.endswith "bad.pdf" pdf_path
  then (Raises (CollaboratorError "not a PDF"), c)
  else (Returns ("Text of " +:+ pdf_path), c).


Definition unescape (s : string) : string := s.

Definition new_splitter (overlap size : Z) (_ : string) (_ : bool)
  : reply (nat * nat) :=
  if size <? overlap
  then Raises (ValueError "Got a larger chunk overlap than chunk size")
  else Returns (Z.to_nat size, Z.to_nat (size - overlap)).

Fixpoint drop_chars (n : nat) (s : string) : string :=
  match n, s with
  | S n', String _ rest => drop_chars n' rest
  | _, _ => s
  end.

Fixpoint windows (fuel size step : nat) (s : string) : list string :=
  match fuel with
  | O => []
  | S fuel' =>
      if (String.length s <=? size)%nat
      then match s with EmptyString => [] | _ => [s] end
      else String.substring 0 size s
             :: windows fuel' size step (drop_chars (S (Nat.pred step)) s)
  end.

Definition split (sp : nat * nat) (s : string) : reply (list string) :=
  Returns (windows (String.length s) (fst sp) (snd sp) s).

Definition fresh (failures : nat) : World Cosmos :=
  mkWorld (mkCosmos false [] failures) [].

Definition store : VectorStore :=
  mkVectorStore "db.docs" "vector-search-index" VectorSearchConfig_default
                BatchConfig_default false.

(** The index exists already, and the store does not know it. *)
Definition existing : World Cosmos :=
  mkWorld (mkCosmos true [] 0) [].

(** A pipeline with chunks of 20 characters that overlap by 5 and are
    kept from 5 characters on. *)
Definition pipeline : DocumentPipeline :=
  DocumentPipeline_init "/srv" "db.docs_acme" 1536 100 20 5
                        (String newline (String newline "")) 5.

(** The tenant's directory holds a good PDF, a bad one, and a file that
    is no PDF. *)
Definition disk : gmap string (gmap string string) :=
  {[ "/srv/policy_docs/acme" :=
       {[ "a.pdf" := "%PDF-a"; "bad.pdf" := "junk"; "notes.txt" := "x" ]} ]}.


Definition state (failures : nat) : State :=
  mkState pipeline disk (fresh failures).


(** A chunk without a tenant. *)
Definition untagged : item := ItemDoc (mkDocument "no tenant here" ∅).

(** A processor that holds a short and a long document. *)
Definition processor : DocumentProcessor :=
  mkDocumentProcessor 20 5 (String newline (String newline "")) 10 true true
    [mkData "short" ∅; mkData "a text of more than twenty characters" ∅]
    [].

Lemma substring_length_le (n : nat) (s : string) :
  (String.length (String.substring 0 n s) <= String.length s)%nat.
Proof.
  revert s. induction n as [|n IH]; intros [|c s]; simpl; try lia.
  specialize (IH s). lia.
Qed.

Lemma drop_chars_length_le (n : nat) (s : string) :
  (String.length (drop_chars n s) <= String.length s)%nat.
Proof.
  revert s. induction n as [|n IH]; intros [|c s]; simpl; try lia.
  specialize (IH s). lia.
Qed.

Lemma windows_no_longer (fuel size step : nat) (s c : string) :
  In c (windows fuel size step s) ->
  (String.length c <= String.length s)%nat.
Proof.
  revert s. induction fuel as [|fuel IH]; intros s; cbn [windows];
    [intros []|].
  destruct (String.length s <=? size)%nat.
  - destruct s; [intros []|]. intros [<-|[]]. lia.
  - intros [<-|Hin].
    + apply substring_length_le.
    + specialize (IH _ Hin).
      pose proof (drop_chars_length_le (S (Nat.pred step)) s). lia.
Qed.

(** The example splitter cuts no chunk longer than its text. *)
Lemma split_no_longer (sp : nat * nat) (s : string) (cs : list string)
    (c : string) :
  split sp s = Returns cs -> In c cs -> Str.len c <= Str.len s.
Proof.
  unfold split. intros [= <-] Hin. unfold Str.len.
  apply Nat2Z.inj_le. exact (windows_no_longer _ _ _ _ _ Hin).
Qed.


End Demo.

(** * The statements on the example collaborators *)

(** C9 on an index that exists already: the first call meets the
    "Already Exists" error and returns, and the second changes nothing. *)
Lemma ensure_index_exists_idempotent_witness :
  ensure_index_exists Demo.create_index Demo.store Demo.existing
  = (Ok tt, set_index_created Demo.store,
     mkWorld (Demo.mkCosmos true [] 0) [CallCreateIndex 100 1536 16 64])
  /\ ensure_index_exists Demo.create_index (set_index_created Demo.store)
       (mkWorld (Demo.mkCosmos true [] 0) [CallCreateIndex 100 1536 16 64])
     = (Ok tt, set_index_created Demo.store,
        mkWorld (Demo.mkCosmos true [] 0) [CallCreateIndex 100 1536 16 64]).
Proof.
  destruct (ensure_index_exists_idempotent Demo.create_index Demo.store
              Demo.existing) as [Hidem Hexists].
  assert (H1 : ensure_index_exists Demo.create_index Demo.store Demo.existing
               = (Ok tt, set_index_created Demo.store,
                  mkWorld (Demo.mkCosmos true [] 0)
                          [CallCreateIndex 100 1536 16 64])).
  { apply (Hexists (CollaboratorError
                      "Index vector-search-index Already Exists"));
      reflexivity. }
  split; [exact H1 | exact (Hidem _ _ H1)].
Defined.

(** C4 on a short and a long document: the chunks that come back are
    two chunks of the long document, each of 10 characters or more; its
    last chunk, of 8 characters, and the short document are dropped. *)
Lemma split_text_drops_short_chunks_witness :
  split_text Demo.unescape Demo.new_splitter Demo.split Demo.processor
  = (Ok [mkData "a text of more than " ∅; mkData "than twenty characte" ∅],
     with_status [mkData "a text of more than " ∅;
                  mkData "than twenty characte" ∅] Demo.processor)
  /\ Forall (fun d => min_chunk_size Demo.processor <= Str.len (text d))
            [mkData "a text of more than " ∅;
             mkData "than twenty characte" ∅].
Proof.
  assert (Hrun : split_text Demo.unescape Demo.new_splitter Demo.split
                            Demo.processor
                 = (Ok [mkData "a text of more than " ∅;
                        mkData "than twenty characte" ∅],
                    with_status [mkData "a text of more than " ∅;
                                 mkData "than twenty characte" ∅]
                                Demo.processor)).
  { vm_compute. reflexivity. }
  split; [exact Hrun|].
  exact (proj1 (split_text_drops_short_chunks Demo.unescape Demo.new_splitter
                  Demo.split Demo.processor _ _ Demo.split_no_longer Hrun)).
Defined.


(** C2 refuted: a chunk without [tenant_id] is written to the index and
    the batch write returns its identifier. *)
Lemma batch_add_documents_accepts_untagged :
  item_metadata Demo.untagged !! "tenant_id" = None
  /\ batch_add_documents Demo.create_index Demo.add_documents Demo.add_texts
       [Demo.untagged] None Demo.store (Demo.fresh 0)
     = (Ok ["id"], set_index_created Demo.store,
        mkWorld (Demo.mkCosmos true [Demo.untagged] 0)
                [CallCreateIndex 100 1536 16 64;
                 CallAddDocuments [Demo.untagged]]).
Proof. split; vm_compute; reflexivity. Qed.

(** C2 as amended, on the same chunk and on a run of the pipeline. *)
Lemma batch_write_unchecked_callers_tag_witness :
  (exists r w' new,
      batch_add_documents Demo.create_index Demo.add_documents Demo.add_texts
        [Demo.untagged] None Demo.store (Demo.fresh 0)
      = (r, set_index_created Demo.store, w')
      /\ r <> Hang
      /\ calls w' = ([CallCreateIndex 100 1536 16 64] ++ new)%list
      /\ flat_map written new = [Demo.untagged])
  /\ tagged_extension
       []
       (calls (world (snd (process_pdfs Demo.create_index Demo.add_documents
                             Demo.add_texts Demo.unescape Demo.new_splitter
                             Demo.split Demo.convert "acme" None None
                             (Demo.state 0))))).
Proof.
  destruct (batch_write_unchecked_callers_tag Demo.create_index
              Demo.add_documents Demo.add_texts Demo.unescape
              Demo.new_splitter Demo.split Demo.convert)
    as (Hforward & Hprocess & _).
  split.
  - apply (Hforward [Demo.untagged] Demo.store (set_index_created Demo.store)
             (Demo.fresh 0)
             (mkWorld (Demo.mkCosmos true [] 0)
                      [CallCreateIndex 100 1536 16 64]));
      reflexivity.
  - exact (Hprocess "acme" None None (Demo.state 0)).
Defined.



(** * More example collaborators

    An index with small batches, one that cannot be created, writes that
    always succeed, a search that honours the filter it is given, and a
    disk with a directory of uploads. *)

Module Sample.

Definition doc (content tenant : string) : item :=
  ItemDoc (mkDocument content {[ "tenant_id" := tenant ]}).

Definition five : list item :=
  [doc "one" "acme"; doc "two" "acme"; doc "three" "acme";
   doc "four" "acme"; doc "five" "acme"].

(** Batches of two. *)
Definition small_store : VectorStore :=
  mkVectorStore "db.docs" "vector-search-index" VectorSearchConfig_default
                (mkBatchConfig 2 4) false.

(** A batch size of zero, and a concurrency of zero. *)
Definition zero_batch_store : VectorStore :=
  mkVectorStore "db.docs" "vector-search-index" VectorSearchConfig_default
                (mkBatchConfig 0 4) false.

Definition zero_concurrency_store : VectorStore :=
  mkVectorStore "db.docs" "vector-search-index" VectorSearchConfig_default
                (mkBatchConfig 100 0) false.

(** The world once the index of the example is created. *)
Definition created : World Demo.Cosmos :=
  mkWorld (Demo.mkCosmos true [] 0) [CallCreateIndex 100 1536 16 64].

(** An index that cannot be created. *)
Definition refuse_index (_ _ _ _ : Z) (c : Demo.Cosmos)
  : reply unit * Demo.Cosmos :=
  (Raises (CollaboratorError "quota exceeded"), c).

(** Writes that always succeed, with one identifier per element. *)
Definition accept_documents (docs : list item) (c : Demo.Cosmos)
  : reply (list string) * Demo.Cosmos :=
  (Returns (map (fun _ => "id") docs),
   Demo.mkCosmos (Demo.index_exists c) (Demo.stored c ++ docs)%list
                 (Demo.write_failures c)).

Definition accept_texts (texts : list item) (_ : option (list metadata))
  := accept_documents texts.

(** A search that returns the stored documents whose metadata agree with
    the filter, all of them when the filter is no dictionary or is empty. *)
Definition agrees (filter : pyvalue) (i : item) : bool :=
  match filter with
  | VDict d =>
      forallb (fun kv => bool_decide (item_metadata i !! fst kv
                                      = Some (snd kv)))
              (map_to_list d)
  | _ => true
  end.

Definition documents_of (l : list item) : list Document :=
  omap (fun i => match i with ItemDoc d => Some d | ItemStr _ => None end) l.

Definition similarity_search (_ : pyvalue) (k : Z) (filter : pyvalue)
    (_ : option Q) (c : Demo.Cosmos) : reply (list Document) * Demo.Cosmos :=
  (Returns (take (Z.to_nat k)
                 (documents_of (List.filter (agrees filter) (Demo.stored c)))),
   c).

Definition mmr_search (q : pyvalue) (k _ : Z) (_ : Q) (filter : pyvalue)
  := similarity_search q k filter None.

(** An index that holds a document of each of two tenants. *)
Definition shared : World Demo.Cosmos :=
  mkWorld (Demo.mkCosmos false
             [doc "leave policy of acme" "acme";
              doc "leave policy of globex" "globex"] 0) [].

Definition settings : Settings :=
  mkSettings (Some "sk-key") (Some "db") (Some "docs") (Some "endpoint").



(** A text with spaces to clean. *)
Definition messy : string :=
  "  two   spaces " +:+ String newline (String newline (String newline ""))
  +:+ "   and lines  ".

End Sample.

(** * The further statements on the example collaborators *)

(** X1 on five documents and batches of two: three writes, of two, two
    and one document. *)
Lemma batch_add_documents_groups_witness :
  exists new,
    calls (snd (batch_add_documents Demo.create_index Demo.add_documents
                  Demo.add_texts Sample.five None Sample.small_store
                  (Demo.fresh 0)))
    = (calls Sample.created ++ new)%list
    /\ map length (write_batches new) = [2; 2; 1]%nat
    /\ concat (write_batches new) = Sample.five.
Proof.
  destruct (batch_add_documents_groups Demo.create_index Demo.add_documents
              Demo.add_texts Sample.five Sample.small_store
              (set_index_created Sample.small_store) (Demo.fresh 0)
              Sample.created)
    as (new & Hcalls & _ & Hconcat & _);
    [reflexivity | reflexivity | reflexivity |].
  exists new. split; [exact Hcalls|]. split; [|exact Hconcat].
  assert (Hrun : calls (snd (batch_add_documents Demo.create_index
                               Demo.add_documents Demo.add_texts Sample.five
                               None Sample.small_store (Demo.fresh 0)))
                 = (calls Sample.created
                    ++ [CallAddDocuments (take 2 Sample.five);
                        CallAddDocuments (take 2 (drop 2 Sample.five));
                        CallAddDocuments (drop 4 Sample.five)])%list)
    by (vm_compute; reflexivity).
  rewrite Hrun in Hcalls. apply app_inv_head in Hcalls. subst new.
  reflexivity.
Defined.

(** X2 on a batch size of zero and on a concurrency of zero. *)
Lemma batch_add_documents_degenerate_witness :
  batch_add_documents Demo.create_index Demo.add_documents Demo.add_texts
    Sample.five None Sample.zero_batch_store (Demo.fresh 0)
  = (Raise (ValueError "range() arg 3 must not be zero"),
     set_index_created Sample.zero_batch_store, Sample.created)
  /\ batch_add_documents Demo.create_index Demo.add_documents Demo.add_texts
       Sample.five None Sample.zero_concurrency_store (Demo.fresh 0)
     = (Hang, set_index_created Sample.zero_concurrency_store,
        Sample.created).
Proof.
  split.
  - apply (batch_add_documents_degenerate Demo.create_index
             Demo.add_documents Demo.add_texts Sample.five None
             Sample.zero_batch_store
             (set_index_created Sample.zero_batch_store) (Demo.fresh 0)
             Sample.created); reflexivity.
  - apply (batch_add_documents_degenerate Demo.create_index
             Demo.add_documents Demo.add_texts Sample.five None
             Sample.zero_concurrency_store
             (set_index_created Sample.zero_concurrency_store) (Demo.fresh 0)
             Sample.created); [reflexivity | discriminate | reflexivity].
Defined.

(** X3 on the example store. *)
Lemma batch_add_documents_nothing_to_write_witness :
  batch_add_documents Demo.create_index Demo.add_documents Demo.add_texts
    [] None Demo.store (Demo.fresh 0)
  = (Ok [], set_index_created Demo.store, Sample.created).
Proof.
  apply (batch_add_documents_nothing_to_write Demo.create_index
           Demo.add_documents Demo.add_texts None Demo.store);
    [discriminate | reflexivity | reflexivity].
Defined.

(** X4 on five documents, batches of two and one metadata dictionary:
    the first two documents are written and the other three are not. *)
Lemma batch_add_documents_short_metadatas_witness :
  exists new,
    calls (snd (batch_add_documents Demo.create_index Demo.add_documents
                  Demo.add_texts Sample.five (Some [∅]) Sample.small_store
                  (Demo.fresh 0)))
    = (calls Sample.created ++ new)%list
    /\ flat_map written new = take 2 Sample.five.
Proof.
  destruct (batch_add_documents_short_metadatas Demo.create_index
              Demo.add_documents Demo.add_texts Sample.five ∅ []
              Sample.small_store (set_index_created Sample.small_store)
              (Demo.fresh 0) Sample.created)
    as (new & Hcalls & _ & Hwritten);
    [reflexivity | reflexivity | reflexivity |].
  exists new. split; [exact Hcalls|]. rewrite Hwritten. reflexivity.
Defined.

(** X5 on writes that always succeed: five identifiers for five
    documents. *)
Lemma batch_add_documents_returns_ids_witness :
  exists ids w',
    batch_add_documents Demo.create_index Sample.accept_documents
      Sample.accept_texts Sample.five None Sample.small_store (Demo.fresh 0)
    = (Ok ids, set_index_created Sample.small_store, w')
    /\ length ids = 5%nat.
Proof.
  apply (batch_add_documents_returns_ids Demo.create_index
           Sample.accept_documents Sample.accept_texts Sample.five
           Sample.small_store (set_index_created Sample.small_store)
           (Demo.fresh 0) Sample.created).
  - intros docs e. eexists _, _. split; [reflexivity | apply length_map].
  - intros texts mds e. eexists _, _. split; [reflexivity | apply length_map].
  - reflexivity.
  - reflexivity.
  - reflexivity.
Defined.

(** X6 on an index that cannot be created: the batch write raises the
    error of the index, and nothing is written. *)
Lemma batch_add_documents_index_failure_witness :
  batch_add_documents Sample.refuse_index Demo.add_documents Demo.add_texts
    Sample.five None Demo.store (Demo.fresh 0)
  = (Raise (CollaboratorError "quota exceeded"), Demo.store,
     mkWorld (Demo.mkCosmos false [] 0) [CallCreateIndex 100 1536 16 64]).
Proof.
  apply (batch_add_documents_index_failure Sample.refuse_index
           Demo.add_documents Demo.add_texts Sample.five None Demo.store
           (CollaboratorError "quota exceeded") (Demo.fresh 0)
           (mkWorld (Demo.mkCosmos false [] 0)
                    [CallCreateIndex 100 1536 16 64]));
    vm_compute; reflexivity.
Defined.

(** X10 on the example processor, whose documents have empty metadata. *)
Lemma split_text_chunks_inherit_metadata_witness :
  Forall (fun c => exists d,
              In d (data_inputs Demo.processor) /\ data c = data d)
         [mkData "a text of more than " ∅; mkData "than twenty characte" ∅].
Proof.
  apply (split_text_chunks_inherit_metadata Demo.unescape Demo.new_splitter
           Demo.split Demo.processor
           (with_status [mkData "a text of more than " ∅;
                         mkData "than twenty characte" ∅] Demo.processor)).
  vm_compute. reflexivity.
Defined.

(** X12 on a text with spaces at both ends. *)
Lemma _clean_text_stripped_witness :
  starts Str.isspace (_clean_text Demo.processor Sample.messy) = false
  /\ starts Str.isspace (String.rev (_clean_text Demo.processor Sample.messy))
     = false.
Proof.
  apply (_clean_text_stripped Demo.processor Sample.messy); reflexivity.
Defined.


(** X14 on the example directory: the one converted file loads as one
    document. *)
Lemma converted_files_load_witness :
  exists docs,
    load_documents "/srv/processed_texts/acme" {[ "tenant_id" := "acme" ]}
      ["a.pdf"]
      (snd (fst (batch_convert_pdfs Demo.convert (mkBatchPdfConverter "/srv")
                   "acme" None Demo.disk (Demo.fresh 0))))
    = Ok docs
    /\ length docs = 1%nat.
Proof.
  set (run := batch_convert_pdfs Demo.convert (mkBatchPdfConverter "/srv")
                "acme" None Demo.disk (Demo.fresh 0)).
  assert (Hrun : run = (Ok (mkConversionResults ["a.pdf"] ["bad.pdf"] 2),
                        snd (fst run), snd run))
    by (vm_compute; reflexivity).
  destruct (converted_files_load Demo.convert (mkBatchPdfConverter "/srv")
              "acme" None Demo.disk (Demo.fresh 0) _ _ _
              {[ "tenant_id" := "acme" ]} Hrun) as (docs & Hload & Hall).
  exists docs. split; [exact Hload|].
  apply Forall2_length in Hall. rewrite <- Hall. reflexivity.
Defined.


(** X19 on the example run: one PDF converted, one failed, two chunks. *)
Lemma process_pdfs_statistics_witness :
  exists stats st',
    process_pdfs Demo.create_index Demo.add_documents Demo.add_texts
      Demo.unescape Demo.new_splitter Demo.split Demo.convert
      "acme" None None (Demo.state 0) = (Ok stats, st')
    /\ pdfs_processed stats = 1
    /\ documents_stored stats = chunks_created stats
    /\ output_chunks (processing_stats stats) = chunks_created stats
    /\ input_documents (processing_stats stats) = pdfs_processed stats.
Proof.
  set (run := process_pdfs Demo.create_index Demo.add_documents
                Demo.add_texts Demo.unescape Demo.new_splitter Demo.split
                Demo.convert "acme" None None (Demo.state 0)).
  assert (Hrun : run = (Ok (mkProcessingStats "acme" 1 1 ["bad.pdf"] 2 2
                              (mkStatusReport 1 2 (PyFloat (40 # 2)) 40)),
                        snd run))
    by (vm_compute; reflexivity).
  destruct (process_pdfs_statistics Demo.create_index Demo.add_documents
              Demo.add_texts Demo.unescape Demo.new_splitter Demo.split
              Demo.convert "acme" None None (Demo.state 0) _ _ Hrun)
    as (_ & _ & _ & Hstored & Hout & Hin & _).
  eexists _, _. split; [exact Hrun|].
  split; [reflexivity|]. split; [exact Hstored|]. split; assumption.
Defined.


(** X21 on an index shared by two tenants and a search that honours the
    filter it is given: a request of [acme] without a filter gets the
    document of [globex] too, and a request with a filter gets its own
    only. *)
Lemma search_endpoint_filter_witness :
  fst (fst (search_endpoint_results Demo.create_index
              Sample.similarity_search Sample.mmr_search "/srv"
              Sample.settings "acme" (mkSearchQuery "leave" 5 None) ∅
              Sample.shared))
  = Ok [mkFormattedResult "leave policy of acme"
          (mkResultMetadata None (Some "acme") None None None);
        mkFormattedResult "leave policy of globex"
          (mkResultMetadata None (Some "globex") None None None)]
  /\ fst (fst (search_endpoint_results Demo.create_index
                 Sample.similarity_search Sample.mmr_search "/srv"
                 Sample.settings "acme" (mkSearchQuery "leave" 5 (Some 0%nat))
                 {[ 0%nat := {[ "tenant_id" := "globex" ]} ]}
                 Sample.shared))
     = Ok [mkFormattedResult "leave policy of acme"
             (mkResultMetadata None (Some "acme") None None None)].
Proof.
  split.
  - destruct (search_endpoint_filter Demo.create_index
                Sample.similarity_search Sample.mmr_search "/srv"
                Sample.settings "acme" (mkSearchQuery "leave" 5 None) ∅
                Sample.shared I) as [-> _].
    vm_compute. reflexivity.
  - destruct (search_endpoint_filter Demo.create_index
                Sample.similarity_search Sample.mmr_search "/srv"
                Sample.settings "acme" (mkSearchQuery "leave" 5 (Some 0%nat))
                {[ 0%nat := {[ "tenant_id" := "globex" ]} ]}
                Sample.shared) as [-> _].
    + vm_compute. eauto.
    + vm_compute. reflexivity.
Defined.
